(** * ISO-NE five-minute load pipeline: normalizers and history store

    A shallow embedding of
      - [fetch_isone_fivemin_load.normalize_payload]        (module [System]),
      - [fetch_isone_fivemin_zonal_load.normalize_payload]  (module [Zonal]),
      - [poll_isone_to_history._append_idempotent] and the two
        [write_history_*] drivers                            (module [History]),
      - the fetchers and the ingestion cycles of [poll_isone_to_history],
        [pipeline] and [backfill_isone_days]        (modules [Fetch], [Cycle]),
    together with the properties of their specification.

    Modelling conventions.
      - A parsed JSON payload is the tagged union [Json]; a Python dict is an
        association list in insertion order (Python dicts have distinct keys;
        lookups return the first binding).
      - Python strings are modelled by byte strings.  [strip], [upper] and
        [isdigit] are those of Python on ASCII text only ([ascii_text]):
        Python also strips Unicode white space, upper-cases letters and
        accepts digits outside the ASCII range.  The statements that depend
        on them are made for payloads of ASCII text ([ascii_payload]).
      - A pandas [Timestamp] is its wall-clock reading in nanoseconds together
        with an optional UTC offset ([None] for a timezone-naive value);
        [NaT] is a separate constructor.
      - Library calls whose result depends on text parsing or printing
        ([pd.to_datetime], [float] of a string, [repr] of floats and
        containers) are parameters of the development, bundled in [PyLib].
      - A data frame is the list of its rows.  The history directory is a
        finite map from the partition date to the frame last written to the
        file.  What an append reads back from a file is [read_csv] of that
        frame: [pd.read_csv] infers the type of a column from its text, so a
        zone id written as the string "4004" is read back as the integer
        4004.  [read_csv], the sort of the history store and the label of a
        missing date are parameters, bundled in [History.Lib] with what holds
        of them in every pandas version; [SampleCsv] and [SampleHistory] give
        a reference instance on which the model is run.
      - The sort of the history store, [df.sort_values("ts_utc")], is any
        ascending permutation: the default quicksort is free to order rows
        with equal timestamps.  The sort of the normalizers, on several
        columns, is modelled by [Pandas.sort_values], which keeps rows that
        are equal on the sort columns in their order; [drop_duplicates] keeps
        the first row of each key.
      - An exception that the code does not catch ends the call: functions
        that can raise return a [res].
    The properties are stated for every [PyLib] and every [History.Lib];
    [Sample.lib] and [SampleHistory.libs] are reference instances used to run
    the model on the payloads of [Examples]. *)

From Stdlib Require Import ZArith String Ascii.
From Stdlib Require Import Floats.SpecFloat.
From stdpp Require Import base decidable option list gmap strings sorting pretty.

Set Warnings "-register-all".

Local Open Scope string_scope.
Local Open Scope Z_scope.
Local Open Scope list_scope.

(** ** Timestamps *)

(** [Timestamp wall tz]: wall-clock nanoseconds since 1970-01-01T00:00:00 as
    read on the local clock, and the UTC offset (in nanoseconds) when the
    value is timezone-aware. *)
Inductive Datetime :=
  | NaT
  | Timestamp (wall : Z) (tzinfo : option Z).

#[global] Instance Datetime_eq_dec : EqDecision Datetime.
Proof. solve_decision. Defined.

(** The instant denoted on the UTC time line; a naive value is read as UTC,
    as [pd.to_datetime(..., utc=True)] does. *)
Definition instant (t : Datetime) : option Z :=
  match t with
  | NaT => None
  | Timestamp w tz => Some (w - default 0 tz)
  end.

Definition ns_per_day : Z := 86400 * 1000000000.

(** [pd.to_datetime(col, utc=True).dt.date.astype(str)]: the UTC calendar day,
    represented by its day number since the epoch; [None] is the label of a
    missing date (the string "NaT" or a missing value, according to the
    pandas version). *)
Definition utc_date (t : Datetime) : option Z :=
  (λ i, i `div` ns_per_day) <$> instant t.

(** *** Column orders for [sort_values] *)

(** Missing values ([None], [NaT], [NaN]) sort last. *)
Definition compare_na_last {A} (cmp : A → A → comparison) (a b : option A) : comparison :=
  match a, b with
  | None, None => Eq
  | None, Some _ => Gt
  | Some _, None => Lt
  | Some x, Some y => cmp x y
  end.

Definition ts_compare (a b : Datetime) : comparison :=
  compare_na_last Z.compare (instant a) (instant b).

(** Lexicographic combination for a sort on several columns. *)
Definition then_by (c1 c2 : comparison) : comparison :=
  match c1 with Eq => c2 | _ => c1 end.

Definition not_after (c : comparison) : bool :=
  match c with Gt => false | _ => true end.

Definition ts_leb (a b : Datetime) : bool := not_after (ts_compare a b).

(** ** Python values *)

(** IEEE 754 doubles, as sign, mantissa and exponent. *)
Abbreviation float := spec_float.

#[global] Instance float_eq_dec : EqDecision float.
Proof. solve_decision. Defined.

(** What [resp.json()] returns. *)
Inductive Json :=
  | JNull
  | JBool (b : bool)
  | JInt (z : Z)
  | JFloat (f : float)
  | JStr (s : string)
  | JList (items : list Json)
  | JDict (members : list (string * Json)).

Abbreviation dict := (list (string * Json)).

Inductive exn := ValueError | TypeError | OverflowError.

#[global] Instance exn_eq_dec : EqDecision exn.
Proof. solve_decision. Defined.

(** A computation that returns or raises. *)
Inductive res (A : Type) :=
  | Ok (a : A)
  | Raise (e : exn).
Arguments Ok {A} a.
Arguments Raise {A} e.

#[global] Instance res_ret : MRet res := λ A a, Ok a.
#[global] Instance res_bind : MBind res := λ A B k m,
  match m with Ok a => k a | Raise e => Raise e end.

(** [bool(v)] *)
Definition truthy (v : Json) : bool :=
  match v with
  | JNull => false
  | JBool b => b
  | JInt z => negb (z =? 0)
  | JFloat (S754_zero _) => false
  | JFloat _ => true
  | JStr s => negb (String.eqb s "")
  | JList l => match l with [] => false | _ => true end
  | JDict d => match d with [] => false | _ => true end
  end.

(** [v not in (None, "")] *)
Definition not_blank (v : Json) : bool :=
  match v with
  | JNull => false
  | JStr s => negb (String.eqb s "")
  | _ => true
  end.

(** [d.get(k)]: [None] when [k not in d]. *)
Fixpoint dict_get (k : string) (d : dict) : option Json :=
  match d with
  | [] => None
  | (k', v) :: d' => if String.eqb k k' then Some v else dict_get k d'
  end.

(** [for k in keys: if k in d and ok(d[k]): return d[k]] ... [return None] *)
Fixpoint first_hit (ok : Json → bool) (keys : list string) (d : dict) : option Json :=
  match keys with
  | [] => None
  | k :: keys' =>
      match dict_get k d with
      | Some v => if ok v then Some v else first_hit ok keys' d
      | None => first_hit ok keys' d
      end
  end.

(** *** Strings *)

Definition is_space (c : ascii) : bool :=
  let n := nat_of_ascii c in
  ((9 <=? n) && (n <=? 13) || (28 <=? n) && (n <=? 32))%nat.

Definition is_digit (c : ascii) : bool :=
  let n := nat_of_ascii c in ((48 <=? n) && (n <=? 57))%nat.

Definition upper_char (c : ascii) : ascii :=
  let n := nat_of_ascii c in
  if ((97 <=? n) && (n <=? 122))%nat then ascii_of_nat (n - 32) else c.

Fixpoint lstrip (s : string) : string :=
  match s with
  | EmptyString => EmptyString
  | String c s' => if is_space c then lstrip s' else s
  end.

(** [s.strip()] *)
Definition strip (s : string) : string :=
  String.rev (lstrip (String.rev (lstrip s))).

(** [s.upper()] *)
Fixpoint upper (s : string) : string :=
  match s with
  | EmptyString => EmptyString
  | String c s' => String (upper_char c) (upper s')
  end.

Fixpoint all_digits (s : string) : bool :=
  match s with
  | EmptyString => true
  | String c s' => is_digit c && all_digits s'
  end.

(** [s.isdigit()] *)
Definition isdigit (s : string) : bool :=
  match s with EmptyString => false | _ => all_digits s end.

(** [s.startswith(p)] *)
Fixpoint startswith (p s : string) : bool :=
  match p, s with
  | EmptyString, _ => true
  | String a p', String b s' => Ascii.eqb a b && startswith p' s'
  | String _ _, EmptyString => false
  end.

(** [s[n:]] *)
Fixpoint drop_chars (n : nat) (s : string) : string :=
  match n, s with
  | S n', String _ s' => drop_chars n' s'
  | _, _ => s
  end.

(** [s.isascii()] *)
Definition ascii_text (s : string) : bool :=
  forallb (λ c, (nat_of_ascii c <? 128)%nat) (list_ascii_of_string s).

(** A payload whose strings (keys and values) are ASCII text. *)
Fixpoint ascii_payload (v : Json) : bool :=
  match v with
  | JStr s => ascii_text s
  | JList l => forallb ascii_payload l
  | JDict d => forallb (λ kv, ascii_text kv.1 && ascii_payload kv.2) d
  | _ => true
  end.

(** *** Numbers *)

(** [float(z)] for an int: rounded to nearest, [OverflowError] past the
    largest double. *)
Definition float_of_int (z : Z) : res float :=
  match binary_normalize 53 1024 z 0 false with
  | S754_infinity _ => Raise OverflowError
  | f => Ok f
  end.

(** [int(f)] for a float: truncation toward zero. *)
Definition int_of_float (f : float) : res Z :=
  match f with
  | S754_zero _ => Ok 0
  | S754_finite s m e => Ok (if s then - Z.shiftl (Zpos m) e else Z.shiftl (Zpos m) e)
  | S754_nan => Raise ValueError
  | S754_infinity _ => Raise OverflowError
  end.

(** ** Library interface *)

(** The calls into pandas and the Python runtime whose results depend on
    parsing or printing text. *)
Record PyLib := {
  (** [pd.to_datetime(v, utc=False, errors="coerce")] *)
  to_datetime : Json → res Datetime;
  (** [float(s)] for a string; [None] when it raises [ValueError] *)
  float_of_str : string → option float;
  (** [str(v)] for floats, lists and dicts *)
  repr : Json → string;
}.

(** [str(v)] *)
Definition py_str (lib : PyLib) (v : Json) : string :=
  match v with
  | JStr s => s
  | JInt z => pretty z
  | JBool true => "True"
  | JBool false => "False"
  | JNull => "None"
  | _ => repr lib v
  end.

(** [try: float(v) except (TypeError, ValueError): None] *)
Definition py_float (lib : PyLib) (v : Json) : res (option float) :=
  match v with
  | JFloat f => Ok (Some f)
  | JInt z => f ← float_of_int z; Ok (Some f)
  | JBool b => f ← float_of_int (Z.b2z b); Ok (Some f)
  | JStr s => Ok (float_of_str lib s)
  | JNull | JList _ | JDict _ => Ok None
  end.

(** [ts_local.tz_convert("UTC")] *)
Definition tz_convert_utc (t : Datetime) : res Datetime :=
  match t with
  | NaT => Ok NaT
  | Timestamp w (Some off) => Ok (Timestamp (w - off) (Some 0))
  | Timestamp _ None => Raise TypeError
  end.

(** [ts_local.tz_localize("UTC")] *)
Definition tz_localize_utc (t : Datetime) : res Datetime :=
  match t with
  | NaT => Ok NaT
  | Timestamp w None => Ok (Timestamp w (Some 0))
  | Timestamp _ (Some _) => Raise TypeError
  end.

(** The expression both normalizers use to derive [ts_utc]:
    [ts_local.tz_convert("UTC") if (ts_local is not pd.NaT and ts_local.tzinfo)
     else (ts_local.tz_localize("UTC") if ts_local is not pd.NaT else pd.NaT)] *)
Definition utc_of_local (ts_local : Datetime) : res Datetime :=
  match ts_local with
  | Timestamp _ (Some _) => tz_convert_utc ts_local
  | Timestamp _ None => tz_localize_utc ts_local
  | NaT => Ok NaT
  end.

(** ** Data frames as row lists *)

Module Pandas.
Section frame.
Context {Row Key : Type} `{EqDecision Key}.

(** [df.drop_duplicates(subset=key_cols)], default [keep="first"]. *)
Fixpoint drop_duplicates (key_cols : Row → Key) (df : list Row) : list Row :=
  match df with
  | [] => []
  | r :: df' =>
      r :: filter (λ r', key_cols r' ≠ key_cols r) (drop_duplicates key_cols df')
  end.

Fixpoint insert_sorted (leb : Row → Row → bool) (r : Row) (df : list Row) : list Row :=
  match df with
  | [] => [r]
  | x :: df' => if leb r x then r :: x :: df' else x :: insert_sorted leb r df'
  end.

(** [df.sort_values(by)] for a list [by] of several columns, as a stable
    sort for the order [leb]. *)
Fixpoint sort_values (leb : Row → Row → bool) (df : list Row) : list Row :=
  match df with
  | [] => []
  | r :: df' => insert_sorted leb r (sort_values leb df')
  end.

(** Every row is before ([leb]) every later row. *)
Definition sorted_by (leb : Row → Row → bool) (df : list Row) : Prop :=
  StronglySorted (λ a b, leb a b = true) df.
End frame.
End Pandas.


(** ** System normalizer ([fetch_isone_fivemin_load.py]) *)

Module System.

Record Row := {
  ts_utc : Datetime;
  ts_local : Datetime;
  location : string;
  load_mw : option float;
  is_system : bool;
}.

#[global] Instance Row_eq_dec : EqDecision Row.
Proof. solve_decision. Defined.

Definition TIME_KEYS : list string :=
  ["BeginDate"; "BeginDateTime"; "BeginDateUTC"; "BeginDatetime"].
Definition VALUE_KEYS : list string := ["LoadMw"; "LoadMW"; "Load"; "Value"].
Definition LOC_KEYS : list string := ["Location"; "Loc"; "Zone"; "LocName"].

Definition extract_time (d : dict) : option Json := first_hit truthy TIME_KEYS d.

Definition extract_val (d : dict) : option Json := first_hit not_blank VALUE_KEYS d.

Definition TEXT_KEYS : list string :=
  ["#text"; "$"; "text"; "_text"; "_value"; "value"; "name"; "LocName"; "LocShortName"].

(** [for tk in (...): if tk in v and isinstance(v[tk], str) and v[tk].strip():
    return v[tk].strip()] *)
Fixpoint text_holder (tks : list string) (v : dict) : option string :=
  match tks with
  | [] => None
  | tk :: tks' =>
      match dict_get tk v with
      | Some (JStr s) =>
          if negb (String.eqb (strip s) "") then Some (strip s) else text_holder tks' v
      | _ => text_holder tks' v
      end
  end.

(** [for tk, tv in v.items(): if isinstance(tv, str) and tv.strip():
    return tv.strip()] *)
Fixpoint any_text (items : dict) : option string :=
  match items with
  | [] => None
  | (_, JStr s) :: items' =>
      if negb (String.eqb (strip s) "") then Some (strip s) else any_text items'
  | _ :: items' => any_text items'
  end.

Fixpoint extract_loc_from (lib : PyLib) (keys : list string) (d : dict) : string :=
  match keys with
  | [] => "ISONE"
  | k :: keys' =>
      match dict_get k d with
      | Some v =>
          if truthy v then
            match v with
            | JDict m =>
                match text_holder TEXT_KEYS m with
                | Some s => s
                | None =>
                    match any_text m with
                    | Some s => s
                    | None => py_str lib v
                    end
                end
            | _ => py_str lib v
            end
          else extract_loc_from lib keys' d
      | None => extract_loc_from lib keys' d
      end
  end.

Definition extract_loc (lib : PyLib) (d : dict) : string :=
  extract_loc_from lib LOC_KEYS d.

Definition SYSTEM_NAMES : list string := ["ISONE"; "NEPOOL"; "NEWENGLAND"; "NE"].

(** One entry of the fast path: the body of
    [for r in payload["FiveMinSystemLoad"]]. *)
Definition fast_entry (lib : PyLib) (r : Json) : res (list Row) :=
  match r with
  | JDict d =>
      match extract_time d, extract_val d with
      | Some tval, Some lval =>
          ts_local ← to_datetime lib tval;
          ts_utc ← utc_of_local ts_local;
          load_f ← py_float lib lval;
          let loc := "ISONE" in
          Ok [ {| ts_utc := ts_utc; ts_local := ts_local; location := loc;
                  load_mw := load_f; is_system := true |} ]
      | _, _ => Ok []
      end
  | _ => Ok []
  end.

Fixpoint fast_entries (lib : PyLib) (l : list Json) : res (list Row) :=
  match l with
  | [] => Ok []
  | r :: l' =>
      here ← fast_entry lib r;
      rest ← fast_entries lib l';
      Ok (here ++ rest)
  end.

(** [if isinstance(payload, dict) and
       isinstance(payload.get("FiveMinSystemLoad"), list): ...] *)
Definition fast_path (lib : PyLib) (payload : Json) : res (list Row) :=
  match payload with
  | JDict d =>
      match dict_get "FiveMinSystemLoad" d with
      | Some (JList l) => fast_entries lib l
      | _ => Ok []
      end
  | _ => Ok []
  end.

(** The record a dict node contributes in [walk], before the recursion. *)
Definition walk_node (lib : PyLib) (obj : dict) : res (list Row) :=
  match extract_time obj, extract_val obj with
  | Some tval, Some lval =>
      ts_local ← to_datetime lib tval;
      ts_utc ← utc_of_local ts_local;
      load_f ← py_float lib lval;
      let loc := let l := extract_loc lib obj in if String.eqb l "" then "ISONE" else l in
      Ok [ {| ts_utc := ts_utc; ts_local := ts_local; location := loc;
              load_mw := load_f;
              is_system := bool_decide (upper loc ∈ SYSTEM_NAMES) |} ]
  | _, _ => Ok []
  end.

(** [walk(obj)]: the rows appended, in order. *)
Fixpoint walk (lib : PyLib) (obj : Json) : res (list Row) :=
  match obj with
  | JDict d =>
      here ← walk_node lib d;
      below ← (fix values (kvs : dict) : res (list Row) :=
                 match kvs with
                 | [] => Ok []
                 | (_, v) :: kvs' =>
                     a ← walk lib v; b ← values kvs'; Ok (a ++ b)
                 end) d;
      Ok (here ++ below)
  | JList l =>
      (fix items (l : list Json) : res (list Row) :=
         match l with
         | [] => Ok []
         | it :: l' => a ← walk lib it; b ← items l'; Ok (a ++ b)
         end) l
  | _ => Ok []
  end.

(** The list [rows] when [normalize_payload] reaches
    [pd.DataFrame.from_records(rows)]. *)
Definition rows (lib : PyLib) (payload : Json) : res (list Row) :=
  fast ← fast_path lib payload;
  match fast with
  | [] => walk lib payload
  | _ => Ok fast
  end.

(** [df.sort_values(["ts_utc", "location"])] *)
Definition by_ts_location (a b : Row) : bool :=
  not_after (then_by (ts_compare (ts_utc a) (ts_utc b))
                     (String.compare (location a) (location b))).

Definition debug_path : string := "data/raw/unexpected_shape_debug.json".

(** [normalize_payload(payload)] on the debug directory [raw]: the directory
    afterwards and the frame returned or the error raised. *)
Definition normalize_payload (lib : PyLib) (payload : Json)
    (raw : gmap string Json) : gmap string Json * res (list Row) :=
  match rows lib payload with
  | Raise e => (raw, Raise e)
  | Ok [] => (<[debug_path := payload]> raw, Raise ValueError)
  | Ok df => (raw, Ok (Pandas.sort_values by_ts_location df))
  end.

End System.

(** ** Zonal normalizer ([fetch_isone_fivemin_zonal_load.py]) *)

Module Zonal.

Record Row := {
  ts_utc : Datetime;
  ts_local : Datetime;
  zone_id : option string;
  zone_name : option string;
  load_mw : option float;
}.

#[global] Instance Row_eq_dec : EqDecision Row.
Proof. solve_decision. Defined.

Definition HARD_TIME : list string := ["interval_begin_date"].
Definition HARD_ZONEID : list string := ["load_zone_id"].
Definition HARD_ZONENM : list string := ["load_zone_name"].
Definition HARD_VALUE : list string := ["estimated_load_mw"].

Definition TIME_KEYS : list string :=
  HARD_TIME ++ ["BeginDate"; "BeginDateTime"; "BeginDateUTC"; "BeginDatetime"; "StartTime"].
Definition ZONEID_KEYS : list string :=
  HARD_ZONEID ++ ["LoadZone"; "LoadZoneId"; "LoadZoneID"; "ZoneID"; "ZoneId"].
Definition ZONENM_KEYS : list string :=
  HARD_ZONENM ++ ["Zone"; "LocName"; "Location"; "LoadZoneName"].
Definition VALUE_KEYS : list string :=
  HARD_VALUE ++ ["LoadMw"; "LoadMW"; "Load"; "Value"; "estimated_zonal_load_mw"].

Definition first_key (d : dict) (keys : list string) : option Json :=
  first_hit not_blank keys d.

(** [clean_zone_name(z)], with the guard [if znm is not None] of its call. *)
Definition clean_zone_name (lib : PyLib) (z : option Json) : option string :=
  match z with
  | None => None
  | Some z =>
      let s := strip (py_str lib z) in
      Some (if startswith ".Z." s then drop_chars 3 s else s)
  end.

Definition ZONE_NAME_BY_ID : list (string * string) :=
  [ ("4001", "ME"); ("4002", "NH"); ("4003", "VT"); ("4004", "CT");
    ("4005", "RI"); ("4006", "SEMA"); ("4007", "WCMA");
    ("4008", "NEMA/Boston"); ("4000", "HUB") ].

(** [{v.upper(): k for k, v in ZONE_NAME_BY_ID.items()}] (the names are
    pairwise distinct, so no entry overwrites another). *)
Definition REV_BY_NAME : list (string * string) :=
  (λ kv, (upper kv.2, kv.1)) <$> ZONE_NAME_BY_ID.

(** [table.get(k)] *)
Fixpoint table_get (k : string) (table : list (string * string)) : option string :=
  match table with
  | [] => None
  | (k', v) :: table' => if String.eqb k k' then Some v else table_get k table'
  end.

(** The block "zone id -> string" of [walk]. *)
Definition zone_id_str (zid : option Json) : res (option string) :=
  match zid with
  | Some (JInt z) => Ok (Some (pretty z))
  | Some (JBool b) => Ok (Some (pretty (Z.b2z b)))
  | Some (JFloat f) => z ← int_of_float f; Ok (Some (pretty z))
  | Some (JStr s) =>
      if negb (String.eqb (strip s) "")
      then Ok (if isdigit (strip s) then Some (strip s) else None)
      else Ok None
  | _ => Ok None
  end.

(** [if zid_s is None and isinstance(znm_s, str):
       zid_s = REV_BY_NAME.get(znm_s.upper())] *)
Definition backfill_id (zid_s znm_s : option string) : option string :=
  match zid_s, znm_s with
  | None, Some n => table_get (upper n) REV_BY_NAME
  | _, _ => zid_s
  end.

(** [if znm_s is None and zid_s is not None:
       znm_s = ZONE_NAME_BY_ID.get(zid_s, znm_s)] *)
Definition backfill_name (zid_s znm_s : option string) : option string :=
  match znm_s, zid_s with
  | None, Some i =>
      match table_get i ZONE_NAME_BY_ID with
      | Some n => Some n
      | None => znm_s
      end
  | _, _ => znm_s
  end.

(** The record a dict node contributes in [walk], before the recursion. *)
Definition walk_node (lib : PyLib) (obj : dict) : res (list Row) :=
  let t := first_key obj TIME_KEYS in
  let val := first_key obj VALUE_KEYS in
  let zid := first_key obj ZONEID_KEYS in
  let znm := first_key obj ZONENM_KEYS in
  match t, val with
  | Some t, Some val =>
      if bool_decide (zid ≠ None) || bool_decide (znm ≠ None) then
        ts_local ← to_datetime lib t;
        ts_utc ← utc_of_local ts_local;
        zid_s ← zone_id_str zid;
        let znm_s := clean_zone_name lib znm in
        let zid_s := backfill_id zid_s znm_s in
        let znm_s := backfill_name zid_s znm_s in
        load_f ← py_float lib val;
        Ok [ {| ts_utc := ts_utc; ts_local := ts_local; zone_id := zid_s;
                zone_name := znm_s; load_mw := load_f |} ]
      else Ok []
  | _, _ => Ok []
  end.

(** [walk(obj)]: the rows appended, in order. *)
Fixpoint walk (lib : PyLib) (obj : Json) : res (list Row) :=
  match obj with
  | JDict d =>
      here ← walk_node lib d;
      below ← (fix values (kvs : dict) : res (list Row) :=
                 match kvs with
                 | [] => Ok []
                 | (_, v) :: kvs' =>
                     a ← walk lib v; b ← values kvs'; Ok (a ++ b)
                 end) d;
      Ok (here ++ below)
  | JList l =>
      (fix items (l : list Json) : res (list Row) :=
         match l with
         | [] => Ok []
         | it :: l' => a ← walk lib it; b ← items l'; Ok (a ++ b)
         end) l
  | _ => Ok []
  end.

(** [df["zone_name"] = df["zone_name"].fillna(df["zone_id"])], row by row. *)
Definition fillna_zone_name (r : Row) : Row :=
  {| ts_utc := ts_utc r; ts_local := ts_local r; zone_id := zone_id r;
     zone_name := match zone_name r with None => zone_id r | n => n end;
     load_mw := load_mw r |}.

(** [df.sort_values(["ts_utc", "zone_id", "zone_name"])] *)
Definition by_ts_zone (a b : Row) : bool :=
  not_after
    (then_by (ts_compare (ts_utc a) (ts_utc b))
       (then_by (compare_na_last String.compare (zone_id a) (zone_id b))
                (compare_na_last String.compare (zone_name a) (zone_name b)))).

Definition debug_path : string := "data/raw/unexpected_shape_zonal.json".

(** [normalize_payload(payload)] on the debug directory [raw]: the directory
    afterwards and the frame returned or the error raised. *)
Definition normalize_payload (lib : PyLib) (payload : Json)
    (raw : gmap string Json) : gmap string Json * res (list Row) :=
  match walk lib payload with
  | Raise e => (raw, Raise e)
  | Ok [] => (<[debug_path := payload]> raw, Raise ValueError)
  | Ok rows => (raw, Ok (Pandas.sort_values by_ts_zone (fillna_zone_name <$> rows)))
  end.

End Zonal.

(** ** Frames read back from CSV *)

(** A history file is written with [to_csv] and read back with [read_csv]
    at the next append.  [read_csv] infers the type of every column from the
    text, so a column that the normalizer filled with strings can come back
    as integers or floats.  A value of a column other than the two time
    columns is therefore a [Cell] of any of these types.  Two cells are the
    same key for [drop_duplicates] when they are the same value of the same
    type: the string "4004" and the integer 4004 are not.  (Python also
    equates 1, 1.0 and [True]; this does not arise, as the key cells of a
    batch are text or missing and a column read back holds one type.) *)
Inductive Cell :=
  (** [None] and [NaN]: pandas treats both as missing, and as equal to each
      other in [drop_duplicates] *)
  | Missing
  | Text (s : string)
  | Integer (z : Z)
  | Floating (f : float)
  | Boolean (b : bool).

#[global] Instance Cell_eq_dec : EqDecision Cell.
Proof. solve_decision. Defined.

Definition text_cell (s : option string) : Cell :=
  match s with Some s => Text s | None => Missing end.

Definition float_cell (f : option float) : Cell :=
  match f with Some f => Floating f | None => Missing end.

(** A row of [data/history/system_load_<date>.csv]. *)
Module SystemFile.

Record Row := {
  ts_utc : Datetime;
  ts_local : Datetime;
  location : Cell;
  load_mw : Cell;
  is_system : Cell;
}.

#[global] Instance Row_eq_dec : EqDecision Row.
Proof. solve_decision. Defined.

(** A row of the frame the system normalizer returns. *)
Definition of_frame (r : System.Row) : Row :=
  {| ts_utc := System.ts_utc r; ts_local := System.ts_local r;
     location := Text (System.location r);
     load_mw := float_cell (System.load_mw r);
     is_system := Boolean (System.is_system r) |}.

End SystemFile.

(** A row of [data/history/zonal_load_<date>.csv]. *)
Module ZonalFile.

Record Row := {
  ts_utc : Datetime;
  ts_local : Datetime;
  zone_id : Cell;
  zone_name : Cell;
  load_mw : Cell;
}.

#[global] Instance Row_eq_dec : EqDecision Row.
Proof. solve_decision. Defined.

(** A row of the frame the zonal normalizer returns. *)
Definition of_frame (r : Zonal.Row) : Row :=
  {| ts_utc := Zonal.ts_utc r; ts_local := Zonal.ts_local r;
     zone_id := text_cell (Zonal.zone_id r);
     zone_name := text_cell (Zonal.zone_name r);
     load_mw := float_cell (Zonal.load_mw r) |}.

End ZonalFile.

(** ** History store ([poll_isone_to_history.py]) *)

Module History.

(** A history file is named by its dataset and its UTC date,
    [data/history/<dataset>_<date>.csv]; each dataset's files are the
    finite map from the date ([None] for a missing date) to the frame last
    written to the file. *)
Abbreviation Date := (option Z).

(** The order of [df.sort_values("ts_utc")]. *)
Definition by_ts_utc {Row : Type} (ts_utc : Row → Datetime) (a b : Row) : bool :=
  ts_leb (ts_utc a) (ts_utc b).

(** The pandas calls of the history store whose result the source does not
    fix, with what holds of them in every version.
      - [read_csv] is [pd.read_csv(path, parse_dates=["ts_utc", "ts_local"])]
        (or the fallback without [parse_dates]) applied to the file that
        [to_csv] wrote from a frame: it returns as many rows, in the same
        order and with the same [ts_utc]; the other columns are inferred
        from the text and can change type.
      - [sort_values] is [df.sort_values("ts_utc")]: the default quicksort,
        which returns the rows in ascending order, missing timestamps last,
        and is free to order rows with equal timestamps.
      - [undated_match] tells whether the label that
        [.dt.date.astype(str)] gives to a missing date is equal to itself:
        the string "NaT" is, and then [df[... == date_str]] selects the
        undated rows; a label left missing ([NaN]) is not, and then no row
        is selected for it. *)
Record Lib {Row : Type} (ts_utc : Row → Datetime) := {
  read_csv : list Row → list Row;
  sort_values : list Row → list Row;
  undated_match : bool;
  read_csv_ts_utc : ∀ df, ts_utc <$> read_csv df = ts_utc <$> df;
  sort_values_perm : ∀ df, sort_values df ≡ₚ df;
  sort_values_sorted : ∀ df, Pandas.sorted_by (by_ts_utc ts_utc) (sort_values df);
}.
Arguments read_csv {Row ts_utc} _ _.
Arguments sort_values {Row ts_utc} _ _.
Arguments undated_match {Row ts_utc} _.
Arguments read_csv_ts_utc {Row ts_utc} _ _.
Arguments sort_values_perm {Row ts_utc} _ _.
Arguments sort_values_sorted {Row ts_utc} _ _.

(** [_utc_dates_in_df(df, "ts_utc")]: the set of dates, enumerated without
    repetition (the loops over it give the same result for every order of
    enumeration). *)
Definition _utc_dates_in_df {Row : Type} (ts_utc : Row → Datetime)
    (df : list Row) : list Date :=
  remove_dups ((λ r, utc_date (ts_utc r)) <$> df).

Section store.
Context {Row Key : Type} `{EqDecision Key}.
(** the column "ts_utc" of a row *)
Context {ts_utc : Row → Datetime}.
Variable lib : Lib ts_utc.

(** [_append_idempotent(df_new, path, key_cols)] on the directory [fs];
    returns the new directory and the number of rows added. *)
Definition _append_idempotent (df_new : list Row) (path : Date)
    (key_cols : Row → Key) (fs : gmap Date (list Row)) : gmap Date (list Row) * Z :=
  let df_old := match fs !! path with Some rows => read_csv lib rows | None => [] end in
  let df_all := df_old ++ df_new in
  let df_all := sort_values lib (Pandas.drop_duplicates key_cols df_all) in
  let after := length df_all in
  (<[path := df_all]> fs, Z.of_nat after - Z.of_nat (length df_old)).

(** [df[pd.to_datetime(df["ts_utc"], utc=True).dt.date.astype(str) == date_str]] *)
Definition df_day (date_str : Date) (df : list Row) : list Row :=
  if bool_decide (is_Some date_str) || undated_match lib
  then filter (λ r, utc_date (ts_utc r) = date_str) df
  else [].

(** The loop [for date_str in ...] of [write_history_system] and
    [write_history_zonal], with the dict [out] it fills. *)
Fixpoint write_history_loop (dates : list Date) (df : list Row)
    (key_cols : Row → Key) (fs : gmap Date (list Row)) (out : gmap Date Z)
    : gmap Date (list Row) * gmap Date Z :=
  match dates with
  | [] => (fs, out)
  | date_str :: dates' =>
      let '(fs', added) := _append_idempotent (df_day date_str df) date_str key_cols fs in
      write_history_loop dates' df key_cols fs' (<[date_str := added]> out)
  end.

Definition write_history (df : list Row) (key_cols : Row → Key)
    (fs : gmap Date (list Row)) : gmap Date (list Row) * gmap Date Z :=
  write_history_loop (_utc_dates_in_df ts_utc df) df key_cols fs ∅.

(** The frame last written to a partition; an absent file holds no row. *)
Definition stored (fs : gmap Date (list Row)) (path : Date) : list Row :=
  default [] (fs !! path).

(** The frame an append writes when the file holds the frame [df_old]. *)
Definition appended (key_cols : Row → Key) (df_old df_new : list Row) : list Row :=
  sort_values lib (Pandas.drop_duplicates key_cols (read_csv lib df_old ++ df_new)).

(** A sequence of appends to one file. *)
Definition append_all (batches : list (list Row)) (path : Date)
    (key_cols : Row → Key) (fs : gmap Date (list Row)) : gmap Date (list Row) :=
  foldl (λ fs df_new, (_append_idempotent df_new path key_cols fs).1) fs batches.

(** A sequence of ingestion cycles, each writing its batch. *)
Definition write_history_all (batches : list (list Row)) (key_cols : Row → Key)
    (fs : gmap Date (list Row)) : gmap Date (list Row) :=
  foldl (λ fs df, (write_history df key_cols fs).1) fs batches.
End store.

(** Rows are in ascending [ts_utc] order, missing timestamps last. *)
Definition sorted_by_ts_utc {Row : Type} (ts_utc : Row → Datetime)
    (df : list Row) : Prop :=
  Pandas.sorted_by (by_ts_utc ts_utc) df.

(** [key_cols=["ts_utc", "location"]] *)
Definition system_key (r : SystemFile.Row) : Datetime * Cell :=
  (SystemFile.ts_utc r, SystemFile.location r).

(** [key_cols=["ts_utc", "zone_id"]] *)
Definition zonal_key (r : ZonalFile.Row) : Datetime * Cell :=
  (ZonalFile.ts_utc r, ZonalFile.zone_id r).

(** The library for the two datasets. *)
Record Libs := {
  system_lib : Lib SystemFile.ts_utc;
  zonal_lib : Lib ZonalFile.ts_utc;
}.

Definition write_history_system (pd : Libs) (df_sys : list System.Row)
    (fs : gmap Date (list SystemFile.Row))
    : gmap Date (list SystemFile.Row) * gmap Date Z :=
  write_history (system_lib pd) (SystemFile.of_frame <$> df_sys) system_key fs.

Definition write_history_zonal (pd : Libs) (df_zone : list Zonal.Row)
    (fs : gmap Date (list ZonalFile.Row))
    : gmap Date (list ZonalFile.Row) * gmap Date Z :=
  write_history (zonal_lib pd) (ZonalFile.of_frame <$> df_zone) zonal_key fs.

End History.

(** ** Vocabulary of the specification *)

(** The depth-first traversal both [walk] functions implement: a dict node
    contributes what [node] extracts from it, then the values are visited in
    order; a list's elements are visited in order; scalars contribute
    nothing. *)
Section traverse.
Context {Row : Type} (node : dict → res (list Row)).

Fixpoint traverse (obj : Json) : res (list Row) :=
  match obj with
  | JDict d =>
      here ← node d;
      below ← (fix values (kvs : dict) : res (list Row) :=
                 match kvs with
                 | [] => Ok []
                 | (_, v) :: kvs' =>
                     a ← traverse v; b ← values kvs'; Ok (a ++ b)
                 end) d;
      Ok (here ++ below)
  | JList l =>
      (fix items (l : list Json) : res (list Row) :=
         match l with
         | [] => Ok []
         | it :: l' => a ← traverse it; b ← items l'; Ok (a ++ b)
         end) l
  | _ => Ok []
  end.

Fixpoint traverse_items (l : list Json) : res (list Row) :=
  match l with
  | [] => Ok []
  | it :: l' => a ← traverse it; b ← traverse_items l'; Ok (a ++ b)
  end.

Fixpoint traverse_values (kvs : dict) : res (list Row) :=
  match kvs with
  | [] => Ok []
  | kv :: kvs' => a ← traverse kv.2; b ← traverse_values kvs'; Ok (a ++ b)
  end.
End traverse.

(** [W] wraps the payload [P] one level deeper, in a list or in a map. *)
Inductive wrapper_of (P : Json) : Json → Prop :=
  | wrap_in_list : wrapper_of P (JList [P])
  | wrap_in_map (k : string) : wrapper_of P (JDict [(k, P)]).

Definition is_scalar (v : Json) : bool :=
  match v with
  | JList _ | JDict _ => false
  | _ => true
  end.

(** Some key of [LOC_KEYS] holds a truthy value. *)
Definition has_location (d : dict) : bool :=
  existsb (λ k, match dict_get k d with Some v => truthy v | None => false end)
          System.LOC_KEYS.

(** A list entry that is a scalar, or a flat map without a location field. *)
Definition plain_entry (r : Json) : bool :=
  match r with
  | JDict d => forallb (λ kv, is_scalar kv.2) d && negb (has_location d)
  | _ => is_scalar r
  end.

(** The UTC derivation rule: an aware timestamp is converted to UTC, a naive
    one keeps its wall-clock reading and is labelled UTC. *)
Definition utc_rule (ts_local ts_utc : Datetime) : Prop :=
  match ts_local with
  | Timestamp w (Some off) =>
      ts_utc = Timestamp (w - off) (Some 0) ∧ instant ts_utc = instant ts_local
  | Timestamp w None => ts_utc = Timestamp w (Some 0)
  | NaT => ts_utc = NaT
  end.

(** ** A reference instance of the library interface

    Used to run the model on concrete payloads.  [to_datetime] reads the
    ISO-8601 forms [YYYY-MM-DD(T| )HH:MM:SS], optionally followed by [Z] or
    [(+|-)HH:MM], and coerces everything else to [NaT]; [float_of_str] reads
    plain decimals; [repr] prints containers without string escapes and
    non-integral floats by their exact decimal expansion. *)

Module Sample.

Fixpoint digits_value (acc : Z) (s : string) : Z :=
  match s with
  | EmptyString => acc
  | String c s' => digits_value (10 * acc + (Z.of_nat (nat_of_ascii c) - 48)) s'
  end.

Definition number (s : string) : option Z :=
  if isdigit s then Some (digits_value 0 s) else None.

(** Days from 1970-01-01 to the given proleptic Gregorian date. *)
Definition days_from_civil (y m d : Z) : Z :=
  let y := if m <=? 2 then y - 1 else y in
  let era := y `div` 400 in
  let yoe := y - era * 400 in
  let mp := (m + 9) `mod` 12 in
  let doy := (153 * mp + 2) `div` 5 + d - 1 in
  let doe := yoe * 365 + yoe `div` 4 - yoe `div` 100 + doy in
  era * 146097 + doe - 719468.

Definition in_range (lo hi x : Z) : bool := (lo <=? x) && (x <=? hi).

Definition parse_offset (s : string) : option (option Z) :=
  if String.eqb s "" then Some None
  else if String.eqb s "Z" then Some (Some 0)
  else
    match number (substring 1 2 s), number (substring 4 2 s) with
    | Some h, Some m =>
        if (String.length s =? 6)%nat && String.eqb (substring 3 1 s) ":"
           && in_range 0 23 h && in_range 0 59 m then
          let off := (h * 3600 + m * 60) * 1000000000 in
          if String.eqb (substring 0 1 s) "+" then Some (Some off)
          else if String.eqb (substring 0 1 s) "-" then Some (Some (- off))
          else None
        else None
    | _, _ => None
    end.

Definition parse_iso (s : string) : Datetime :=
  match number (substring 0 4 s), number (substring 5 2 s), number (substring 8 2 s),
        number (substring 11 2 s), number (substring 14 2 s), number (substring 17 2 s),
        parse_offset (substring 19 (String.length s - 19) s) with
  | Some y, Some mo, Some d, Some h, Some mi, Some sec, Some tz =>
      if String.eqb (substring 4 1 s) "-" && String.eqb (substring 7 1 s) "-"
         && (String.eqb (substring 10 1 s) "T" || String.eqb (substring 10 1 s) " ")
         && String.eqb (substring 13 1 s) ":" && String.eqb (substring 16 1 s) ":"
         && in_range 1 12 mo && in_range 1 31 d
         && in_range 0 23 h && in_range 0 59 mi && in_range 0 59 sec
      then Timestamp
             ((days_from_civil y mo d * 86400 + h * 3600 + mi * 60 + sec) * 1000000000) tz
      else NaT
  | _, _, _, _, _, _, _ => NaT
  end.

Definition to_datetime (v : Json) : res Datetime :=
  match v with
  | JStr s => Ok (parse_iso s)
  | _ => Ok NaT
  end.

Fixpoint split_dot (s : string) : string * option string :=
  match s with
  | EmptyString => (EmptyString, None)
  | String c s' =>
      if Ascii.eqb c "."%char then (EmptyString, Some s')
      else let '(a, b) := split_dot s' in (String c a, b)
  end.

Definition unsigned_decimal (s : string) : option float :=
  match split_dot s with
  | (i, None) => (λ n, binary_normalize 53 1024 n 0 false) <$> number i
  | (i, Some f) =>
      match number i, number f with
      | Some n, Some m =>
          let k := 10 ^ Z.of_nat (String.length f) in
          Some (SFdiv 53 1024 (binary_normalize 53 1024 (n * k + m) 0 false)
                              (binary_normalize 53 1024 k 0 false))
      | _, _ => None
      end
  end.

Definition float_of_str (s : string) : option float :=
  match strip s with
  | String "-" s' => SFopp <$> unsigned_decimal s'
  | s' => unsigned_decimal s'
  end.

Fixpoint lstrip_zeros (s : string) : string :=
  match s with
  | String "0" s' => lstrip_zeros s'
  | _ => s
  end.

Definition drop_zeros (s : string) : string :=
  String.rev (lstrip_zeros (String.rev s)).

Definition repr_float (f : float) : string :=
  match f with
  | S754_nan => "nan"
  | S754_infinity s => if s then "-inf" else "inf"
  | S754_zero s => if s then "-0.0" else "0.0"
  | S754_finite s m e =>
      let sign := if s then "-" else "" in
      if 0 <=? e then sign +:+ pretty (Z.shiftl (Zpos m) e) +:+ ".0"
      else
        let scale := 10 ^ (- e) in
        let num := Zpos m * 5 ^ (- e) in
        let frac := pretty (scale + num `mod` scale) in
        sign +:+ pretty (num `div` scale) +:+ "." +:+ drop_zeros (drop_chars 1 frac)
  end.

Fixpoint repr (v : Json) : string :=
  match v with
  | JNull => "None"
  | JBool b => if b then "True" else "False"
  | JInt z => pretty z
  | JFloat f => repr_float f
  | JStr s => "'" +:+ s +:+ "'"
  | JList l =>
      "[" +:+ (fix items (l : list Json) : string :=
                 match l with
                 | [] => ""
                 | [x] => repr x
                 | x :: l' => repr x +:+ ", " +:+ items l'
                 end) l +:+ "]"
  | JDict d =>
      "{" +:+ (fix members (d : dict) : string :=
                 match d with
                 | [] => ""
                 | [(k, x)] => "'" +:+ k +:+ "': " +:+ repr x
                 | (k, x) :: d' => "'" +:+ k +:+ "': " +:+ repr x +:+ ", " +:+ members d'
                 end) d +:+ "}"
  end.

Definition lib : PyLib := Build_PyLib to_datetime float_of_str repr.

End Sample.

(** ** Sample data *)

Module Examples.

(** The double [z.0]. *)
Definition mw (z : Z) : float := binary_normalize 53 1024 z 0 false.

(** 2024-01-01T00:05:00 and 00:10:00, naive and in UTC. *)
Definition local_0005 : Datetime := Timestamp 1704067500000000000 None.
Definition utc_0005 : Datetime := Timestamp 1704067500000000000 (Some 0).
Definition local_0010 : Datetime := Timestamp 1704067800000000000 None.
Definition utc_0010 : Datetime := Timestamp 1704067800000000000 (Some 0).

(** The partition date 2024-01-01. *)
Definition jan1 : History.Date := Some 19723.

Definition sys_0005 (load : Z) : System.Row :=
  {| System.ts_utc := utc_0005; System.ts_local := local_0005;
     System.location := "ISONE"; System.load_mw := Some (mw load);
     System.is_system := true |}.

Definition sys_0010 (load : Z) : System.Row :=
  {| System.ts_utc := utc_0010; System.ts_local := local_0010;
     System.location := "ISONE"; System.load_mw := Some (mw load);
     System.is_system := true |}.

Definition zone_0005 (id name : string) (load : Z) : Zonal.Row :=
  {| Zonal.ts_utc := utc_0005; Zonal.ts_local := local_0005;
     Zonal.zone_id := Some id; Zonal.zone_name := Some name;
     Zonal.load_mw := Some (mw load) |}.

Definition zone_0010 (id name : string) (load : Z) : Zonal.Row :=
  {| Zonal.ts_utc := utc_0010; Zonal.ts_local := local_0010;
     Zonal.zone_id := Some id; Zonal.zone_name := Some name;
     Zonal.load_mw := Some (mw load) |}.

(** [{"FiveMinSystemLoad": [{"BeginDate": "2024-01-01T00:05:00",
      "LoadMw": 15000.0}]}] *)
Definition system_payload : Json :=
  JDict [("FiveMinSystemLoad",
          JList [JDict [("BeginDate", JStr "2024-01-01T00:05:00");
                        ("LoadMw", JFloat (mw 15000))]])].

(** The same with ["Location": "CT"] in the entry. *)
Definition system_payload_located : Json :=
  JDict [("FiveMinSystemLoad",
          JList [JDict [("BeginDate", JStr "2024-01-01T00:05:00");
                        ("LoadMw", JFloat (mw 15000));
                        ("Location", JStr "CT")]])].

(** An entry stamped with an explicit offset:
    [{"BeginDate": "2024-01-01T00:05:00-05:00", "LoadMw": 15000.0}] *)
Definition system_entry_aware : dict :=
  [("BeginDate", JStr "2024-01-01T00:05:00-05:00"); ("LoadMw", JFloat (mw 15000))].

(** The record of that entry: 00:05 at UTC-5 is 05:05 UTC. *)
Definition sys_aware : System.Row :=
  {| System.ts_utc := Timestamp 1704085500000000000 (Some 0);
     System.ts_local := Timestamp 1704067500000000000 (Some (-18000000000000));
     System.location := "ISONE"; System.load_mw := Some (mw 15000);
     System.is_system := true |}.

(** [{"interval_begin_date": "2024-01-01T00:05:00", "load_zone_id": "4004",
      "estimated_load_mw": 3000.0}] *)
Definition zonal_id_only : dict :=
  [("interval_begin_date", JStr "2024-01-01T00:05:00");
   ("load_zone_id", JStr "4004");
   ("estimated_load_mw", JFloat (mw 3000))].

(** [{"interval_begin_date": "2024-01-01T00:05:00", "load_zone_name": "SEMA",
      "estimated_load_mw": 1500.0}] *)
Definition zonal_name_only : dict :=
  [("interval_begin_date", JStr "2024-01-01T00:05:00");
   ("load_zone_name", JStr "SEMA");
   ("estimated_load_mw", JFloat (mw 1500))].

(** [{"BeginDate": "2024-01-01T00:05:00", "LoadZone": ".Z.CONNECTICUT",
      "LoadMw": 3000.0}]: the zone is named under a key of [ZONEID_KEYS]. *)
Definition zonal_text_id : dict :=
  [("BeginDate", JStr "2024-01-01T00:05:00");
   ("LoadZone", JStr ".Z.CONNECTICUT");
   ("LoadMw", JFloat (mw 3000))].

(** [{"status": "ok", "items": []}] *)
Definition no_records : Json :=
  JDict [("status", JStr "ok"); ("items", JList [])].

End Examples.

(** ** A reference instance of the history library: CSV text

    Used to run the history store on concrete frames.  A cell is written as
    [to_csv] writes it and the column is read back as [read_csv] infers it:
    integers when every field is an integer literal, floats when every field
    is a plain decimal or missing, booleans when every field is [True] or
    [False], and text otherwise, a field among the default missing-value
    markers being read as missing.  The two time columns come back as they
    were written. *)

Module SampleCsv.

(** The fields [read_csv] reads as missing. *)
Definition NA_VALUES : list string :=
  [ ""; "#N/A"; "#N/A N/A"; "#NA"; "-1.#IND"; "-1.#QNAN"; "-NaN"; "-nan";
    "1.#IND"; "1.#QNAN"; "<NA>"; "N/A"; "NA"; "NULL"; "NaN"; "None"; "n/a";
    "nan"; "null" ].

(** An integer literal, leading zeros allowed, that fits 64 bits. *)
Definition as_int (s : string) : option Z :=
  match
    match s with
    | String "-" s' => Z.opp <$> Sample.number s'
    | String "+" s' => Sample.number s'
    | _ => Sample.number s
    end
  with
  | Some z => if (- 2 ^ 63 <=? z) && (z <? 2 ^ 63) then Some z else None
  | None => None
  end.

Definition as_bool (s : string) : option bool :=
  if bool_decide (s ∈ ["True"; "TRUE"; "true"]) then Some true
  else if bool_decide (s ∈ ["False"; "FALSE"; "false"]) then Some false
  else None.

(** What the text of a field can be read as. *)
Inductive Field :=
  | Na
  | Int (z : Z)
  | Num (f : float)
  | Bool (b : bool)
  | Str (s : string).

Definition parse (s : string) : Field :=
  if bool_decide (s ∈ NA_VALUES) then Na
  else
    match as_int s, Sample.float_of_str s, as_bool s with
    | Some z, _, _ => Int z
    | None, Some f, _ => Num f
    | None, None, Some b => Bool b
    | None, None, None => Str s
    end.

(** The field that [to_csv] writes for a cell, as [read_csv] parses it: a
    number is written so that it reads back as itself. *)
Definition field (c : Cell) : Field :=
  match c with
  | Missing | Floating S754_nan => Na
  | Text s => parse s
  | Integer z => Int z
  | Floating f => Num f
  | Boolean b => Bool b
  end.

(** [str] of a float that holds an integer, and of any other. *)
Definition float_text (f : float) : string :=
  match int_of_float f with
  | Ok z =>
      match float_of_int z with
      | Ok g => if bool_decide (g = f) then pretty z +:+ ".0" else Sample.repr_float f
      | Raise _ => Sample.repr_float f
      end
  | Raise _ => Sample.repr_float f
  end.

(** The text [to_csv] writes for a cell. *)
Definition to_csv (c : Cell) : string :=
  match c with
  | Missing => ""
  | Text s => s
  | Integer z => pretty z
  | Floating f => float_text f
  | Boolean b => if b then "True" else "False"
  end.

Definition is_int (x : Field) : bool := match x with Int _ => true | _ => false end.
Definition is_num (x : Field) : bool :=
  match x with Na | Int _ | Num _ => true | _ => false end.
Definition is_bool (x : Field) : bool := match x with Bool _ => true | _ => false end.

(** How the cells of a column are read back, given the whole column: as
    integers when every field is an integer, as floats when every field is a
    number or missing, as booleans when every field is a boolean, and as
    text otherwise. *)
Definition reader (column : list Cell) : Cell → Cell :=
  let fields := field <$> column in
  if forallb is_int fields then
    λ c, match field c with Int z => Integer z | _ => Missing end
  else if forallb is_num fields then
    λ c, match field c with
         | Int z => match float_of_int z with Ok f => Floating f | Raise _ => Missing end
         | Num f => Floating f
         | _ => Missing
         end
  else if forallb is_bool fields then
    λ c, match field c with Bool b => Boolean b | _ => Missing end
  else
    λ c, match field c with Na => Missing | _ => Text (to_csv c) end.

(** [pd.read_csv] of a system history file. *)
Definition read_system (df : list SystemFile.Row) : list SystemFile.Row :=
  let location := reader (SystemFile.location <$> df) in
  let load_mw := reader (SystemFile.load_mw <$> df) in
  let is_system := reader (SystemFile.is_system <$> df) in
  (λ r, {| SystemFile.ts_utc := SystemFile.ts_utc r;
           SystemFile.ts_local := SystemFile.ts_local r;
           SystemFile.location := location (SystemFile.location r);
           SystemFile.load_mw := load_mw (SystemFile.load_mw r);
           SystemFile.is_system := is_system (SystemFile.is_system r) |}) <$> df.

(** [pd.read_csv] of a zonal history file. *)
Definition read_zonal (df : list ZonalFile.Row) : list ZonalFile.Row :=
  let zone_id := reader (ZonalFile.zone_id <$> df) in
  let zone_name := reader (ZonalFile.zone_name <$> df) in
  let load_mw := reader (ZonalFile.load_mw <$> df) in
  (λ r, {| ZonalFile.ts_utc := ZonalFile.ts_utc r;
           ZonalFile.ts_local := ZonalFile.ts_local r;
           ZonalFile.zone_id := zone_id (ZonalFile.zone_id r);
           ZonalFile.zone_name := zone_name (ZonalFile.zone_name r);
           ZonalFile.load_mw := load_mw (ZonalFile.load_mw r) |}) <$> df.

End SampleCsv.

(** ** Sample history rows *)

Module Rows.

(** The partition date 2024-01-02. *)
Definition jan2 : History.Date := Some 19724.

(** A zonal record at 2024-01-02T00:05:00. *)
Definition zone_jan2 (id name : string) (load : Z) : Zonal.Row :=
  {| Zonal.ts_utc := Timestamp 1704153900000000000 (Some 0);
     Zonal.ts_local := Timestamp 1704153900000000000 None;
     Zonal.zone_id := Some id; Zonal.zone_name := Some name;
     Zonal.load_mw := Some (Examples.mw load) |}.

(** The zonal record at 00:05 as the normalizer returns it, and with the id
    as [read_csv] returns it from a file whose ids are all numbers. *)
Definition zone_0005 (id name : string) (load : Z) : ZonalFile.Row :=
  ZonalFile.of_frame (Examples.zone_0005 id name load).

Definition zone_0010 (id name : string) (load : Z) : ZonalFile.Row :=
  ZonalFile.of_frame (Examples.zone_0010 id name load).

Definition zone_0005_read (id : Z) (name : string) (load : Z) : ZonalFile.Row :=
  {| ZonalFile.ts_utc := Examples.utc_0005; ZonalFile.ts_local := Examples.local_0005;
     ZonalFile.zone_id := Integer id; ZonalFile.zone_name := Text name;
     ZonalFile.load_mw := Floating (Examples.mw load) |}.

Definition zone_0010_read (id : Z) (name : string) (load : Z) : ZonalFile.Row :=
  {| ZonalFile.ts_utc := Examples.utc_0010; ZonalFile.ts_local := Examples.local_0010;
     ZonalFile.zone_id := Integer id; ZonalFile.zone_name := Text name;
     ZonalFile.load_mw := Floating (Examples.mw load) |}.

Definition sys_0005 (load : Z) : SystemFile.Row :=
  SystemFile.of_frame (Examples.sys_0005 load).

Definition sys_0010 (load : Z) : SystemFile.Row :=
  SystemFile.of_frame (Examples.sys_0010 load).

End Rows.

(** ** Sequences of calls *)

Module Runs.
Section runs.
Context {Row Key : Type} `{EqDecision Key}.
Context {ts_utc : Row → Datetime}.
Variable lib : History.Lib ts_utc.

(** The counts that successive [_append_idempotent] calls on one file
    return. *)
Fixpoint append_counts (batches : list (list Row)) (path : History.Date)
    (key_cols : Row → Key) (fs : gmap History.Date (list Row)) : list Z :=
  match batches with
  | [] => []
  | df_new :: batches' =>
      let '(fs', added) := History._append_idempotent lib df_new path key_cols fs in
      added :: append_counts batches' path key_cols fs'
  end.
End runs.

(** Every row of a history directory sits in the file of its own UTC date. *)
Definition filed_by_date {Row : Type} (ts_utc : Row → Datetime)
    (fs : gmap History.Date (list Row)) : Prop :=
  ∀ d r, r ∈ History.stored fs d → utc_date (ts_utc r) = d.

(** The rows of [df_new] that an append to [df_old] adds: one per key that
    [df_old] does not hold. *)
Definition fresh_rows {Row Key : Type} `{EqDecision Key} (key_cols : Row → Key)
    (df_old df_new : list Row) : list Row :=
  filter (λ r, key_cols r ∉ key_cols <$> df_old) (Pandas.drop_duplicates key_cols df_new).
End Runs.

(** The number of maps (JSON objects) in a payload, at any depth. *)
Fixpoint count_maps (v : Json) : nat :=
  match v with
  | JDict d =>
      S ((fix values (kvs : dict) : nat :=
            match kvs with
            | [] => 0%nat
            | (_, x) :: kvs' => (count_maps x + values kvs')%nat
            end) d)
  | JList l =>
      (fix items (l : list Json) : nat :=
         match l with
         | [] => 0%nat
         | x :: l' => (count_maps x + items l')%nat
         end) l
  | _ => 0%nat
  end.

(** A string of ASCII digits, as [str.isdigit] accepts on the ASCII range. *)
Definition digit_string (s : string) : Prop := isdigit s = true.

(** A timestamp that is missing or labelled UTC. *)
Definition utc_or_missing (t : Datetime) : Prop :=
  t = NaT ∨ ∃ w, t = Timestamp w (Some 0).

(** A decimal integer literal: digits, with an optional leading minus sign. *)
Definition integer_literal (s : string) : Prop :=
  digit_string s ∨ ∃ s', s = String "-" s' ∧ digit_string s'.

(** ** Fetchers and ingestion cycles *)

(** The HTTP exchange itself is outside the model: a fetcher is given the
    response [requests.get] returned and the timestamp it puts in file names.
    Credentials and URLs only reach the request and the error messages and
    are left out; messages are represented by the kind of failure.  The
    directory [data/raw] is two maps, the byte files the fetchers write and
    the JSON dumps ([json.dump]) of fetchers and normalizers; [data/staged]
    is the two "latest" frames. *)

Module Fetch.

Record Response := {
  status_code : Z;
  (** [resp.headers.get("Content-Type")] *)
  content_type : option string;
  (** [resp.content] *)
  content : string;
  (** [resp.json()]; [None] when it raises [ValueError] *)
  json : option Json;
}.

Inductive failure :=
  | BadStatus (status : Z)
  | UnexpectedContentType (ctype : string)
  | InvalidJson
  | ErrorObject (key : string)
  | EmptyFrame.

Inductive error :=
  | Builtin (e : exn)
  | HTTPError (status : Z)
  | RuntimeError (why : failure).

Inductive outcome (A : Type) :=
  | Return (a : A)
  | Fail (e : error).
Arguments Return {A} a.
Arguments Fail {A} e.

Definition lower_char (c : ascii) : ascii :=
  let n := nat_of_ascii c in
  if ((65 <=? n) && (n <=? 90))%nat then ascii_of_nat (n + 32) else c.

(** [s.lower()] *)
Fixpoint lower (s : string) : string :=
  match s with
  | EmptyString => EmptyString
  | String c s' => String (lower_char c) (lower s')
  end.

(** [needle in hay] *)
Fixpoint contains (needle hay : string) : bool :=
  startswith needle hay ||
  match hay with
  | EmptyString => false
  | String _ hay' => contains needle hay'
  end.

(** [resp.raise_for_status()] raises for 4xx and 5xx. *)
Definition is_error_status (status : Z) : bool :=
  (400 <=? status) && (status <? 600).

Definition ERROR_KEYS : list string := ["Error"; "error"; "Message"; "message"].

(** [for k in ("Error", "error", "Message", "message"): if k in payload] *)
Definition error_key (payload : Json) : option string :=
  match payload with
  | JDict d => List.find (λ k, bool_decide (is_Some (dict_get k d))) ERROR_KEYS
  | _ => None
  end.

Definition system_raw_path (stamp : string) : string :=
  "data/raw/fivemin_current_raw_" +:+ stamp +:+ ".bin".
Definition system_unexpected_path (stamp : string) : string :=
  "data/raw/fivemin_current_unexpected_" +:+ stamp +:+ ".txt".
Definition system_error_path (stamp : string) : string :=
  "data/raw/fivemin_current_error_" +:+ stamp +:+ ".json".

(** [fetch_current_fivemin_load], from the response on: the byte files and
    the JSON dumps of [data/raw] afterwards, and the payload returned or the
    error raised. *)
Definition fetch_current_fivemin_load (stamp : string) (resp : Response)
    (bytes : gmap string string) (dumps : gmap string Json)
    : gmap string string * gmap string Json * outcome Json :=
  let bytes := <[system_raw_path stamp := content resp]> bytes in
  if is_error_status (status_code resp) then
    (bytes, dumps, Fail (RuntimeError (BadStatus (status_code resp))))
  else
    let ctype := default "" (content_type resp) in
    if negb (contains "json" (lower ctype)) then
      (<[system_unexpected_path stamp := content resp]> bytes, dumps,
       Fail (RuntimeError (UnexpectedContentType ctype)))
    else
      match json resp with
      | None => (bytes, dumps, Fail (RuntimeError InvalidJson))
      | Some payload =>
          match error_key payload with
          | Some k =>
              (bytes, <[system_error_path stamp := payload]> dumps,
               Fail (RuntimeError (ErrorObject k)))
          | None => (bytes, dumps, Return payload)
          end
      end.

Definition zonal_raw_path (stamp : string) : string :=
  "data/raw/isone_fivemin_zonal_raw_" +:+ stamp +:+ ".bin".
Definition zonal_unexpected_path (stamp : string) : string :=
  "data/raw/isone_fivemin_zonal_unexpected_" +:+ stamp +:+ ".txt".

(** [fetch_current_zonal], from the response on. *)
Definition fetch_current_zonal (stamp : string) (resp : Response)
    (bytes : gmap string string) : gmap string string * outcome Json :=
  let bytes := <[zonal_raw_path stamp := content resp]> bytes in
  if is_error_status (status_code resp) then
    (bytes, Fail (HTTPError (status_code resp)))
  else
    let ctype := default "" (content_type resp) in
    if negb (contains "json" (lower ctype)) then
      (<[zonal_unexpected_path stamp := content resp]> bytes,
       Fail (RuntimeError (UnexpectedContentType ctype)))
    else
      match json resp with
      | None => (bytes, Fail (RuntimeError InvalidJson))
      | Some payload => (bytes, Return payload)
      end.

(** [fetch_system_day] and [fetch_zonal_day] of [backfill_isone_days.py], from
    the response on: [resp.raise_for_status(); return resp.json()]. *)
Definition fetch_day (resp : Response) : outcome Json :=
  if is_error_status (status_code resp) then Fail (HTTPError (status_code resp))
  else
    match json resp with
    | None => Fail (Builtin ValueError)
    | Some payload => Return payload
    end.

End Fetch.

Module Cycle.
Import Fetch.

Record Disk := {
  raw_bytes : gmap string string;
  raw_dumps : gmap string Json;
  staged_system : option (list System.Row);
  staged_zonal : option (list Zonal.Row);
  history_system : gmap History.Date (list SystemFile.Row);
  history_zonal : gmap History.Date (list ZonalFile.Row);
}.

Definition with_raw (bytes : gmap string string) (dumps : gmap string Json)
    (disk : Disk) : Disk :=
  {| raw_bytes := bytes; raw_dumps := dumps;
     staged_system := staged_system disk; staged_zonal := staged_zonal disk;
     history_system := history_system disk; history_zonal := history_zonal disk |}.

(** [Path("data/staged/system_latest.csv").write_text(df_sys.to_csv(index=False))] *)
Definition stage_system (df_sys : list System.Row) (disk : Disk) : Disk :=
  {| raw_bytes := raw_bytes disk; raw_dumps := raw_dumps disk;
     staged_system := Some df_sys; staged_zonal := staged_zonal disk;
     history_system := history_system disk; history_zonal := history_zonal disk |}.

(** [Path("data/staged/zonal_latest.csv").write_text(df_zone.to_csv(index=False))] *)
Definition stage_zonal (df_zone : list Zonal.Row) (disk : Disk) : Disk :=
  {| raw_bytes := raw_bytes disk; raw_dumps := raw_dumps disk;
     staged_system := staged_system disk; staged_zonal := Some df_zone;
     history_system := history_system disk; history_zonal := history_zonal disk |}.

(** [write_history_system(df_sys)] on the disk. *)
Definition append_system (pd : History.Libs) (df_sys : list System.Row) (disk : Disk)
    : Disk * gmap History.Date Z :=
  let '(fs, added) := History.write_history_system pd df_sys (history_system disk) in
  ({| raw_bytes := raw_bytes disk; raw_dumps := raw_dumps disk;
      staged_system := staged_system disk; staged_zonal := staged_zonal disk;
      history_system := fs; history_zonal := history_zonal disk |}, added).

(** [write_history_zonal(df_zone)] on the disk. *)
Definition append_zonal (pd : History.Libs) (df_zone : list Zonal.Row) (disk : Disk)
    : Disk * gmap History.Date Z :=
  let '(fs, added) := History.write_history_zonal pd df_zone (history_zonal disk) in
  ({| raw_bytes := raw_bytes disk; raw_dumps := raw_dumps disk;
      staged_system := staged_system disk; staged_zonal := staged_zonal disk;
      history_system := history_system disk; history_zonal := fs |}, added).

(** What the server answers in one cycle, and the two file-name stamps. *)
Record Exchange := {
  system_stamp : string;
  system_response : Response;
  zonal_stamp : string;
  zonal_response : Response;
}.

(** [fetch_current_system_df] of [poll_isone_to_history.py]. *)
Definition fetch_current_system_df (lib : PyLib) (stamp : string) (resp : Response)
    (disk : Disk) : Disk * outcome (list System.Row) :=
  let '(bytes, dumps, fetched) :=
    fetch_current_fivemin_load stamp resp (raw_bytes disk) (raw_dumps disk) in
  match fetched with
  | Fail e => (with_raw bytes dumps disk, Fail e)
  | Return payload =>
      let '(dumps, df) := System.normalize_payload lib payload dumps in
      match df with
      | Raise e => (with_raw bytes dumps disk, Fail (Builtin e))
      | Ok [] => (with_raw bytes dumps disk, Fail (RuntimeError EmptyFrame))
      | Ok df => (with_raw bytes dumps disk, Return df)
      end
  end.

(** [fetch_current_zonal_df] of [poll_isone_to_history.py]. *)
Definition fetch_current_zonal_df (lib : PyLib) (stamp : string) (resp : Response)
    (disk : Disk) : Disk * outcome (list Zonal.Row) :=
  let '(bytes, fetched) := fetch_current_zonal stamp resp (raw_bytes disk) in
  match fetched with
  | Fail e => (with_raw bytes (raw_dumps disk) disk, Fail e)
  | Return payload =>
      let '(dumps, df) := Zonal.normalize_payload lib payload (raw_dumps disk) in
      match df with
      | Raise e => (with_raw bytes dumps disk, Fail (Builtin e))
      | Ok [] => (with_raw bytes dumps disk, Fail (RuntimeError EmptyFrame))
      | Ok df => (with_raw bytes dumps disk, Return df)
      end
  end.

(** [run_once] of [poll_isone_to_history.py]: both frames are fetched, then
    both are staged, then both are appended; the result is the pair of
    summaries it prints. *)
Definition run_once (lib : PyLib) (pd : History.Libs) (x : Exchange) (disk : Disk)
    : Disk * outcome (gmap History.Date Z * gmap History.Date Z) :=
  let '(disk, df_sys) :=
    fetch_current_system_df lib (system_stamp x) (system_response x) disk in
  match df_sys with
  | Fail e => (disk, Fail e)
  | Return df_sys =>
      let '(disk, df_zone) :=
        fetch_current_zonal_df lib (zonal_stamp x) (zonal_response x) disk in
      match df_zone with
      | Fail e => (disk, Fail e)
      | Return df_zone =>
          let disk := stage_system df_sys disk in
          let disk := stage_zonal df_zone disk in
          let '(disk, sys_added) := append_system pd df_sys disk in
          let '(disk, zone_added) := append_zonal pd df_zone disk in
          (disk, Return (sys_added, zone_added))
      end
  end.

(** The iterations of [run_loop] of [poll_isone_to_history.py]: a failed
    cycle is reported and the loop goes on. *)
Definition run_cycles (lib : PyLib) (pd : History.Libs) (xs : list Exchange)
    (disk : Disk) : Disk :=
  foldl (λ disk x, (run_once lib pd x disk).1) disk xs.

Inductive dataset := system | zonal.

(** [only in (None, "system")] and [only in (None, "zonal")] *)
Definition wants (which : dataset) (only : option dataset) : bool :=
  match only, which with
  | None, _ | Some system, system | Some zonal, zonal => true
  | _, _ => false
  end.

(** [run_once(only)] of [pipeline.py]: the frames asked for are fetched, then
    each is staged and appended in turn. *)
Definition pipeline_run_once (lib : PyLib) (pd : History.Libs)
    (only : option dataset) (x : Exchange) (disk : Disk)
    : Disk * outcome (option (gmap History.Date Z) * option (gmap History.Date Z)) :=
  let '(disk, df_sys) :=
    if wants system only then
      let '(disk, r) :=
        fetch_current_system_df lib (system_stamp x) (system_response x) disk in
      match r with
      | Fail e => (disk, Fail e)
      | Return df => (disk, Return (Some df))
      end
    else (disk, Return None) in
  match df_sys with
  | Fail e => (disk, Fail e)
  | Return df_sys =>
      let '(disk, df_zone) :=
        if wants zonal only then
          let '(disk, r) :=
            fetch_current_zonal_df lib (zonal_stamp x) (zonal_response x) disk in
          match r with
          | Fail e => (disk, Fail e)
          | Return df => (disk, Return (Some df))
          end
        else (disk, Return None) in
      match df_zone with
      | Fail e => (disk, Fail e)
      | Return df_zone =>
          let '(disk, sys_added) :=
            match df_sys with
            | Some df =>
                let '(disk, added) := append_system pd df (stage_system df disk) in
                (disk, Some added)
            | None => (disk, None)
            end in
          let '(disk, zone_added) :=
            match df_zone with
            | Some df =>
                let '(disk, added) := append_zonal pd df (stage_zonal df disk) in
                (disk, Some added)
            | None => (disk, None)
            end in
          (disk, Return (sys_added, zone_added))
      end
  end.

(** One day of a backfill, system half: the [try] block and its
    [except Exception] handler. *)
Definition backfill_system_day (lib : PyLib) (pd : History.Libs) (resp : Response)
    (disk : Disk) : Disk * gmap History.Date Z :=
  match fetch_day resp with
  | Fail _ => (disk, ∅)
  | Return payload_sys =>
      let '(dumps, df_sys) := System.normalize_payload lib payload_sys (raw_dumps disk) in
      match df_sys with
      | Raise _ => (with_raw (raw_bytes disk) dumps disk, ∅)
      | Ok df_sys => append_system pd df_sys (with_raw (raw_bytes disk) dumps disk)
      end
  end.

(** One day of a backfill, zonal half. *)
Definition backfill_zonal_day (lib : PyLib) (pd : History.Libs) (resp : Response)
    (disk : Disk) : Disk * gmap History.Date Z :=
  match fetch_day resp with
  | Fail _ => (disk, ∅)
  | Return payload_zone =>
      let '(dumps, df_zone) := Zonal.normalize_payload lib payload_zone (raw_dumps disk) in
      match df_zone with
      | Raise _ => (with_raw (raw_bytes disk) dumps disk, ∅)
      | Ok df_zone => append_zonal pd df_zone (with_raw (raw_bytes disk) dumps disk)
      end
  end.

(** [run_backfill(days, only)] of [pipeline.py]: [days] holds, for each day
    from yesterday backwards, the responses of the system and of the zonal
    day endpoint; the result lists the two summaries printed for each day. *)
Fixpoint run_backfill (lib : PyLib) (pd : History.Libs) (only : option dataset)
    (days : list (Response * Response)) (disk : Disk)
    : Disk * list (gmap History.Date Z * gmap History.Date Z) :=
  match days with
  | [] => (disk, [])
  | (resp_sys, resp_zone) :: days' =>
      let '(disk, added_sys) :=
        if wants system only then backfill_system_day lib pd resp_sys disk else (disk, ∅) in
      let '(disk, added_zone) :=
        if wants zonal only then backfill_zonal_day lib pd resp_zone disk else (disk, ∅) in
      let '(disk, log) := run_backfill lib pd only days' disk in
      (disk, (added_sys, added_zone) :: log)
  end.

(** [backfill_days(n_days)] of [backfill_isone_days.py], with [days] as for
    [run_backfill]. *)
Fixpoint backfill_days (lib : PyLib) (pd : History.Libs)
    (days : list (Response * Response)) (disk : Disk)
    : Disk * list (gmap History.Date Z * gmap History.Date Z) :=
  match days with
  | [] => (disk, [])
  | (resp_sys, resp_zone) :: days' =>
      let '(disk, added_sys) := backfill_system_day lib pd resp_sys disk in
      let '(disk, added_zone) := backfill_zonal_day lib pd resp_zone disk in
      let '(disk, log) := backfill_days lib pd days' disk in
      (disk, (added_sys, added_zone) :: log)
  end.

(** Both histories are well formed: every file is in ascending [ts_utc]
    order and holds only rows of its own UTC date. *)
Definition histories_ok (disk : Disk) : Prop :=
  (∀ d, History.sorted_by_ts_utc SystemFile.ts_utc
          (History.stored (history_system disk) d)) ∧
  (∀ d, History.sorted_by_ts_utc ZonalFile.ts_utc
          (History.stored (history_zonal disk) d)) ∧
  Runs.filed_by_date SystemFile.ts_utc (history_system disk) ∧
  Runs.filed_by_date ZonalFile.ts_utc (history_zonal disk).

Definition empty_disk : Disk :=
  {| raw_bytes := ∅; raw_dumps := ∅; staged_system := None; staged_zonal := None;
     history_system := ∅; history_zonal := ∅ |}.

(** The staged frames and the histories of a disk. *)
Definition tables (disk : Disk) :=
  (staged_system disk, staged_zonal disk, history_system disk, history_zonal disk).

(** What a fetcher returns or raises, as a function of the response. *)
Definition fetched_system (resp : Response) : outcome Json :=
  (fetch_current_fivemin_load "" resp ∅ ∅).2.

Definition fetched_zonal (resp : Response) : outcome Json :=
  (fetch_current_zonal "" resp ∅).2.

(** The frame obtained from a response: the fetcher, then the normalizer. *)
Definition system_frame (lib : PyLib) (resp : Response) : outcome (list System.Row) :=
  match fetched_system resp with
  | Fail e => Fail e
  | Return payload =>
      match (System.normalize_payload lib payload ∅).2 with
      | Raise e => Fail (Builtin e)
      | Ok df => Return df
      end
  end.

Definition zonal_frame (lib : PyLib) (resp : Response) : outcome (list Zonal.Row) :=
  match fetched_zonal resp with
  | Fail e => Fail e
  | Return payload =>
      match (Zonal.normalize_payload lib payload ∅).2 with
      | Raise e => Fail (Builtin e)
      | Ok df => Return df
      end
  end.

End Cycle.

(** ** The poller's clock *)

(** [time.time()] is taken as a whole number of nanoseconds since the epoch,
    and the arithmetic on it as exact. *)
Module Clock.

Definition NS : Z := 1000000000.

(** [int(now)] *)
Definition whole_seconds (now : Z) : Z := now `quot` NS.

(** [next_tick] of [_sleep_until_next_interval], in seconds; [None] when the
    division raises [ZeroDivisionError]. *)
Definition next_tick (now interval_sec : Z) : option Z :=
  if decide (interval_sec = 0) then None
  else Some ((whole_seconds now `div` interval_sec + 1) * interval_sec).

(** The argument of [time.sleep], in nanoseconds. *)
Definition sleep_time (now interval_sec : Z) : option Z :=
  match next_tick now interval_sec with
  | None => None
  | Some tick => Some (Z.max 0 (tick * NS - now))
  end.

End Clock.

(** ** Sample exchanges *)

Module Exchanges.
Import Fetch Cycle.

Definition dq : string := String (ascii_of_nat 34) EmptyString.

(** The text of [Examples.system_payload]. *)
Definition system_body : string :=
  "{" +:+ dq +:+ "FiveMinSystemLoad" +:+ dq +:+ ": [{" +:+ dq +:+ "BeginDate" +:+ dq
  +:+ ": " +:+ dq +:+ "2024-01-01T00:05:00" +:+ dq +:+ ", " +:+ dq +:+ "LoadMw" +:+ dq
  +:+ ": 15000.0}]}".

(** [[{"interval_begin_date": "2024-01-01T00:05:00", "load_zone_id": "4004",
       "estimated_load_mw": 3000.0}]] *)
Definition zonal_payload : Json := JList [JDict Examples.zonal_id_only].

Definition zonal_body : string :=
  "[{" +:+ dq +:+ "interval_begin_date" +:+ dq +:+ ": " +:+ dq +:+ "2024-01-01T00:05:00"
  +:+ dq +:+ ", " +:+ dq +:+ "load_zone_id" +:+ dq +:+ ": " +:+ dq +:+ "4004" +:+ dq
  +:+ ", " +:+ dq +:+ "estimated_load_mw" +:+ dq +:+ ": 3000.0}]".

Definition system_ok : Response :=
  {| status_code := 200; content_type := Some "application/json;charset=UTF-8";
     content := system_body; json := Some Examples.system_payload |}.

Definition zonal_ok : Response :=
  {| status_code := 200; content_type := Some "application/json;charset=UTF-8";
     content := zonal_body; json := Some zonal_payload |}.

(** A gateway error page. *)
Definition unavailable : Response :=
  {| status_code := 503; content_type := Some "text/html";
     content := "<html>Service Unavailable</html>"; json := None |}.

(** A login page served with status 200. *)
Definition login_page : Response :=
  {| status_code := 200; content_type := Some "text/html";
     content := "<html>Login</html>"; json := None |}.

Definition good : Exchange :=
  {| system_stamp := "20240101T001000"; system_response := system_ok;
     zonal_stamp := "20240101T051001Z"; zonal_response := zonal_ok |}.

(** The system endpoint answers, the zonal one is down. *)
Definition zonal_down : Exchange :=
  {| system_stamp := "20240101T001500"; system_response := system_ok;
     zonal_stamp := "20240101T051501Z"; zonal_response := unavailable |}.

End Exchanges.


(** ** History file names *)

(** [warehouse_build.py] recovers the date of a partition from the name that
    [write_history_system] and [write_history_zonal] gave to its file. *)
Module Warehouse.

(** [c in s] for a character *)
Fixpoint occurs (c : ascii) (s : string) : bool :=
  match s with
  | EmptyString => false
  | String c' s' => Ascii.eqb c' c || occurs c s'
  end.

(** [s.rpartition(sep)] for a one-character separator: the text before and
    after the last [sep]; [None] when [sep] does not occur. *)
Fixpoint rpartition (sep : ascii) (s : string) : option (string * string) :=
  match s with
  | EmptyString => None
  | String c s' =>
      match rpartition sep s' with
      | Some (before, after) => Some (String c before, after)
      | None => if Ascii.eqb c sep then Some (EmptyString, s') else None
      end
  end.

(** [p.name]: the last component of a path *)
Definition name (p : string) : string :=
  match rpartition "/" p with
  | Some (_, after) => after
  | None => p
  end.

(** [p.stem]: the name without its suffix, the suffix starting at the last
    dot that is neither the first nor the last character of the name *)
Definition stem (p : string) : string :=
  match rpartition "." (name p) with
  | Some (before, after) =>
      if bool_decide (before ≠ EmptyString ∧ after ≠ EmptyString) then before else name p
  | None => name p
  end.

(** [_date_from_filename(p)]: [p.stem.split("_")[-1]], the text after the
    last underscore of the stem *)
Definition _date_from_filename (p : string) : string :=
  match rpartition "_" (stem p) with
  | Some (_, after) => after
  | None => stem p
  end.

(** [Path("data/history") / f"system_load_{date_str}.csv"] *)
Definition system_history_path (date_str : string) : string :=
  "data/history/system_load_" +:+ date_str +:+ ".csv".

(** [Path("data/history") / f"zonal_load_{date_str}.csv"] *)
Definition zonal_history_path (date_str : string) : string :=
  "data/history/zonal_load_" +:+ date_str +:+ ".csv".

End Warehouse.
(** * Properties *)

(** ** Facts about [drop_duplicates] and [sort_values] *)

Module PandasFacts.
Import Pandas.

Section dedup.
Context {Row Key : Type} `{EqDecision Key}.
Implicit Types (key : Row → Key) (df : list Row) (r : Row).

Lemma filter_all (P : Row → Prop) `{∀ x, Decision (P x)} df :
  (∀ r, r ∈ df → P r) → filter P df = df.
Proof.
  induction df as [|x df IH]; intros Hall; [done|].
  rewrite filter_cons_True by (apply Hall; left).
  f_equal. apply IH. intros r Hr. apply Hall. by right.
Qed.

Lemma filter_none (P : Row → Prop) `{∀ x, Decision (P x)} df :
  (∀ r, r ∈ df → ¬ P r) → filter P df = [].
Proof.
  induction df as [|x df IH]; intros Hall; [done|].
  rewrite filter_cons_False by (apply Hall; left).
  apply IH. intros r Hr. apply Hall. by right.
Qed.

Lemma drop_duplicates_elem key df r : r ∈ drop_duplicates key df → r ∈ df.
Proof.
  revert r. induction df as [|x df IH]; simpl; intros r Hr; [done|].
  apply elem_of_cons in Hr as [->|Hr]; [by left|right].
  apply list_elem_of_filter in Hr as [_ Hr]. by apply IH.
Qed.

Lemma drop_duplicates_keys key df k :
  k ∈ key <$> df → k ∈ key <$> drop_duplicates key df.
Proof.
  induction df as [|x df IH]; simpl; [done|].
  intros Hk. destruct (decide (k = key x)) as [->|Hne]; [by left|].
  apply elem_of_cons in Hk as [?|Hk]; [done|]. right.
  apply IH, list_elem_of_fmap in Hk as (r & -> & Hr).
  apply list_elem_of_fmap_2, list_elem_of_filter. done.
Qed.

Lemma drop_duplicates_NoDup key df : NoDup (key <$> drop_duplicates key df).
Proof.
  induction df as [|x df IH]; simpl; [constructor|].
  apply NoDup_cons. split.
  - intros (r & Heq & Hr)%list_elem_of_fmap.
    apply list_elem_of_filter in Hr as [Hne _]. by apply Hne.
  - apply (sublist_NoDup _ _ IH).
    apply fmap_sublist, sublist_filter.
Qed.

Lemma drop_duplicates_app key df1 df2 :
  drop_duplicates key (df1 ++ df2) =
  drop_duplicates key df1 ++
    filter (λ r, key r ∉ key <$> df1) (drop_duplicates key df2).
Proof.
  induction df1 as [|x df1 IH]; simpl.
  - symmetry. apply filter_all. intros r _. apply not_elem_of_nil.
  - f_equal. rewrite IH, filter_app. f_equal.
    rewrite list_filter_filter. apply list_filter_iff.
    intros r. rewrite not_elem_of_cons. tauto.
Qed.

Lemma drop_duplicates_id key df :
  NoDup (key <$> df) → drop_duplicates key df = df.
Proof.
  induction df as [|x df IH]; simpl; [done|].
  intros [Hx Hnd]%NoDup_cons. f_equal. rewrite IH by done.
  apply filter_all. intros r Hr Heq. apply Hx. rewrite <- Heq.
  by apply list_elem_of_fmap_2.
Qed.

(** Rows whose keys are all present already are dropped: the first row of
    each key wins. *)
Lemma drop_duplicates_absorb key df_old df_new :
  NoDup (key <$> df_old) →
  (∀ r, r ∈ df_new → key r ∈ key <$> df_old) →
  drop_duplicates key (df_old ++ df_new) = df_old.
Proof.
  intros Hnd Hin. rewrite drop_duplicates_app, drop_duplicates_id by done.
  rewrite filter_none; [by rewrite app_nil_r|].
  intros r Hr Hnot. apply Hnot, Hin. by eapply drop_duplicates_elem.
Qed.

(** Whatever order a sort leaves equal timestamps in, appending a batch a
    second time stores the same rows. *)
Lemma reappend_same_rows (sort : list Row → list Row) key df_old df_new :
  (∀ df, sort df ≡ₚ df) →
  sort (drop_duplicates key (sort (drop_duplicates key (df_old ++ df_new)) ++ df_new))
  ≡ₚ sort (drop_duplicates key (df_old ++ df_new)).
Proof.
  intros Hsort. rewrite (Hsort (drop_duplicates _ (_ ++ _))).
  rewrite drop_duplicates_absorb; [done| |].
  - rewrite Hsort. apply drop_duplicates_NoDup.
  - intros r Hr. rewrite Hsort. apply drop_duplicates_keys.
    apply list_elem_of_fmap_2, elem_of_app. by right.
Qed.
End dedup.

Section sorting.
Context {Row : Type} (leb : Row → Row → bool).
Hypothesis leb_total : ∀ a b, leb a b = false → leb b a = true.
Hypothesis leb_trans : ∀ a b c, leb a b = true → leb b c = true → leb a c = true.

Local Abbreviation sorted_by := (sorted_by leb).

Lemma insert_sorted_perm r df : insert_sorted leb r df ≡ₚ r :: df.
Proof.
  induction df as [|x df IH]; simpl; [done|].
  destruct (leb r x); [done|]. rewrite IH. apply Permutation_swap.
Qed.

Lemma sort_values_perm df : sort_values leb df ≡ₚ df.
Proof.
  induction df as [|x df IH]; simpl; [done|].
  by rewrite insert_sorted_perm, IH.
Qed.

Lemma insert_sorted_sorted r df :
  sorted_by df → sorted_by (insert_sorted leb r df).
Proof using leb_total leb_trans.
  unfold sorted_by. induction df as [|x df IH]; simpl; intros Hs.
  - repeat constructor.
  - apply StronglySorted_inv in Hs as [Hs Hx].
    destruct (leb r x) eqn:Hrx.
    + constructor; [by constructor|].
      constructor; [done|]. eapply Forall_impl; [exact Hx|].
      intros y Hy. by eapply leb_trans.
    + constructor; [by apply IH|].
      rewrite insert_sorted_perm. constructor; [by apply leb_total|done].
Qed.

Lemma sort_values_sorted df : sorted_by (sort_values leb df).
Proof using leb_total leb_trans.
  induction df as [|x df IH]; simpl; [constructor|].
  by apply insert_sorted_sorted.
Qed.

(** The sort is stable, so it leaves a sorted frame as it is. *)
Lemma sort_values_id df : sorted_by df → sort_values leb df = df.
Proof.
  unfold sorted_by. induction df as [|x df IH]; simpl; [done|].
  intros [Hs Hx]%StronglySorted_inv. rewrite IH by done.
  destruct df as [|y df]; [done|]. simpl.
  apply Forall_cons in Hx as [-> _]. done.
Qed.
End sorting.

End PandasFacts.

(** ** The order on timestamps *)

Lemma ts_leb_total a b : ts_leb a b = false → ts_leb b a = true.
Proof.
  unfold ts_leb, ts_compare.
  destruct (instant a) as [x|], (instant b) as [y|]; simpl; try done.
  rewrite (Z.compare_antisym x y). by destruct (x ?= y).
Qed.

Lemma ts_leb_trans a b c : ts_leb a b = true → ts_leb b c = true → ts_leb a c = true.
Proof.
  unfold ts_leb, ts_compare.
  destruct (instant a) as [x|], (instant b) as [y|], (instant c) as [z|];
    simpl; try done.
  destruct (Z.compare_spec x y), (Z.compare_spec y z), (Z.compare_spec x z);
    simpl; try done; lia.
Qed.


(** ** The reference instance of the history library *)

Module SampleHistory.

Lemma read_system_ts_utc df :
  SystemFile.ts_utc <$> SampleCsv.read_system df = SystemFile.ts_utc <$> df.
Proof. unfold SampleCsv.read_system. by rewrite <- list_fmap_compose. Qed.

Lemma read_zonal_ts_utc df :
  ZonalFile.ts_utc <$> SampleCsv.read_zonal df = ZonalFile.ts_utc <$> df.
Proof. unfold SampleCsv.read_zonal. by rewrite <- list_fmap_compose. Qed.

Lemma stable_sort_sorted {Row : Type} (ts_utc : Row → Datetime) df :
  Pandas.sorted_by (History.by_ts_utc ts_utc)
    (Pandas.sort_values (History.by_ts_utc ts_utc) df).
Proof.
  apply PandasFacts.sort_values_sorted.
  - intros a b. apply ts_leb_total.
  - intros a b c. apply ts_leb_trans.
Qed.

(** [read_csv] as [SampleCsv] reads a file, and a stable sort. *)
Definition system_lib (undated_match : bool) : History.Lib SystemFile.ts_utc :=
  {| History.read_csv := SampleCsv.read_system;
     History.sort_values := Pandas.sort_values (History.by_ts_utc SystemFile.ts_utc);
     History.undated_match := undated_match;
     History.read_csv_ts_utc := read_system_ts_utc;
     History.sort_values_perm :=
       PandasFacts.sort_values_perm (History.by_ts_utc SystemFile.ts_utc);
     History.sort_values_sorted := stable_sort_sorted SystemFile.ts_utc |}.

Definition zonal_lib (undated_match : bool) : History.Lib ZonalFile.ts_utc :=
  {| History.read_csv := SampleCsv.read_zonal;
     History.sort_values := Pandas.sort_values (History.by_ts_utc ZonalFile.ts_utc);
     History.undated_match := undated_match;
     History.read_csv_ts_utc := read_zonal_ts_utc;
     History.sort_values_perm :=
       PandasFacts.sort_values_perm (History.by_ts_utc ZonalFile.ts_utc);
     History.sort_values_sorted := stable_sort_sorted ZonalFile.ts_utc |}.

Definition libs (undated_match : bool) : History.Libs :=
  {| History.system_lib := system_lib undated_match;
     History.zonal_lib := zonal_lib undated_match |}.

End SampleHistory.

(** ** History store *)

Module HistoryFacts.
Import Pandas PandasFacts History.

Section store.
Context {Row Key : Type} `{EqDecision Key}.
Context {ts_utc : Row → Datetime}.
Variable lib : Lib ts_utc.
Variable key : Row → Key.
Implicit Types (df : list Row) (fs : gmap Date (list Row)) (path d : Date).

Local Abbreviation appended := (appended lib key).
Local Abbreviation sorted_by_ts_utc := (sorted_by_ts_utc ts_utc).

Lemma by_ts_utc_total (a b : Row) :
  by_ts_utc ts_utc a b = false → by_ts_utc ts_utc b a = true.
Proof. apply ts_leb_total. Qed.

Lemma by_ts_utc_trans (a b c : Row) :
  by_ts_utc ts_utc a b = true → by_ts_utc ts_utc b c = true →
  by_ts_utc ts_utc a c = true.
Proof. apply ts_leb_trans. Qed.

(** What is known of [read_csv]. *)
Lemma read_csv_length df : length (read_csv lib df) = length df.
Proof.
  rewrite <- (length_fmap ts_utc (read_csv lib df)), read_csv_ts_utc.
  apply length_fmap.
Qed.

Lemma read_csv_nil : read_csv lib [] = [].
Proof. apply nil_length_inv. by rewrite read_csv_length. Qed.

Lemma read_csv_elem df r :
  r ∈ read_csv lib df → ∃ r', r' ∈ df ∧ ts_utc r' = ts_utc r.
Proof.
  intros Hr. apply (list_elem_of_fmap_2 ts_utc) in Hr.
  rewrite read_csv_ts_utc in Hr.
  apply list_elem_of_fmap in Hr as (r' & Heq & Hr'). by exists r'.
Qed.

Lemma read_csv_covers df r :
  r ∈ df → ∃ r', r' ∈ read_csv lib df ∧ ts_utc r' = ts_utc r.
Proof.
  intros Hr. apply (list_elem_of_fmap_2 ts_utc) in Hr.
  rewrite <- (read_csv_ts_utc lib) in Hr.
  apply list_elem_of_fmap in Hr as (r' & Heq & Hr'). by exists r'.
Qed.

Lemma append_unfold df_new path fs :
  _append_idempotent lib df_new path key fs =
  (<[path := appended (stored fs path) df_new]> fs,
   Z.of_nat (length (appended (stored fs path) df_new))
   - Z.of_nat (length (stored fs path))).
Proof.
  unfold _append_idempotent, stored, History.appended.
  destruct (fs !! path) as [rows|]; simpl.
  - by rewrite read_csv_length.
  - by rewrite read_csv_nil.
Qed.

Lemma stored_append df_new path fs :
  stored (_append_idempotent lib df_new path key fs).1 path =
  appended (stored fs path) df_new.
Proof. rewrite append_unfold. unfold stored at 1. simpl. by rewrite lookup_insert_eq. Qed.

Lemma appended_perm df_old df_new :
  appended df_old df_new ≡ₚ drop_duplicates key (read_csv lib df_old ++ df_new).
Proof. apply sort_values_perm. Qed.

Lemma appended_NoDup df_old df_new : NoDup (key <$> appended df_old df_new).
Proof. rewrite appended_perm. apply drop_duplicates_NoDup. Qed.

Lemma appended_sorted df_old df_new : sorted_by_ts_utc (appended df_old df_new).
Proof. apply sort_values_sorted. Qed.

Lemma appended_covers df_old df_new r :
  r ∈ df_new → key r ∈ key <$> appended df_old df_new.
Proof.
  intros Hr. rewrite appended_perm. apply drop_duplicates_keys.
  apply list_elem_of_fmap_2, elem_of_app. by right.
Qed.

Lemma appended_covers_read df_old df_new r :
  r ∈ read_csv lib df_old → key r ∈ key <$> appended df_old df_new.
Proof.
  intros Hr. rewrite appended_perm. apply drop_duplicates_keys.
  apply list_elem_of_fmap_2, elem_of_app. by left.
Qed.

Lemma appended_elem df_old df_new r :
  r ∈ appended df_old df_new → r ∈ read_csv lib df_old ∨ r ∈ df_new.
Proof.
  rewrite appended_perm. intros Hr%drop_duplicates_elem. by apply elem_of_app.
Qed.

Lemma NoDup_key_inj df r1 r2 :
  NoDup (key <$> df) → r1 ∈ df → r2 ∈ df → key r1 = key r2 → r1 = r2.
Proof.
  induction df as [|x df IH]; simpl; [by intros _ ?%elem_of_nil|].
  intros [Hx Hnd]%NoDup_cons [->|H1]%elem_of_cons [->|H2]%elem_of_cons Heq;
    try done.
  - exfalso. apply Hx. rewrite Heq. by apply list_elem_of_fmap_2.
  - exfalso. apply Hx. rewrite <- Heq. by apply list_elem_of_fmap_2.
  - by apply IH.
Qed.

Lemma write_history_loop_cons d0 dates df fs out :
  write_history_loop lib (d0 :: dates) df key fs out =
  write_history_loop lib dates df key
    (<[d0 := appended (stored fs d0) (df_day lib d0 df)]> fs)
    (<[d0 := Z.of_nat (length (appended (stored fs d0) (df_day lib d0 df)))
             - Z.of_nat (length (stored fs d0))]> out).
Proof.
  change (write_history_loop lib (d0 :: dates) df key fs out) with
    (let '(fs', added) := _append_idempotent lib (df_day lib d0 df) d0 key fs in
     write_history_loop lib dates df key fs' (<[d0 := added]> out)).
  by rewrite append_unfold.
Qed.

(** What the loop of [write_history] leaves in each file and in [out]. *)
Lemma write_history_loop_spec dates df fs out :
  NoDup dates →
  ∀ d,
    (write_history_loop lib dates df key fs out).1 !! d =
      (if decide (d ∈ dates)
       then Some (appended (stored fs d) (df_day lib d df))
       else fs !! d) ∧
    (write_history_loop lib dates df key fs out).2 !! d =
      (if decide (d ∈ dates)
       then Some (Z.of_nat (length (appended (stored fs d) (df_day lib d df)))
                  - Z.of_nat (length (stored fs d)))
       else out !! d).
Proof.
  revert fs out. induction dates as [|d0 dates IH]; intros fs out Hnd d.
  - destruct (decide (d ∈ [])) as [?%elem_of_nil|]; done.
  - apply NoDup_cons in Hnd as [Hd0 Hnd]. rewrite write_history_loop_cons.
    destruct (IH (<[d0:=appended (stored fs d0) (df_day lib d0 df)]> fs)
                 (<[d0:=Z.of_nat (length (appended (stored fs d0) (df_day lib d0 df)))
                   - Z.of_nat (length (stored fs d0))]> out) Hnd d) as [-> ->].
    destruct (decide (d ∈ dates)) as [Hin|Hnin].
    + assert (d0 ≠ d) by (intros ->; done).
      rewrite !decide_True by (by right).
      unfold stored. by rewrite lookup_insert_ne.
    + destruct (decide (d = d0)) as [->|Hne].
      * rewrite !decide_True by (by left). by rewrite !lookup_insert_eq.
      * rewrite !decide_False by (rewrite elem_of_cons; tauto).
        by rewrite !lookup_insert_ne.
Qed.

(** The order in which the set of dates is enumerated does not matter. *)
Lemma write_history_loop_order dates dates' df fs out :
  NoDup dates → dates ≡ₚ dates' →
  write_history_loop lib dates df key fs out =
  write_history_loop lib dates' df key fs out.
Proof.
  intros Hnd Hperm.
  assert (Hnd' : NoDup dates') by by rewrite <- Hperm.
  rewrite (surjective_pairing (write_history_loop _ dates _ _ _ _)),
          (surjective_pairing (write_history_loop _ dates' _ _ _ _)).
  f_equal; apply map_eq; intros d.
  - destruct (write_history_loop_spec dates df fs out Hnd d) as [-> _].
    destruct (write_history_loop_spec dates' df fs out Hnd' d) as [-> _].
    destruct (decide (d ∈ dates)) as [Hd|Hd]; rewrite Hperm in Hd.
    + by rewrite decide_True.
    + by rewrite decide_False.
  - destruct (write_history_loop_spec dates df fs out Hnd d) as [_ ->].
    destruct (write_history_loop_spec dates' df fs out Hnd' d) as [_ ->].
    destruct (decide (d ∈ dates)) as [Hd|Hd]; rewrite Hperm in Hd.
    + by rewrite decide_True.
    + by rewrite decide_False.
Qed.

Lemma write_history_lookup df fs d :
  (write_history lib df key fs).1 !! d =
    (if decide (d ∈ _utc_dates_in_df ts_utc df)
     then Some (appended (stored fs d) (df_day lib d df))
     else fs !! d) ∧
  (write_history lib df key fs).2 !! d =
    (if decide (d ∈ _utc_dates_in_df ts_utc df)
     then Some (Z.of_nat (length (appended (stored fs d) (df_day lib d df)))
                - Z.of_nat (length (stored fs d)))
     else None).
Proof.
  unfold write_history.
  destruct (write_history_loop_spec (_utc_dates_in_df ts_utc df) df fs ∅
              (NoDup_remove_dups _) d) as [-> ->].
  by rewrite lookup_empty.
Qed.

(** On a key collision the row read back from the file is the one kept. *)
Lemma first_write_wins df_old df_new r_old r_new :
  NoDup (key <$> read_csv lib df_old) →
  r_old ∈ read_csv lib df_old → r_new ∈ df_new →
  key r_new = key r_old → r_new ≠ r_old →
  r_old ∈ appended df_old df_new ∧ r_new ∉ appended df_old df_new.
Proof.
  intros Hnd Hold Hnew Hkey Hne.
  rewrite !appended_perm, drop_duplicates_app, drop_duplicates_id by done.
  split; [apply elem_of_app; by left|].
  intros [Hin|Hin]%elem_of_app.
  - apply Hne. by eapply NoDup_key_inj.
  - apply list_elem_of_filter in Hin as [Hnot _].
    apply Hnot. rewrite Hkey. by apply list_elem_of_fmap_2.
Qed.

Lemma append_all_snoc batches df_new path fs :
  append_all lib (batches ++ [df_new]) path key fs =
  (_append_idempotent lib df_new path key (append_all lib batches path key fs)).1.
Proof. unfold append_all. by rewrite foldl_app. Qed.

Lemma write_history_all_snoc batches df fs :
  write_history_all lib (batches ++ [df]) key fs =
  (write_history lib df key (write_history_all lib batches key fs)).1.
Proof. unfold write_history_all. by rewrite foldl_app. Qed.

Lemma df_day_elem d df r :
  r ∈ df_day lib d df → r ∈ df ∧ utc_date (ts_utc r) = d.
Proof.
  unfold df_day. destruct (_ || _); [|by intros ?%elem_of_nil].
  intros [? ?]%list_elem_of_filter. done.
Qed.

Lemma df_day_dated d df r :
  r ∈ df → utc_date (ts_utc r) = d → ts_utc r ≠ NaT → r ∈ df_day lib d df.
Proof.
  intros Hr Hd Hdated. unfold df_day.
  assert (is_Some d) as Hsome.
  { rewrite <- Hd. destruct (ts_utc r); [done|]. by eexists. }
  rewrite bool_decide_true by done. simpl. by apply list_elem_of_filter.
Qed.

(** Every file stays in ascending [ts_utc] order. *)
Lemma write_history_sorted df fs :
  (∀ d, sorted_by_ts_utc (stored fs d)) →
  ∀ d, sorted_by_ts_utc (stored (write_history lib df key fs).1 d).
Proof.
  intros Hfs d. unfold stored at 1.
  destruct (write_history_lookup df fs d) as [-> _].
  destruct (decide _); [apply appended_sorted|apply Hfs].
Qed.
End store.

(** *** The claims, for the system and the zonal dataset *)

(** C1. Appending the same batch twice is not idempotent for the zonal
    dataset.  The batch holds one record, zone "4004" at 00:05.  The first
    [write_history_zonal] stores it.  The second reads the file back, where
    the id is the integer 4004, does not recognise the key ("4004", a
    string) and stores the record again: it reports 1 added row, the file
    holds two rows, and read back they are the same row twice. *)
Theorem same_zonal_batch_is_stored_twice (undated_match : bool) :
  let pd := SampleHistory.libs undated_match in
  let df := [Examples.zone_0005 "4004" "CT" 3000] in
  let fs1 := (write_history_zonal pd df ∅).1 in
  let again := write_history_zonal pd df fs1 in
  stored fs1 Examples.jan1 = [Rows.zone_0005 "4004" "CT" 3000] ∧
  again.2 !! Examples.jan1 = Some 1 ∧
  read_csv (zonal_lib pd) (stored again.1 Examples.jan1) =
    [Rows.zone_0005_read 4004 "CT" 3000; Rows.zone_0005_read 4004 "CT" 3000].
Proof. destruct undated_match; by vm_compute. Qed.

(** C2, as the specification states it, fails: the file holds a row for
    (00:05, ISONE) with 15000 MW, a new batch brings 15100 MW for the same
    key, and the file still holds the 15000 MW row only. *)
Lemma new_row_does_not_replace_stored_row :
  let pd := SampleHistory.libs false in
  let fs := (write_history_system pd [Examples.sys_0005 15000] ∅).1 in
  let after := (write_history_system pd [Examples.sys_0005 15100] fs).1 in
  system_key (Rows.sys_0005 15100) = system_key (Rows.sys_0005 15000) ∧
  Rows.sys_0005 15100 ≠ Rows.sys_0005 15000 ∧
  stored fs Examples.jan1 = [Rows.sys_0005 15000] ∧
  stored after Examples.jan1 = [Rows.sys_0005 15000] ∧
  read_csv (system_lib pd) (stored after Examples.jan1) = [Rows.sys_0005 15000].
Proof. split; [done|]. split; [compute_done|]. by vm_compute. Qed.

(** C2 (amended). On an identity-key collision during an append the row
    already stored wins: if the rows read back from the file hold one row per
    key, among them [r_old], and the new batch holds a different row [r_new]
    with the key of [r_old], then after [_append_idempotent] the file holds
    [r_old] and does not hold [r_new]. *)
Theorem stored_row_wins_on_collision :
  (∀ (lib : Lib SystemFile.ts_utc) fs path df_new r_old r_new,
     NoDup (system_key <$> read_csv lib (stored fs path)) →
     r_old ∈ read_csv lib (stored fs path) → r_new ∈ df_new →
     system_key r_new = system_key r_old → r_new ≠ r_old →
     let rows := stored (_append_idempotent lib df_new path system_key fs).1 path in
     r_old ∈ rows ∧ r_new ∉ rows) ∧
  (∀ (lib : Lib ZonalFile.ts_utc) fs path df_new r_old r_new,
     NoDup (zonal_key <$> read_csv lib (stored fs path)) →
     r_old ∈ read_csv lib (stored fs path) → r_new ∈ df_new →
     zonal_key r_new = zonal_key r_old → r_new ≠ r_old →
     let rows := stored (_append_idempotent lib df_new path zonal_key fs).1 path in
     r_old ∈ rows ∧ r_new ∉ rows).
Proof.
  split; intros lib fs path df_new r_old r_new Hnd Hold Hnew Hkey Hne rows;
    unfold rows; rewrite stored_append; by apply first_write_wins.
Qed.

Lemma stored_row_wins_on_collision_witness :
  let lib := SampleHistory.system_lib false in
  let fs : gmap Date (list SystemFile.Row) := {[ Examples.jan1 := [Rows.sys_0005 15000] ]} in
  let rows := stored (_append_idempotent lib [Rows.sys_0005 15100]
                        Examples.jan1 system_key fs).1 Examples.jan1 in
  Rows.sys_0005 15000 ∈ rows ∧ Rows.sys_0005 15100 ∉ rows.
Proof.
  intros lib fs.
  apply (proj1 stored_row_wins_on_collision lib fs Examples.jan1
           [Rows.sys_0005 15100] (Rows.sys_0005 15000) (Rows.sys_0005 15100));
    compute_done.
Defined.

(** C3. Merge completeness fails: a row of the first batch can be lost.  The
    first batch holds two records at 00:05, of zone "4004" and of zone
    "04004" (ids that differ as strings); the second batch holds a record
    at 00:10.  The keys are pairwise distinct.  The first append stores
    both records.  The second reads the file back, where both ids are the
    integer 4004, and [drop_duplicates] drops one of the two: the partition
    holds two rows, one at 00:05 and one at 00:10, not the three of the two
    batches. *)
Theorem merged_partition_loses_a_row (undated_match : bool) :
  let lib := SampleHistory.zonal_lib undated_match in
  let df1 := [Rows.zone_0005 "4004" "CT" 3000; Rows.zone_0005 "04004" "04004" 3000] in
  let df2 := [Rows.zone_0010 "4004" "CT" 3100] in
  let after := stored (append_all lib [df1; df2] Examples.jan1 zonal_key ∅) Examples.jan1 in
  NoDup (zonal_key <$> (df1 ++ df2)) ∧
  stored (append_all lib [df1] Examples.jan1 zonal_key ∅) Examples.jan1 ≡ₚ df1 ∧
  length after = 2%nat ∧
  ZonalFile.zone_id <$> read_csv lib after = [Integer 4004; Integer 4004] ∧
  ZonalFile.ts_utc <$> after = [Examples.utc_0005; Examples.utc_0010].
Proof.
  destruct undated_match; (split; [compute_done|]); (split; [by vm_compute|]);
    by vm_compute.
Qed.

(** C4. The partition invariant "no two stored rows share the identity key"
    does not hold of the code.  After two appends to an absent zonal file,
    the second bringing a new reading for a key the first stored, the file
    read back holds two different rows with the key (00:05, 4004): the
    stored id is an integer when the file is read, the incoming id is a
    string, and both rows are written. *)
Theorem stored_rows_share_a_key (undated_match : bool) :
  let lib := SampleHistory.zonal_lib undated_match in
  let batches :=
    [ [Rows.zone_0010 "4004" "CT" 3100; Rows.zone_0005 "4004" "CT" 3000];
      [Rows.zone_0005 "4004" "CT" 3050; Rows.zone_0005 "4006" "SEMA" 1500] ] in
  let rows := read_csv lib (stored (append_all lib batches Examples.jan1 zonal_key ∅)
                              Examples.jan1) in
  length rows = 4%nat ∧
  Rows.zone_0005_read 4004 "CT" 3000 ∈ rows ∧
  Rows.zone_0005_read 4004 "CT" 3050 ∈ rows ∧
  Rows.zone_0005_read 4004 "CT" 3000 ≠ Rows.zone_0005_read 4004 "CT" 3050 ∧
  zonal_key (Rows.zone_0005_read 4004 "CT" 3000)
    = zonal_key (Rows.zone_0005_read 4004 "CT" 3050) ∧
  ¬ NoDup (zonal_key <$> rows).
Proof.
  destruct undated_match; (split; [by vm_compute|]); repeat split; compute_done.
Qed.

End HistoryFacts.

(** ** Traversal *)

Section json_induction.
Variable P : Json → Prop.
Hypothesis Hnull : P JNull.
Hypothesis Hbool : ∀ b, P (JBool b).
Hypothesis Hint : ∀ z, P (JInt z).
Hypothesis Hfloat : ∀ f, P (JFloat f).
Hypothesis Hstr : ∀ s, P (JStr s).
Hypothesis Hlist : ∀ l, Forall P l → P (JList l).
Hypothesis Hdict : ∀ d, Forall (λ kv, P kv.2) d → P (JDict d).

Fixpoint Json_nested_ind (v : Json) : P v :=
  match v with
  | JNull => Hnull
  | JBool b => Hbool b
  | JInt z => Hint z
  | JFloat f => Hfloat f
  | JStr s => Hstr s
  | JList l =>
      Hlist l ((fix go (l : list Json) : Forall P l :=
                  match l with
                  | [] => List.Forall_nil P
                  | x :: l' => List.Forall_cons P x l' (Json_nested_ind x) (go l')
                  end) l)
  | JDict d =>
      Hdict d ((fix go (d : dict) : Forall (λ kv, P kv.2) d :=
                  match d with
                  | [] => List.Forall_nil _
                  | (k, x) :: d' =>
                      List.Forall_cons (λ kv, P kv.2) (k, x) d' (Json_nested_ind x) (go d')
                  end) d)
  end.
End json_induction.

Lemma res_bind_Ok {A B} (m : res A) (k : A → res B) b :
  m ≫= k = Ok b ↔ ∃ a, m = Ok a ∧ k a = Ok b.
Proof.
  destruct m as [a|e]; simpl.
  - split; [by exists a|]. by intros (? & [= <-] & ?).
  - split; [done|]. by intros (? & ? & _).
Qed.

Section traverse_facts.
Context {Row : Type} (node : dict → res (list Row)).

Lemma traverse_list l : traverse node (JList l) = traverse_items node l.
Proof. simpl. induction l as [|x l IH]; [done|]. by rewrite IH. Qed.

Lemma traverse_dict d :
  traverse node (JDict d) =
  here ← node d; below ← traverse_values node d; Ok (here ++ below).
Proof.
  simpl. f_equal.
  induction d as [|[k x] d IH]; [done|]. simpl. by rewrite IH.
Qed.

(** Every row collected by the traversal was extracted from some dict node. *)
Lemma traverse_Forall (Q : Row → Prop) :
  (∀ d rs, node d = Ok rs → Forall Q rs) →
  ∀ v rs, traverse node v = Ok rs → Forall Q rs.
Proof.
  intros Hnode v.
  induction v as [| | | | |l IH|d IH] using Json_nested_ind; intros rs.
  1-5: by intros [= <-].
  - rewrite traverse_list. revert rs.
    induction IH as [|x l Hx _ IHl]; simpl; intros rs.
    + by intros [= <-].
    + intros (a & Ha & (b & Hb & [= <-])%res_bind_Ok)%res_bind_Ok.
      apply Forall_app. split; [by apply Hx|by apply IHl].
  - rewrite traverse_dict.
    intros (here & Hhere & (below & Hbelow & [= <-])%res_bind_Ok)%res_bind_Ok.
    apply Forall_app. split; [by eapply Hnode|].
    clear Hhere. revert below Hbelow.
    induction IH as [|x l Hx _ IHl]; simpl; intros rs.
    + by intros [= <-].
    + intros (a & Ha & (b & Hb & [= <-])%res_bind_Ok)%res_bind_Ok.
      apply Forall_app. split; [by apply Hx|by apply IHl].
Qed.

(** An extra list layer is transparent. *)
Lemma traverse_wrap_list v : traverse node (JList [v]) = traverse node v.
Proof.
  rewrite traverse_list. simpl. destruct (traverse node v) as [a|e]; simpl; [|done].
  by rewrite app_nil_r.
Qed.

(** An extra map layer is transparent when the wrapping map itself yields no
    record. *)
Lemma traverse_wrap_map k v :
  node [(k, v)] = Ok [] → traverse node (JDict [(k, v)]) = traverse node v.
Proof.
  intros Hnode. rewrite traverse_dict, Hnode. simpl.
  destruct (traverse node v) as [a|e]; simpl; [|done].
  by rewrite app_nil_r.
Qed.
End traverse_facts.

Ltac res_inv :=
  repeat match goal with
  | H : (_ ≫= _) = Ok _ |- _ =>
      let a := fresh "a" in let Ha := fresh "Ha" in
      apply res_bind_Ok in H as (a & Ha & H)
  | H : Ok _ = Ok _ |- _ => injection H as H; try subst
  | H : Raise _ = Ok _ |- _ => discriminate H
  end.

Lemma res_bind_app_nil {A} (m : res (list A)) :
  (here ← m; below ← Ok []; Ok (here ++ below)) = m.
Proof. destruct m as [a|e]; simpl; [|done]. by rewrite app_nil_r. Qed.

Lemma first_hit_singleton_None ok keys k v :
  k ∉ keys → first_hit ok keys [(k, v)] = None.
Proof.
  induction keys as [|k' keys IH]; [done|].
  intros [Hne Hnot]%not_elem_of_cons. simpl.
  destruct (String.eqb_spec k' k) as [->|_]; [done|]. by apply IH.
Qed.

Lemma utc_of_local_rule t : ∃ u, utc_of_local t = Ok u ∧ utc_rule t u.
Proof.
  destruct t as [|w [off|]]; simpl; eexists; (split; [done|]); try done.
  split; [done|]. simpl. f_equal. lia.
Qed.

Lemma utc_of_local_Ok t u : utc_of_local t = Ok u → utc_rule t u.
Proof.
  destruct (utc_of_local_rule t) as (u' & -> & Hrule). by intros [= <-].
Qed.

(** ** System normalizer *)

Module SystemFacts.
Import System.

Lemma walk_traverse lib v : walk lib v = traverse (walk_node lib) v.
Proof.
  induction v as [| | | | |l IH|d IH] using Json_nested_ind; try done.
  - simpl. induction IH as [|x l Hx _ IHl]; [done|]. by rewrite Hx, IHl.
  - simpl. f_equal. induction IH as [|[k x] l Hx _ IHl]; [done|].
    simpl in Hx. by rewrite Hx, IHl.
Qed.

Lemma time_key_not_value_key k : k ∈ TIME_KEYS → k ∉ VALUE_KEYS.
Proof.
  unfold TIME_KEYS. rewrite !elem_of_cons, elem_of_nil.
  intros [->|[->|[->|[->|[]]]]]; compute_done.
Qed.

(** A map with a single key yields no record of its own. *)
Lemma walk_node_singleton lib k v : walk_node lib [(k, v)] = Ok [].
Proof.
  unfold walk_node, extract_time, extract_val.
  destruct (decide (k ∈ TIME_KEYS)) as [Hin|Hnot].
  - rewrite (first_hit_singleton_None _ VALUE_KEYS) by by apply time_key_not_value_key.
    by destruct (first_hit _ _ _).
  - by rewrite (first_hit_singleton_None _ TIME_KEYS).
Qed.

Lemma walk_wrapper lib P W : wrapper_of P W → walk lib W = walk lib P.
Proof.
  intros [|k]; rewrite !walk_traverse.
  - apply traverse_wrap_list.
  - apply traverse_wrap_map, walk_node_singleton.
Qed.

Lemma rows_no_fast_path lib v : fast_path lib v = Ok [] → rows lib v = walk lib v.
Proof. unfold rows. by intros ->. Qed.

Lemma normalize_payload_Ok lib payload raw df :
  (normalize_payload lib payload raw).2 = Ok df →
  ∃ rs, rows lib payload = Ok rs ∧ rs ≠ [] ∧
        df = Pandas.sort_values by_ts_location rs ∧
        normalize_payload lib payload raw = (raw, Ok df).
Proof.
  unfold normalize_payload. destruct (rows lib payload) as [[|r rs]|e]; simpl; try done.
  intros [= <-]. by exists (r :: rs).
Qed.

Lemma normalize_payload_rows lib P W raw df :
  rows lib W = rows lib P →
  (normalize_payload lib P raw).2 = Ok df →
  normalize_payload lib W raw = normalize_payload lib P raw.
Proof.
  intros Hrows (rs & Hrs & Hne & -> & ->)%normalize_payload_Ok.
  unfold normalize_payload. rewrite Hrows, Hrs. by destruct rs.
Qed.

Lemma extract_loc_from_default lib keys d :
  existsb (λ k, match dict_get k d with Some v => truthy v | None => false end) keys
    = false →
  extract_loc_from lib keys d = "ISONE".
Proof.
  induction keys as [|k keys IH]; [done|].
  cbn [existsb extract_loc_from]. intros [Hk Hrest]%orb_false_iff.
  destruct (dict_get k d) as [v|]; [|by apply IH].
  rewrite Hk. by apply IH.
Qed.

Lemma walk_node_plain lib d :
  has_location d = false → walk_node lib d = fast_entry lib (JDict d).
Proof.
  intros Hloc. unfold walk_node, fast_entry, extract_loc.
  by rewrite (extract_loc_from_default lib LOC_KEYS d Hloc).
Qed.

Lemma traverse_values_scalars lib d :
  forallb (λ kv, is_scalar kv.2) d = true →
  traverse_values (walk_node lib) d = Ok [].
Proof.
  induction d as [|[k v] d IH]; simpl; [done|].
  intros [Hv Hd]%andb_true_iff. rewrite (IH Hd).
  by destruct v.
Qed.

Lemma walk_plain_entry lib r :
  plain_entry r = true → walk lib r = fast_entry lib r.
Proof.
  intros Hplain. rewrite walk_traverse. destruct r as [| | | | | |d]; try done.
  simpl in Hplain. apply andb_true_iff in Hplain as [Hflat Hloc].
  apply negb_true_iff in Hloc.
  rewrite traverse_dict, traverse_values_scalars, walk_node_plain by done.
  apply res_bind_app_nil.
Qed.

(** On plain entries the fast path and the full traversal agree. *)
Lemma fast_entries_walk lib l :
  forallb plain_entry l = true → fast_entries lib l = walk lib (JList l).
Proof.
  rewrite walk_traverse, traverse_list.
  induction l as [|r l IH]; simpl; [done|].
  intros [Hr Hl]%andb_true_iff.
  by rewrite <- walk_traverse, (walk_plain_entry lib r Hr), (IH Hl).
Qed.

Lemma rows_system_shape lib l :
  forallb plain_entry l = true →
  rows lib (JDict [("FiveMinSystemLoad", JList l)]) = fast_entries lib l ∧
  walk lib (JDict [("FiveMinSystemLoad", JList l)]) = fast_entries lib l.
Proof.
  intros Hl.
  assert (Hwalk : walk lib (JDict [("FiveMinSystemLoad", JList l)]) = fast_entries lib l).
  { rewrite (walk_wrapper lib (JList l)) by constructor. by rewrite fast_entries_walk. }
  split; [|done]. unfold rows. rewrite Hwalk.
  change (fast_path lib (JDict [("FiveMinSystemLoad", JList l)])) with (fast_entries lib l).
  by destruct (fast_entries lib l) as [[|]|].
Qed.

(** A wrapper around a map never has the fast-path shape. *)
Lemma fast_path_wrapper_of_dict lib d W :
  wrapper_of (JDict d) W → fast_path lib W = Ok [].
Proof.
  intros [|k]; [done|]. unfold fast_path. cbn [dict_get].
  by destruct (String.eqb _ k).
Qed.

Lemma first_hit_ext ok keys d d' :
  (∀ k, k ∈ keys → dict_get k d = dict_get k d') →
  first_hit ok keys d = first_hit ok keys d'.
Proof.
  induction keys as [|k keys IH]; intros Hext; [done|]. simpl.
  rewrite <- (Hext k) by by left.
  rewrite IH; [done|]. intros k' Hk'. apply Hext. by right.
Qed.

Lemma loc_key_not_time_or_value_key k :
  k ∈ TIME_KEYS ∨ k ∈ VALUE_KEYS → k ∉ LOC_KEYS.
Proof.
  unfold TIME_KEYS, VALUE_KEYS. rewrite !elem_of_cons, !elem_of_nil.
  intros [[->|[->|[->|[->|[]]]]]|[->|[->|[->|[->|[]]]]]]; compute_done.
Qed.

(** What a fast-path entry yields: at most one record, located at "ISONE",
    whose [ts_local] is the parsed time field and whose [ts_utc] is derived
    from it. *)
Lemma fast_entry_Ok lib r rs x :
  fast_entry lib r = Ok rs → x ∈ rs →
  rs = [x] ∧ location x = "ISONE" ∧ is_system x = true ∧
  (∃ d tval, r = JDict d ∧ extract_time d = Some tval ∧
             to_datetime lib tval = Ok (ts_local x)) ∧
  utc_of_local (ts_local x) = Ok (ts_utc x).
Proof.
  unfold fast_entry. destruct r as [| | | | | |d]; try by intros [= <-] ?%elem_of_nil.
  destruct (extract_time d) as [tval|] eqn:Ht; [|by intros [= <-] ?%elem_of_nil].
  destruct (extract_val d) as [lval|]; [|by intros [= <-] ?%elem_of_nil].
  intros Hrs Hx. res_inv. apply list_elem_of_singleton in Hx as ->. simpl.
  repeat split; try done. by exists d, tval.
Qed.

Lemma walk_node_Ok lib d rs x :
  walk_node lib d = Ok rs → x ∈ rs →
  rs = [x] ∧
  (∃ tval, extract_time d = Some tval ∧ to_datetime lib tval = Ok (ts_local x)) ∧
  utc_of_local (ts_local x) = Ok (ts_utc x).
Proof.
  unfold walk_node.
  destruct (extract_time d) as [tval|] eqn:Ht; [|by intros [= <-] ?%elem_of_nil].
  destruct (extract_val d) as [lval|]; [|by intros [= <-] ?%elem_of_nil].
  intros Hrs Hx. res_inv. apply list_elem_of_singleton in Hx as ->. simpl.
  repeat split; try done. by exists tval.
Qed.

Lemma fast_entries_Forall lib (Q : Row → Prop) l rs :
  (∀ r rs, fast_entry lib r = Ok rs → Forall Q rs) →
  fast_entries lib l = Ok rs → Forall Q rs.
Proof.
  intros Hentry. revert rs. induction l as [|r l IH]; simpl; intros rs Hrs.
  - by res_inv.
  - res_inv. apply Forall_app. split; [by eapply Hentry|by apply IH].
Qed.

Lemma fast_path_Forall lib (Q : Row → Prop) payload rs :
  (∀ r rs, fast_entry lib r = Ok rs → Forall Q rs) →
  fast_path lib payload = Ok rs → Forall Q rs.
Proof.
  intros Hentry. unfold fast_path.
  destruct payload as [| | | | | |d]; try by intros [= <-].
  destruct (dict_get _ d) as [[| | | | |l|]|]; try by intros [= <-].
  by apply fast_entries_Forall.
Qed.

Lemma rows_Forall lib (Q : Row → Prop) payload rs :
  (∀ r rs, fast_entry lib r = Ok rs → Forall Q rs) →
  (∀ d rs, walk_node lib d = Ok rs → Forall Q rs) →
  rows lib payload = Ok rs → Forall Q rs.
Proof.
  intros Hfast Hnode. unfold rows. intros Hrs. res_inv.
  destruct a as [|r a].
  - rewrite walk_traverse in Hrs. by eapply traverse_Forall.
  - res_inv. by eapply fast_path_Forall.
Qed.

Lemma normalize_payload_Forall lib (Q : Row → Prop) payload raw df :
  (∀ r rs, fast_entry lib r = Ok rs → Forall Q rs) →
  (∀ d rs, walk_node lib d = Ok rs → Forall Q rs) →
  (normalize_payload lib payload raw).2 = Ok df → Forall Q df.
Proof.
  intros Hfast Hnode (rs & Hrs & _ & -> & _)%normalize_payload_Ok.
  rewrite PandasFacts.sort_values_perm. by eapply rows_Forall.
Qed.

End SystemFacts.

(** ** Zonal normalizer *)

Module ZonalFacts.
Import Zonal.

Lemma zonal_walk_traverse lib v : walk lib v = traverse (walk_node lib) v.
Proof.
  induction v as [| | | | |l IH|d IH] using Json_nested_ind; try done.
  - simpl. induction IH as [|x l Hx _ IHl]; [done|]. by rewrite Hx, IHl.
  - simpl. f_equal. induction IH as [|[k x] l Hx _ IHl]; [done|].
    simpl in Hx. by rewrite Hx, IHl.
Qed.

Lemma zonal_time_key_not_value_key k : k ∈ TIME_KEYS → k ∉ VALUE_KEYS.
Proof.
  unfold TIME_KEYS, HARD_TIME. simpl. rewrite !elem_of_cons, elem_of_nil.
  intros [->|[->|[->|[->|[->|[->|[]]]]]]]; compute_done.
Qed.

(** A map with a single key yields no record of its own. *)
Lemma zonal_walk_node_singleton lib k v : walk_node lib [(k, v)] = Ok [].
Proof.
  unfold walk_node, first_key.
  destruct (decide (k ∈ TIME_KEYS)) as [Hin|Hnot].
  - rewrite (first_hit_singleton_None _ VALUE_KEYS) by by apply zonal_time_key_not_value_key.
    by destruct (first_hit _ TIME_KEYS _).
  - by rewrite (first_hit_singleton_None _ TIME_KEYS).
Qed.

Lemma zonal_walk_wrapper lib P W : wrapper_of P W → walk lib W = walk lib P.
Proof.
  intros [|k]; rewrite !zonal_walk_traverse.
  - apply traverse_wrap_list.
  - apply traverse_wrap_map, zonal_walk_node_singleton.
Qed.

Lemma zonal_normalize_payload_Ok lib payload raw df :
  (normalize_payload lib payload raw).2 = Ok df →
  ∃ rs, walk lib payload = Ok rs ∧ rs ≠ [] ∧
        df = Pandas.sort_values by_ts_zone (fillna_zone_name <$> rs) ∧
        normalize_payload lib payload raw = (raw, Ok df).
Proof.
  unfold normalize_payload. destruct (walk lib payload) as [[|r rs]|e]; simpl; try done.
  intros [= <-]. by exists (r :: rs).
Qed.

(** What a dict node yields: at most one record, built from the first
    non-blank time, value, zone-id and zone-name fields. *)
Lemma zonal_walk_node_Ok lib d rs x :
  walk_node lib d = Ok rs → x ∈ rs →
  rs = [x] ∧
  (first_key d ZONEID_KEYS ≠ None ∨ first_key d ZONENM_KEYS ≠ None) ∧
  (∃ t, first_key d TIME_KEYS = Some t ∧ to_datetime lib t = Ok (ts_local x)) ∧
  utc_of_local (ts_local x) = Ok (ts_utc x) ∧
  (∃ zid_s,
     zone_id_str (first_key d ZONEID_KEYS) = Ok zid_s ∧
     zone_id x = backfill_id zid_s (clean_zone_name lib (first_key d ZONENM_KEYS)) ∧
     zone_name x = backfill_name (zone_id x)
                     (clean_zone_name lib (first_key d ZONENM_KEYS))).
Proof.
  unfold walk_node.
  destruct (first_key d TIME_KEYS) as [t|] eqn:Ht; [|by intros [= <-] ?%elem_of_nil].
  destruct (first_key d VALUE_KEYS) as [val|]; [|by intros [= <-] ?%elem_of_nil].
  destruct (bool_decide _ || bool_decide _) eqn:Hz; [|by intros [= <-] ?%elem_of_nil].
  intros Hrs Hx. res_inv. apply list_elem_of_singleton in Hx as ->. simpl.
  apply orb_true_iff in Hz as [Hz%bool_decide_eq_true|Hz%bool_decide_eq_true];
    (repeat split; [tauto|by exists t|done|by eexists]).
Qed.

Lemma zonal_normalize_payload_Forall lib (Q : Row → Prop) payload raw df :
  (∀ d rs, walk_node lib d = Ok rs → Forall (λ r, Q (fillna_zone_name r)) rs) →
  (normalize_payload lib payload raw).2 = Ok df → Forall Q df.
Proof.
  intros Hnode (rs & Hrs & _ & -> & _)%zonal_normalize_payload_Ok.
  rewrite PandasFacts.sort_values_perm, Forall_fmap.
  rewrite zonal_walk_traverse in Hrs. by eapply traverse_Forall.
Qed.

End ZonalFacts.

(** ** The claims about the normalizers *)

Module Normalizers.

(** C5. The zonal invariant "zone_id and zone_name are never both null" does
    not hold of the code: a node whose id field holds a non-numeric label and
    that has no name field passes the gate [zid is not None or znm is not
    None], the label is then discarded, no lookup applies, and the output
    holds a record with both fields null. *)
Theorem zonal_record_with_no_zone_identity :
  Zonal.normalize_payload Sample.lib (JDict Examples.zonal_text_id) ∅ =
  (∅, Ok [ {| Zonal.ts_utc := Examples.utc_0005;
              Zonal.ts_local := Examples.local_0005;
              Zonal.zone_id := None; Zonal.zone_name := None;
              Zonal.load_mw := Some (Examples.mw 3000) |} ]).
Proof. by vm_compute. Qed.

(** C6. Zero-extraction failure: when the traversal ends with no record,
    [normalize_payload] writes the payload to its debug file and raises
    [ValueError]; a frame it returns is never empty.  This holds for the
    system and for the zonal normalizer. *)
Theorem zero_records_raise :
  (∀ lib payload raw,
     System.rows lib payload = Ok [] →
     System.normalize_payload lib payload raw =
       (<[System.debug_path := payload]> raw, Raise ValueError)) ∧
  (∀ lib payload raw,
     Zonal.walk lib payload = Ok [] →
     Zonal.normalize_payload lib payload raw =
       (<[Zonal.debug_path := payload]> raw, Raise ValueError)) ∧
  (∀ lib payload raw df,
     (System.normalize_payload lib payload raw).2 = Ok df → df ≠ []) ∧
  (∀ lib payload raw df,
     (Zonal.normalize_payload lib payload raw).2 = Ok df → df ≠ []).
Proof.
  repeat apply conj.
  - intros lib payload raw Hrows. unfold System.normalize_payload. by rewrite Hrows.
  - intros lib payload raw Hrows. unfold Zonal.normalize_payload. by rewrite Hrows.
  - intros lib payload raw df (rs & _ & Hne & -> & _)%SystemFacts.normalize_payload_Ok.
    intros Hnil. apply Hne, Permutation_nil_r. rewrite <- Hnil.
    symmetry. apply PandasFacts.sort_values_perm.
  - intros lib payload raw df (rs & _ & Hne & -> & _)%ZonalFacts.zonal_normalize_payload_Ok.
    intros Hnil. apply Hne, fmap_nil_inv with (f := Zonal.fillna_zone_name).
    apply Permutation_nil_r. rewrite <- Hnil.
    symmetry. apply PandasFacts.sort_values_perm.
Qed.

Lemma zero_records_raise_witness :
  System.normalize_payload Sample.lib Examples.no_records ∅ =
    (<[System.debug_path := Examples.no_records]> ∅, Raise ValueError) ∧
  Zonal.normalize_payload Sample.lib Examples.no_records ∅ =
    (<[Zonal.debug_path := Examples.no_records]> ∅, Raise ValueError).
Proof.
  split.
  - apply (proj1 zero_records_raise). by vm_compute.
  - apply (proj1 (proj2 zero_records_raise)). by vm_compute.
Defined.

(** C7. Static zone lookup backfill, for a node of ASCII text that carries a
    time and a value.  When the node carries a zone id (a number, or a string
    of digits) and no zone name, it yields one record, whose zone_id is that
    id and whose zone_name is the entry of the fixed id-to-name table for the
    id ("4004" gives "CT").  When it carries a zone name and no usable id, it
    yields one record, whose zone_name is the cleaned name and whose zone_id
    is the entry of the reverse table for the upper-cased name ("SEMA" gives
    "4006").  The record is there whenever [pd.to_datetime] and [float]
    return. *)
Theorem zone_lookup_backfill :
  (∀ lib d t val ts_local load_f i,
     ascii_payload (JDict d) = true →
     Zonal.first_key d Zonal.TIME_KEYS = Some t →
     Zonal.first_key d Zonal.VALUE_KEYS = Some val →
     to_datetime lib t = Ok ts_local →
     py_float lib val = Ok load_f →
     Zonal.zone_id_str (Zonal.first_key d Zonal.ZONEID_KEYS) = Ok (Some i) →
     Zonal.first_key d Zonal.ZONENM_KEYS = None →
     ∃ r, Zonal.walk_node lib d = Ok [r] ∧
          Zonal.zone_id r = Some i ∧
          Zonal.zone_name r = Zonal.table_get i Zonal.ZONE_NAME_BY_ID) ∧
  (∀ lib d t val ts_local load_f n,
     ascii_payload (JDict d) = true →
     Zonal.first_key d Zonal.TIME_KEYS = Some t →
     Zonal.first_key d Zonal.VALUE_KEYS = Some val →
     to_datetime lib t = Ok ts_local →
     py_float lib val = Ok load_f →
     Zonal.zone_id_str (Zonal.first_key d Zonal.ZONEID_KEYS) = Ok None →
     Zonal.clean_zone_name lib (Zonal.first_key d Zonal.ZONENM_KEYS) = Some n →
     ∃ r, Zonal.walk_node lib d = Ok [r] ∧
          Zonal.zone_name r = Some n ∧
          Zonal.zone_id r = Zonal.table_get (upper n) Zonal.REV_BY_NAME) ∧
  Zonal.table_get "4004" Zonal.ZONE_NAME_BY_ID = Some "CT" ∧
  Zonal.table_get (upper "SEMA") Zonal.REV_BY_NAME = Some "4006".
Proof.
  assert (Hutc : ∀ ts_local, ∃ ts_utc, utc_of_local ts_local = Ok ts_utc).
  { intros [|w [off|]]; by eexists. }
  repeat apply conj; [| |done|done].
  - intros lib d t val ts_local load_f i _ Ht Hval Hts Hload Hid Hnm.
    destruct (Hutc ts_local) as [ts_utc Hu].
    unfold Zonal.walk_node. rewrite Ht, Hval, Hnm, Hid.
    rewrite (bool_decide_true (Zonal.first_key d Zonal.ZONEID_KEYS ≠ None))
      by (intros Hnone; by rewrite Hnone in Hid).
    cbn -[Zonal.table_get]. rewrite Hts. cbn -[Zonal.table_get].
    rewrite Hu. cbn -[Zonal.table_get]. rewrite Hload. cbn -[Zonal.table_get].
    eexists. split; [done|]. cbn -[Zonal.table_get]. split; [done|].
    by destruct (Zonal.table_get i Zonal.ZONE_NAME_BY_ID).
  - intros lib d t val ts_local load_f n _ Ht Hval Hts Hload Hid Hnm.
    destruct (Hutc ts_local) as [ts_utc Hu].
    unfold Zonal.walk_node. rewrite Ht, Hval, Hnm, Hid.
    rewrite (bool_decide_true (Zonal.first_key d Zonal.ZONENM_KEYS ≠ None))
      by (intros Hnone; by rewrite Hnone in Hnm).
    rewrite orb_true_r.
    cbn -[Zonal.table_get upper]. rewrite Hts. cbn -[Zonal.table_get upper].
    rewrite Hu. cbn -[Zonal.table_get upper]. rewrite Hload.
    cbn -[Zonal.table_get upper].
    eexists. split; [done|]. cbn -[Zonal.table_get upper]. split; [|done].
    by destruct (Zonal.table_get (upper n) Zonal.REV_BY_NAME).
Qed.

Lemma zone_lookup_backfill_witness :
  (∃ r, Zonal.walk_node Sample.lib Examples.zonal_id_only = Ok [r] ∧
        Zonal.zone_id r = Some "4004" ∧
        Zonal.zone_name r = Zonal.table_get "4004" Zonal.ZONE_NAME_BY_ID) ∧
  (∃ r, Zonal.walk_node Sample.lib Examples.zonal_name_only = Ok [r] ∧
        Zonal.zone_name r = Some "SEMA" ∧
        Zonal.zone_id r = Zonal.table_get (upper "SEMA") Zonal.REV_BY_NAME).
Proof.
  split.
  - apply (proj1 zone_lookup_backfill Sample.lib Examples.zonal_id_only
             (JStr "2024-01-01T00:05:00") (JFloat (Examples.mw 3000))
             Examples.local_0005 (Some (Examples.mw 3000)) "4004");
      by vm_compute.
  - apply (proj1 (proj2 zone_lookup_backfill) Sample.lib Examples.zonal_name_only
             (JStr "2024-01-01T00:05:00") (JFloat (Examples.mw 1500))
             Examples.local_0005 (Some (Examples.mw 1500)) "SEMA");
      by vm_compute.
Defined.

(** C8, as the specification states it, fails for the system normalizer: the
    payload [{"FiveMinSystemLoad": [{..., "Location": "CT"}]}] normalizes to a
    record located at "ISONE" on the fast path, and the same payload wrapped
    in a list normalizes, by the full traversal, to a record located at
    "CT". *)
Lemma wrapped_system_payload_differs :
  (System.normalize_payload Sample.lib Examples.system_payload_located ∅).2 =
    Ok [ Examples.sys_0005 15000 ] ∧
  (System.normalize_payload Sample.lib (JList [Examples.system_payload_located]) ∅).2 =
    Ok [ {| System.ts_utc := Examples.utc_0005; System.ts_local := Examples.local_0005;
            System.location := "CT"; System.load_mw := Some (Examples.mw 15000);
            System.is_system := false |} ].
Proof. split; by vm_compute. Qed.

(** C8 (amended). Shape robustness: for every payload [P] that normalizes
    successfully, wrapping [P] in a one-element list or a single-key map
    yields the same canonical records
      - for the zonal normalizer, always;
      - for the system normalizer, when the fast path yields no row for [P]
        and none for the wrapped payload.
    On list entries that are scalars or flat maps without a location field
    the system fast path and the full traversal produce the same records, and
    the payload [{"FiveMinSystemLoad": entries}] and its wrappings then
    normalize alike. *)
Theorem shape_robustness :
  (∀ lib P W raw df,
     wrapper_of P W →
     (Zonal.normalize_payload lib P raw).2 = Ok df →
     Zonal.normalize_payload lib W raw = Zonal.normalize_payload lib P raw) ∧
  (∀ lib P W raw df,
     wrapper_of P W →
     System.fast_path lib P = Ok [] → System.fast_path lib W = Ok [] →
     (System.normalize_payload lib P raw).2 = Ok df →
     System.normalize_payload lib W raw = System.normalize_payload lib P raw) ∧
  (∀ lib entries,
     forallb plain_entry entries = true →
     System.fast_entries lib entries = System.walk lib (JList entries)) ∧
  (∀ lib entries W raw df,
     forallb plain_entry entries = true →
     wrapper_of (JDict [("FiveMinSystemLoad", JList entries)]) W →
     (System.normalize_payload lib (JDict [("FiveMinSystemLoad", JList entries)]) raw).2
       = Ok df →
     System.normalize_payload lib W raw =
     System.normalize_payload lib (JDict [("FiveMinSystemLoad", JList entries)]) raw).
Proof.
  repeat apply conj.
  - intros lib P W raw df Hwrap (rs & Hrs & Hne & -> & ->)%ZonalFacts.zonal_normalize_payload_Ok.
    unfold Zonal.normalize_payload.
    rewrite (ZonalFacts.zonal_walk_wrapper lib P W Hwrap), Hrs. by destruct rs.
  - intros lib P W raw df Hwrap HP HW. apply SystemFacts.normalize_payload_rows.
    rewrite !SystemFacts.rows_no_fast_path by done.
    by apply SystemFacts.walk_wrapper.
  - apply SystemFacts.fast_entries_walk.
  - intros lib entries W raw df Hplain Hwrap.
    apply SystemFacts.normalize_payload_rows.
    destruct (SystemFacts.rows_system_shape lib entries Hplain) as [-> <-].
    rewrite SystemFacts.rows_no_fast_path
      by by eapply SystemFacts.fast_path_wrapper_of_dict.
    by apply SystemFacts.walk_wrapper.
Qed.

Lemma shape_robustness_witness :
  Zonal.normalize_payload Sample.lib (JDict [("data", JDict Examples.zonal_id_only)]) ∅ =
    Zonal.normalize_payload Sample.lib (JDict Examples.zonal_id_only) ∅ ∧
  System.normalize_payload Sample.lib (JList [JList [JDict Examples.system_entry_aware]]) ∅ =
    System.normalize_payload Sample.lib (JList [JDict Examples.system_entry_aware]) ∅ ∧
  System.normalize_payload Sample.lib (JList [Examples.system_payload]) ∅ =
    System.normalize_payload Sample.lib Examples.system_payload ∅.
Proof.
  repeat apply conj.
  - apply (proj1 shape_robustness Sample.lib (JDict Examples.zonal_id_only) _ ∅
             [Examples.zone_0005 "4004" "CT" 3000]); [constructor|by vm_compute].
  - apply (proj1 (proj2 shape_robustness) Sample.lib
             (JList [JDict Examples.system_entry_aware]) _ ∅ [Examples.sys_aware]);
      [constructor|done|done|by vm_compute].
  - apply (proj2 (proj2 (proj2 shape_robustness)) Sample.lib _ _ ∅
             [Examples.sys_0005 15000]); [done|constructor|by vm_compute].
Defined.

(** C9. UTC derivation: the derivation never fails; every record's [ts_local]
    is the parsed time field of its node, and its [ts_utc] is that instant
    converted to UTC when [ts_local] carries an offset, and the same
    wall-clock reading labelled UTC when it is naive ([NaT] stays [NaT]).
    This holds on the system fast path, in both traversals, and of every
    record either normalizer returns. *)
Theorem utc_derivation :
  (∀ t, ∃ u, utc_of_local t = Ok u ∧ utc_rule t u) ∧
  (∀ lib r rs x,
     System.fast_entry lib r = Ok rs → x ∈ rs →
     (∃ d tval, r = JDict d ∧ System.extract_time d = Some tval ∧
                to_datetime lib tval = Ok (System.ts_local x)) ∧
     utc_rule (System.ts_local x) (System.ts_utc x)) ∧
  (∀ lib d rs x,
     System.walk_node lib d = Ok rs → x ∈ rs →
     (∃ tval, System.extract_time d = Some tval ∧
              to_datetime lib tval = Ok (System.ts_local x)) ∧
     utc_rule (System.ts_local x) (System.ts_utc x)) ∧
  (∀ lib d rs x,
     Zonal.walk_node lib d = Ok rs → x ∈ rs →
     (∃ t, Zonal.first_key d Zonal.TIME_KEYS = Some t ∧
           to_datetime lib t = Ok (Zonal.ts_local x)) ∧
     utc_rule (Zonal.ts_local x) (Zonal.ts_utc x)) ∧
  (∀ lib payload raw df x,
     (System.normalize_payload lib payload raw).2 = Ok df → x ∈ df →
     utc_rule (System.ts_local x) (System.ts_utc x)) ∧
  (∀ lib payload raw df x,
     (Zonal.normalize_payload lib payload raw).2 = Ok df → x ∈ df →
     utc_rule (Zonal.ts_local x) (Zonal.ts_utc x)).
Proof.
  repeat apply conj.
  - apply utc_of_local_rule.
  - intros lib r rs x Hrs Hx.
    destruct (SystemFacts.fast_entry_Ok lib r rs x Hrs Hx) as (_ & _ & _ & Hparse & Hutc).
    split; [done|]. by apply utc_of_local_Ok.
  - intros lib d rs x Hrs Hx.
    destruct (SystemFacts.walk_node_Ok lib d rs x Hrs Hx) as (_ & Hparse & Hutc).
    split; [done|]. by apply utc_of_local_Ok.
  - intros lib d rs x Hrs Hx.
    destruct (ZonalFacts.zonal_walk_node_Ok lib d rs x Hrs Hx) as (_ & _ & Hparse & Hutc & _).
    split; [done|]. by apply utc_of_local_Ok.
  - intros lib payload raw df x Hdf.
    revert x. apply Forall_forall.
    eapply SystemFacts.normalize_payload_Forall; [| |exact Hdf].
    + intros r rs Hrs. apply Forall_forall. intros x Hx.
      apply utc_of_local_Ok. by eapply SystemFacts.fast_entry_Ok.
    + intros d rs Hrs. apply Forall_forall. intros x Hx.
      apply utc_of_local_Ok. by eapply SystemFacts.walk_node_Ok.
  - intros lib payload raw df x Hdf.
    revert x. apply Forall_forall.
    eapply ZonalFacts.zonal_normalize_payload_Forall; [|exact Hdf].
    intros d rs Hrs. apply Forall_forall. intros x Hx. simpl.
    apply utc_of_local_Ok. by eapply ZonalFacts.zonal_walk_node_Ok.
Qed.

Lemma utc_derivation_witness :
  utc_rule (System.ts_local Examples.sys_aware) (System.ts_utc Examples.sys_aware) ∧
  utc_rule Examples.local_0005 Examples.utc_0005.
Proof.
  split.
  - apply (proj1 (proj2 (proj2 (proj2 (proj2 utc_derivation)))) Sample.lib
             (JList [JDict Examples.system_entry_aware]) ∅ [Examples.sys_aware]);
      [by vm_compute|by left].
  - apply (proj2 (proj2 (proj2 (proj2 (proj2 utc_derivation)))) Sample.lib
             (JDict Examples.zonal_id_only) ∅ [Examples.zone_0005 "4004" "CT" 3000]
             (Examples.zone_0005 "4004" "CT" 3000));
      [by vm_compute|by left].
Defined.

(** C10. On the fast path the location is fixed: when the system payload is a
    map whose key "FiveMinSystemLoad" holds a list, every record the fast
    path produces has location "ISONE" and is_system true; when it produces
    any, they are the records returned; and two entries that agree on every
    key outside [LOC_KEYS] produce the same records, whatever their
    Location, Loc, Zone or LocName fields hold. *)
Theorem fast_path_location_fixed :
  (∀ lib d entries rs,
     dict_get "FiveMinSystemLoad" d = Some (JList entries) →
     System.fast_path lib (JDict d) = Ok rs →
     (∀ r, r ∈ rs → System.location r = "ISONE" ∧ System.is_system r = true) ∧
     (rs ≠ [] →
      ∀ raw, System.normalize_payload lib (JDict d) raw =
             (raw, Ok (Pandas.sort_values System.by_ts_location rs)))) ∧
  (∀ lib e e',
     (∀ k, k ∉ System.LOC_KEYS → dict_get k e = dict_get k e') →
     System.fast_entry lib (JDict e) = System.fast_entry lib (JDict e')).
Proof.
  split.
  - intros lib d entries rs Hget Hrs. split.
    + apply Forall_forall. eapply SystemFacts.fast_path_Forall; [|exact Hrs].
      intros r rs' Hrs'. apply Forall_forall. intros x Hx.
      by destruct (SystemFacts.fast_entry_Ok lib r rs' x Hrs' Hx) as (_ & ? & ? & _).
    + intros Hne raw. unfold System.normalize_payload, System.rows.
      rewrite Hrs. simpl. by destruct rs.
  - intros lib e e' Hext. unfold System.fast_entry, System.extract_time, System.extract_val.
    rewrite (SystemFacts.first_hit_ext truthy System.TIME_KEYS e e'),
            (SystemFacts.first_hit_ext not_blank System.VALUE_KEYS e e'); [done| |];
      intros k Hk; apply Hext; apply SystemFacts.loc_key_not_time_or_value_key; tauto.
Qed.

Lemma fast_path_location_fixed_witness :
  (∀ r, r ∈ [Examples.sys_0005 15000] →
        System.location r = "ISONE" ∧ System.is_system r = true) ∧
  ([Examples.sys_0005 15000] ≠ [] →
   ∀ raw, System.normalize_payload Sample.lib Examples.system_payload_located raw =
          (raw, Ok (Pandas.sort_values System.by_ts_location [Examples.sys_0005 15000]))).
Proof.
  apply (proj1 fast_path_location_fixed Sample.lib _
           [JDict [("BeginDate", JStr "2024-01-01T00:05:00");
                   ("LoadMw", JFloat (Examples.mw 15000));
                   ("Location", JStr "CT")]]); by vm_compute.
Defined.

End Normalizers.

(** * Further properties of the code *)

(** ** History store: what an append keeps, adds and reports *)

Module HistoryExtras.
Import Pandas PandasFacts History HistoryFacts.

Section store.
Context {Row Key : Type} `{EqDecision Key}.
Context {ts_utc : Row → Datetime}.
Variable lib : Lib ts_utc.
Variable key : Row → Key.
Implicit Types (df : list Row) (fs : gmap Date (list Row)) (path d : Date).

Local Abbreviation appended := (appended lib key).
Local Abbreviation fresh_rows := (Runs.fresh_rows key).

Lemma appended_split df_old df_new :
  NoDup (key <$> read_csv lib df_old) →
  appended df_old df_new ≡ₚ read_csv lib df_old ++ fresh_rows (read_csv lib df_old) df_new.
Proof.
  intros Hnd.
  by rewrite appended_perm, drop_duplicates_app, drop_duplicates_id.
Qed.

Lemma length_drop_duplicates df :
  (length (drop_duplicates key df) ≤ length df)%nat.
Proof.
  induction df as [|x df IH]; simpl; [done|].
  pose proof (length_filter (λ r', key r' ≠ key x) (drop_duplicates key df)). lia.
Qed.

Lemma added_unfold df_new path fs :
  (_append_idempotent lib df_new path key fs).2 =
  Z.of_nat (length (appended (stored fs path) df_new))
  - Z.of_nat (length (stored fs path)).
Proof. by rewrite append_unfold. Qed.

Lemma append_all_cons df_new batches path fs :
  append_all lib (df_new :: batches) path key fs =
  append_all lib batches path key (_append_idempotent lib df_new path key fs).1.
Proof. done. Qed.

Lemma append_counts_cons df_new batches path fs :
  Runs.append_counts lib (df_new :: batches) path key fs =
  (_append_idempotent lib df_new path key fs).2
  :: Runs.append_counts lib batches path key (_append_idempotent lib df_new path key fs).1.
Proof.
  change (Runs.append_counts lib (df_new :: batches) path key fs) with
    (let '(fs', added) := _append_idempotent lib df_new path key fs in
     added :: Runs.append_counts lib batches path key fs').
  by destruct (_append_idempotent lib df_new path key fs).
Qed.

Lemma append_counts_sum batches path fs :
  foldr Z.add 0 (Runs.append_counts lib batches path key fs) =
  Z.of_nat (length (stored (append_all lib batches path key fs) path))
  - Z.of_nat (length (stored fs path)).
Proof.
  revert fs. induction batches as [|b batches IH]; intros fs.
  - unfold append_all. simpl. lia.
  - rewrite append_counts_cons, append_all_cons. cbn [foldr].
    rewrite IH, added_unfold, stored_append. lia.
Qed.

Lemma elem_of_utc_dates df r :
  r ∈ df → utc_date (ts_utc r) ∈ _utc_dates_in_df ts_utc df.
Proof.
  intros Hr. unfold _utc_dates_in_df. rewrite elem_of_remove_dups.
  by apply (list_elem_of_fmap_2 (λ r, utc_date (ts_utc r))).
Qed.

Lemma write_history_filed df fs :
  Runs.filed_by_date ts_utc fs →
  Runs.filed_by_date ts_utc (write_history lib df key fs).1.
Proof.
  intros Hfs d r. unfold stored at 1.
  destruct (write_history_lookup lib key df fs d) as [-> _].
  destruct (decide _) as [Hd|Hd]; [|apply Hfs].
  simpl. intros [Hr|Hr]%appended_elem.
  - apply read_csv_elem in Hr as (r' & Hr' & <-). by apply Hfs.
  - by apply df_day_elem in Hr as [_ ?].
Qed.

(** The timestamps of a file after an append, when the key of a row holds
    its [ts_utc]. *)
Lemma appended_ts_utc df_old df_new t :
  (∀ a b, key a = key b → ts_utc a = ts_utc b) →
  t ∈ ts_utc <$> appended df_old df_new ↔
  t ∈ ts_utc <$> df_old ∨ t ∈ ts_utc <$> df_new.
Proof.
  intros Hkey. split.
  - intros (r & -> & [Hr|Hr]%appended_elem)%list_elem_of_fmap.
    + left. apply read_csv_elem in Hr as (r' & Hr' & <-). by apply list_elem_of_fmap_2.
    + right. by apply list_elem_of_fmap_2.
  - intros [(r & -> & Hr)%list_elem_of_fmap|(r & -> & Hr)%list_elem_of_fmap].
    + apply (read_csv_covers lib) in Hr as (r' & Hr' & <-).
      apply (appended_covers_read lib key _ df_new) in Hr'.
      apply list_elem_of_fmap in Hr' as (r'' & Heq & Hr'').
      rewrite (Hkey _ _ Heq). by apply list_elem_of_fmap_2.
    + apply (appended_covers lib key df_old) in Hr.
      apply list_elem_of_fmap in Hr as (r'' & Heq & Hr'').
      rewrite (Hkey _ _ Heq). by apply list_elem_of_fmap_2.
Qed.

Lemma write_history_ts_utc df fs d t :
  (∀ a b, key a = key b → ts_utc a = ts_utc b) →
  t ∈ ts_utc <$> stored (write_history lib df key fs).1 d ↔
  t ∈ ts_utc <$> stored fs d ∨
  (d ∈ _utc_dates_in_df ts_utc df ∧ t ∈ ts_utc <$> df_day lib d df).
Proof.
  intros Hkey. unfold stored at 1.
  destruct (write_history_lookup lib key df fs d) as [-> _].
  destruct (decide _) as [Hd|Hd]; simpl.
  - rewrite appended_ts_utc by done. tauto.
  - fold (stored fs d). tauto.
Qed.

(** Writing a batch a second time brings no new timestamp. *)
Lemma write_history_again_ts_utc df fs d t :
  (∀ a b, key a = key b → ts_utc a = ts_utc b) →
  let fs1 := (write_history lib df key fs).1 in
  t ∈ ts_utc <$> stored (write_history lib df key fs1).1 d ↔ t ∈ ts_utc <$> stored fs1 d.
Proof.
  intros Hkey fs1. rewrite write_history_ts_utc by done. split; [|tauto].
  intros [?|Hnew]; [done|]. unfold fs1. rewrite write_history_ts_utc by done. by right.
Qed.
End store.

(** X1. An append keeps the rows it reads: when the rows read back from the
    file hold one row per key, every one of them is in the file after
    [_append_idempotent], whatever the batch. *)
Theorem append_keeps_stored_rows {Row Key : Type} `{EqDecision Key}
    {ts_utc : Row → Datetime} (lib : Lib ts_utc) (key_cols : Row → Key)
    df_new path fs r :
  NoDup (key_cols <$> read_csv lib (stored fs path)) →
  r ∈ read_csv lib (stored fs path) →
  r ∈ stored (_append_idempotent lib df_new path key_cols fs).1 path.
Proof.
  intros Hnd Hr. rewrite stored_append, appended_split by done.
  apply elem_of_app. by left.
Qed.

Lemma append_keeps_stored_rows_witness :
  Rows.zone_0005_read 4004 "CT" 3000 ∈
    stored (_append_idempotent (SampleHistory.zonal_lib false)
              [Rows.zone_0005 "4004" "CT" 3050; Rows.zone_0010 "4004" "CT" 3100]
              Examples.jan1 zonal_key
              {[ Examples.jan1 := [Rows.zone_0005 "4004" "CT" 3000] ]}).1 Examples.jan1.
Proof. apply append_keeps_stored_rows; compute_done. Defined.

(** X2. The count [_append_idempotent] returns: when the rows read back from
    the file hold one row per key, it is the number of distinct keys of the
    batch that are not among the keys read back, so it lies between 0 and
    the size of the batch. *)
Theorem rows_added_count {Row Key : Type} `{EqDecision Key}
    {ts_utc : Row → Datetime} (lib : Lib ts_utc) (key_cols : Row → Key)
    df_new path fs :
  NoDup (key_cols <$> read_csv lib (stored fs path)) →
  (_append_idempotent lib df_new path key_cols fs).2 =
    Z.of_nat (length (filter (λ r, key_cols r ∉ key_cols <$> read_csv lib (stored fs path))
                             (Pandas.drop_duplicates key_cols df_new))) ∧
  0 ≤ (_append_idempotent lib df_new path key_cols fs).2 ≤ Z.of_nat (length df_new).
Proof.
  intros Hnd. rewrite added_unfold, appended_split, length_app by done.
  unfold Runs.fresh_rows.
  pose proof (length_filter (λ r, key_cols r ∉ key_cols <$> read_csv lib (stored fs path))
                (Pandas.drop_duplicates key_cols df_new)).
  pose proof (length_drop_duplicates key_cols df_new).
  pose proof (read_csv_length lib (stored fs path)). lia.
Qed.

Lemma rows_added_count_witness :
  (_append_idempotent (SampleHistory.zonal_lib false)
     [Rows.zone_0005 "4004" "CT" 3050; Rows.zone_0010 "4004" "CT" 3100;
      Rows.zone_0010 "4004" "CT" 3200]
     Examples.jan1 zonal_key
     {[ Examples.jan1 := [Rows.zone_0005 "4004" "CT" 3000] ]}).2 = 2.
Proof.
  etrans; [apply rows_added_count; compute_done|]. by vm_compute.
Defined.

(** X3. A batch that brings no new key is absorbed: when the rows read back
    from the file hold one row per key and every key of the batch is among
    their keys, the append stores the rows read back and no other (in
    ascending [ts_utc] order, rows of one timestamp in any order) and
    returns 0. *)
Theorem known_keys_are_absorbed {Row Key : Type} `{EqDecision Key}
    {ts_utc : Row → Datetime} (lib : Lib ts_utc) (key_cols : Row → Key)
    df_new path fs :
  NoDup (key_cols <$> read_csv lib (stored fs path)) →
  (∀ r, r ∈ df_new → key_cols r ∈ key_cols <$> read_csv lib (stored fs path)) →
  stored (_append_idempotent lib df_new path key_cols fs).1 path
    ≡ₚ read_csv lib (stored fs path) ∧
  sorted_by_ts_utc ts_utc (stored (_append_idempotent lib df_new path key_cols fs).1 path) ∧
  (_append_idempotent lib df_new path key_cols fs).2 = 0.
Proof.
  intros Hnd Hknown.
  assert (Hperm : History.appended lib key_cols (stored fs path) df_new
                  ≡ₚ read_csv lib (stored fs path)).
  { rewrite appended_perm. by rewrite drop_duplicates_absorb. }
  rewrite added_unfold, stored_append. split_and!.
  - done.
  - apply appended_sorted.
  - rewrite Hperm, read_csv_length. lia.
Qed.

Lemma known_keys_are_absorbed_witness :
  let lib := SampleHistory.system_lib false in
  let fs : gmap Date (list SystemFile.Row) :=
    {[ Examples.jan1 := [Rows.sys_0005 15000; Rows.sys_0010 15100] ]} in
  let after := _append_idempotent lib [Rows.sys_0010 15200] Examples.jan1 system_key fs in
  stored after.1 Examples.jan1 ≡ₚ read_csv lib (stored fs Examples.jan1) ∧
  sorted_by_ts_utc SystemFile.ts_utc (stored after.1 Examples.jan1) ∧
  after.2 = 0.
Proof.
  intros lib fs. apply known_keys_are_absorbed.
  - compute_done.
  - intros r ->%list_elem_of_singleton. compute_done.
Defined.

(** X4. Merging into an existing file: when the keys of the rows read back
    from the file and of the batch are pairwise distinct, the file afterwards
    holds exactly the rows read back and the rows of the batch, in ascending
    [ts_utc] order, and the count returned is the size of the batch. *)
Theorem new_keys_are_all_stored {Row Key : Type} `{EqDecision Key}
    {ts_utc : Row → Datetime} (lib : Lib ts_utc) (key_cols : Row → Key)
    df_new path fs :
  NoDup (key_cols <$> (read_csv lib (stored fs path) ++ df_new)) →
  stored (_append_idempotent lib df_new path key_cols fs).1 path
    ≡ₚ read_csv lib (stored fs path) ++ df_new ∧
  sorted_by_ts_utc ts_utc (stored (_append_idempotent lib df_new path key_cols fs).1 path) ∧
  (_append_idempotent lib df_new path key_cols fs).2 = Z.of_nat (length df_new).
Proof.
  intros Hnd.
  assert (Hperm : History.appended lib key_cols (stored fs path) df_new
                  ≡ₚ read_csv lib (stored fs path) ++ df_new).
  { by rewrite appended_perm, drop_duplicates_id. }
  rewrite added_unfold, stored_append. repeat split.
  - done.
  - apply appended_sorted.
  - rewrite Hperm, length_app, read_csv_length. lia.
Qed.

Lemma new_keys_are_all_stored_witness :
  let lib := SampleHistory.zonal_lib false in
  let fs : gmap Date (list ZonalFile.Row) :=
    {[ Examples.jan1 := [Rows.zone_0005 "4004" "CT" 3000] ]} in
  let df_new := [Rows.zone_0010 "4004" "CT" 3100; Rows.zone_0005 "4006" "SEMA" 1500] in
  let after := _append_idempotent lib df_new Examples.jan1 zonal_key fs in
  stored after.1 Examples.jan1 ≡ₚ read_csv lib (stored fs Examples.jan1) ++ df_new ∧
  sorted_by_ts_utc ZonalFile.ts_utc (stored after.1 Examples.jan1) ∧
  after.2 = 2.
Proof. intros lib fs df_new. apply new_keys_are_all_stored. compute_done. Defined.

(** X5. The counts add up: over any sequence of [_append_idempotent] calls on
    a file that is absent at the start, the sum of the counts returned is the
    number of rows the file holds at the end. *)
Theorem counts_sum_to_file_size {Row Key : Type} `{EqDecision Key}
    {ts_utc : Row → Datetime} (lib : Lib ts_utc) (key_cols : Row → Key)
    batches path fs :
  fs !! path = None →
  foldr Z.add 0 (Runs.append_counts lib batches path key_cols fs) =
  Z.of_nat (length (stored (append_all lib batches path key_cols fs) path)).
Proof.
  intros Hnone. rewrite append_counts_sum. unfold stored at 2. rewrite Hnone. simpl. lia.
Qed.

Lemma counts_sum_to_file_size_witness :
  let lib := SampleHistory.zonal_lib false in
  let batches :=
    [ [Rows.zone_0010 "4004" "CT" 3100; Rows.zone_0005 "4004" "CT" 3000];
      [Rows.zone_0005 "4004" "CT" 3050; Rows.zone_0005 "4006" "SEMA" 1500] ] in
  foldr Z.add 0 (Runs.append_counts lib batches Examples.jan1 zonal_key ∅) =
  Z.of_nat (length (stored (append_all lib batches Examples.jan1 zonal_key ∅)
                      Examples.jan1)).
Proof. intros lib batches. by apply counts_sum_to_file_size. Defined.

(** X6. [write_history_*] touches the files of the batch's dates only: a file
    of another date is left as it is (absent if it was absent) and gets no
    entry in the summary; each date of the batch gets the entry "rows in the
    file after minus rows before". *)
Theorem write_history_touches_batch_dates {Row Key : Type} `{EqDecision Key}
    {ts_utc : Row → Datetime} (lib : Lib ts_utc) (key_cols : Row → Key) df fs d :
  let after := write_history lib df key_cols fs in
  if decide (d ∈ _utc_dates_in_df ts_utc df)
  then after.2 !! d = Some (Z.of_nat (length (stored after.1 d))
                            - Z.of_nat (length (stored fs d)))
  else after.1 !! d = fs !! d ∧ after.2 !! d = None.
Proof.
  intros after. unfold after, stored at 1.
  destruct (write_history_lookup lib key_cols df fs d) as [-> ->].
  by destruct (decide _).
Qed.

(** X7. Rows are filed under their own UTC date: after any sequence of
    [write_history_*] calls on an empty history directory, every row stored
    in the file of date [d] has a [ts_utc] whose UTC date is [d] (rows
    without a timestamp are in no file but that of the missing date). *)
Theorem rows_filed_by_utc_date {Row Key : Type} `{EqDecision Key}
    {ts_utc : Row → Datetime} (lib : Lib ts_utc) (key_cols : Row → Key)
    batches d r :
  r ∈ stored (write_history_all lib batches key_cols ∅) d →
  utc_date (ts_utc r) = d.
Proof.
  revert d r.
  change (Runs.filed_by_date ts_utc (write_history_all lib batches key_cols ∅)).
  induction batches as [|b batches IH] using rev_ind.
  - intros d r. unfold write_history_all, stored. simpl. rewrite lookup_empty.
    by intros ?%elem_of_nil.
  - rewrite write_history_all_snoc. by apply write_history_filed.
Qed.

Lemma rows_filed_by_utc_date_witness :
  utc_date (ZonalFile.ts_utc (Rows.zone_0005_read 4004 "CT" 3000)) = Examples.jan1.
Proof.
  apply (rows_filed_by_utc_date (SampleHistory.zonal_lib false) zonal_key
           [ [Rows.zone_0010 "4004" "CT" 3100; Rows.zone_0005 "4004" "CT" 3000];
             [Rows.zone_0005 "4006" "SEMA" 1500] ]).
  compute_done.
Defined.

(** X8. No key of a batch is dropped: after [write_history_*], for every row
    of the batch that has a timestamp, the file of the row's UTC date holds
    a row with that row's identity key. *)
Theorem written_keys_are_stored {Row Key : Type} `{EqDecision Key}
    {ts_utc : Row → Datetime} (lib : Lib ts_utc) (key_cols : Row → Key) df fs r :
  r ∈ df → ts_utc r ≠ NaT →
  key_cols r ∈ key_cols <$> stored (write_history lib df key_cols fs).1
                                   (utc_date (ts_utc r)).
Proof.
  intros Hr Hdated. unfold stored.
  destruct (write_history_lookup lib key_cols df fs (utc_date (ts_utc r))) as [-> _].
  rewrite decide_True by by apply elem_of_utc_dates.
  simpl. apply appended_covers. by apply df_day_dated.
Qed.

Lemma written_keys_are_stored_witness :
  let lib := SampleHistory.zonal_lib false in
  let df := [Rows.zone_0010 "4004" "CT" 3100; Rows.zone_0005 "4004" "CT" 3050] in
  let fs : gmap Date (list ZonalFile.Row) :=
    {[ Examples.jan1 := [Rows.zone_0005 "4004" "CT" 3000] ]} in
  let r := Rows.zone_0005 "4004" "CT" 3050 in
  zonal_key r ∈ zonal_key <$> stored (write_history lib df zonal_key fs).1
                                     (utc_date (ZonalFile.ts_utc r)).
Proof. intros lib df fs r. apply written_keys_are_stored; compute_done. Defined.

(** X9. The order in which Python enumerates the set of dates does not
    matter: running the loop of [write_history_*] over any enumeration of the
    batch's dates gives the same files and the same summary. *)
Theorem date_enumeration_order_is_irrelevant {Row Key : Type} `{EqDecision Key}
    {ts_utc : Row → Datetime} (lib : Lib ts_utc) (key_cols : Row → Key) dates df fs :
  dates ≡ₚ _utc_dates_in_df ts_utc df →
  write_history_loop lib dates df key_cols fs ∅ = write_history lib df key_cols fs.
Proof.
  intros Hperm. symmetry. apply write_history_loop_order; [apply NoDup_remove_dups|done].
Qed.

Lemma date_enumeration_order_is_irrelevant_witness :
  let lib := SampleHistory.zonal_lib false in
  let df := ZonalFile.of_frame <$>
              [Examples.zone_0005 "4004" "CT" 3000; Rows.zone_jan2 "4004" "CT" 3100;
               Examples.zone_0010 "4004" "CT" 3200] in
  write_history_loop lib (reverse (_utc_dates_in_df ZonalFile.ts_utc df)) df
    zonal_key ∅ ∅ =
  write_history lib df zonal_key ∅.
Proof.
  intros lib df. apply date_enumeration_order_is_irrelevant. compute_done.
Defined.

(** X31. Writing a batch again brings no new timestamp: after
    [write_history_system] or [write_history_zonal] of a batch, a second
    call with the same batch leaves in every file rows for the same
    timestamps as the first did (the rows themselves can differ, see C1). *)
Theorem same_batch_adds_no_timestamp (pd : Libs) df_sys df_zone fs_sys fs_zone d t :
  let sys1 := (write_history_system pd df_sys fs_sys).1 in
  let zone1 := (write_history_zonal pd df_zone fs_zone).1 in
  (t ∈ SystemFile.ts_utc <$> stored (write_history_system pd df_sys sys1).1 d ↔
   t ∈ SystemFile.ts_utc <$> stored sys1 d) ∧
  (t ∈ ZonalFile.ts_utc <$> stored (write_history_zonal pd df_zone zone1).1 d ↔
   t ∈ ZonalFile.ts_utc <$> stored zone1 d).
Proof.
  split; apply write_history_again_ts_utc; by intros a b [= ? _].
Qed.

End HistoryExtras.

(** ** Orders used by [sort_values] *)

Module OrderFacts.

(** A three-way comparison of a total preorder. *)
Record order_like {A : Type} (c : A → A → comparison) : Prop := {
  ol_antisym : ∀ a b, c b a = CompOpp (c a b);
  ol_eq_l : ∀ a b d, c a b = Eq → c a d = c b d;
  ol_lt_trans : ∀ a b d, c a b = Lt → c b d = Lt → c a d = Lt;
}.

Section order_like.
Context {A : Type} (c : A → A → comparison) (Hc : order_like c).

Lemma ol_eq_r a b d : c b d = Eq → c a b = c a d.
Proof using Hc.
  intros Hbd. rewrite (ol_antisym c Hc b a), (ol_antisym c Hc d a). f_equal.
  symmetry. apply (ol_eq_l c Hc). by rewrite (ol_antisym c Hc), Hbd.
Qed.

Lemma ol_gt_trans a b d : c a b = Gt → c b d = Gt → c a d = Gt.
Proof using Hc.
  intros Hab Hbd. rewrite (ol_antisym c Hc d a).
  rewrite (ol_lt_trans c Hc d b a); [done| |].
  - by rewrite (ol_antisym c Hc), Hbd.
  - by rewrite (ol_antisym c Hc), Hab.
Qed.

Lemma not_after_total a b : not_after (c a b) = false → not_after (c b a) = true.
Proof using Hc. rewrite (ol_antisym c Hc a b). by destruct (c a b). Qed.

Lemma not_after_trans a b d :
  not_after (c a b) = true → not_after (c b d) = true → not_after (c a d) = true.
Proof using Hc.
  destruct (c a b) eqn:Hab; [| |done]; destruct (c b d) eqn:Hbd; try done; intros _ _.
  - by rewrite (ol_eq_l c Hc a b d Hab), Hbd.
  - by rewrite (ol_eq_l c Hc a b d Hab), Hbd.
  - by rewrite <- (ol_eq_r a b d Hbd), Hab.
  - by rewrite (ol_lt_trans c Hc a b d).
Qed.
End order_like.

Lemma order_like_on {A B : Type} (f : B → A) (c : A → A → comparison) :
  order_like c → order_like (λ a b, c (f a) (f b)).
Proof. intros [H1 H2 H3]. split; eauto. Qed.

Lemma order_like_then_by {A : Type} (c1 c2 : A → A → comparison) :
  order_like c1 → order_like c2 → order_like (λ a b, then_by (c1 a b) (c2 a b)).
Proof.
  intros H1 H2. split.
  - intros a b. rewrite (ol_antisym c1 H1 a b), (ol_antisym c2 H2 a b).
    by destruct (c1 a b), (c2 a b).
  - intros a b d. destruct (c1 a b) eqn:H1ab; [|done|done]. simpl. intros H2ab.
    by rewrite (ol_eq_l c1 H1 a b d H1ab), (ol_eq_l c2 H2 a b d H2ab).
  - intros a b d. destruct (c1 a b) eqn:H1ab; [| |done]; simpl.
    + intros H2ab. rewrite (ol_eq_l c1 H1 a b d H1ab).
      destruct (c1 b d); [|done|done]. simpl. by apply (ol_lt_trans c2 H2).
    + intros _. destruct (c1 b d) eqn:H1bd; [| |done]; simpl; intros _.
      * by rewrite <- (ol_eq_r c1 H1 a b d H1bd), H1ab.
      * by rewrite (ol_lt_trans c1 H1 a b d).
Qed.

Lemma order_like_na_last {A : Type} (c : A → A → comparison) :
  order_like c → order_like (compare_na_last c).
Proof.
  intros Hc. split.
  - intros [a|] [b|]; simpl; try done. apply (ol_antisym c Hc).
  - intros [a|] [b|] [d|]; simpl; try done. apply (ol_eq_l c Hc).
  - intros [a|] [b|] [d|]; simpl; try done. apply (ol_lt_trans c Hc).
Qed.

Lemma order_like_Z : order_like Z.compare.
Proof.
  split.
  - intros a b. apply Z.compare_antisym.
  - intros a b d ->%Z.compare_eq. done.
  - intros a b d Hab Hbd. rewrite Z.compare_lt_iff in *. by eapply Z.lt_trans.
Qed.

Lemma ascii_compare_lt_trans a b d :
  Ascii.compare a b = Lt → Ascii.compare b d = Lt → Ascii.compare a d = Lt.
Proof.
  unfold Ascii.compare. intros Hab%N.compare_lt_iff Hbd%N.compare_lt_iff.
  apply N.compare_lt_iff. by eapply N.lt_trans.
Qed.

Lemma string_compare_lt_trans s1 s2 s3 :
  String.compare s1 s2 = Lt → String.compare s2 s3 = Lt → String.compare s1 s3 = Lt.
Proof.
  revert s2 s3. induction s1 as [|a s1 IH]; intros [|b s2] [|d s3]; simpl; try done.
  destruct (Ascii.compare a b) eqn:Hab; [| |done].
  - apply Ascii.compare_eq_iff in Hab as ->.
    destruct (Ascii.compare b d); [|done|done]. apply IH.
  - intros _. destruct (Ascii.compare b d) eqn:Hbd; [| |done]; intros _.
    + apply Ascii.compare_eq_iff in Hbd as <-. by rewrite Hab.
    + by rewrite (ascii_compare_lt_trans a b d).
Qed.

Lemma order_like_string : order_like String.compare.
Proof.
  split.
  - intros a b. apply String.compare_antisym.
  - intros a b d ->%String.compare_eq_iff. done.
  - apply string_compare_lt_trans.
Qed.

Lemma order_like_ts : order_like ts_compare.
Proof.
  apply (order_like_on instant (compare_na_last Z.compare)).
  apply order_like_na_last, order_like_Z.
Qed.

Lemma order_like_system :
  order_like (λ a b, then_by (ts_compare (System.ts_utc a) (System.ts_utc b))
                             (String.compare (System.location a) (System.location b))).
Proof.
  apply (order_like_then_by
           (λ a b, ts_compare (System.ts_utc a) (System.ts_utc b))
           (λ a b, String.compare (System.location a) (System.location b))).
  - apply (order_like_on System.ts_utc), order_like_ts.
  - apply (order_like_on System.location), order_like_string.
Qed.

Lemma order_like_zonal :
  order_like
    (λ a b, then_by (ts_compare (Zonal.ts_utc a) (Zonal.ts_utc b))
              (then_by (compare_na_last String.compare (Zonal.zone_id a) (Zonal.zone_id b))
                       (compare_na_last String.compare
                          (Zonal.zone_name a) (Zonal.zone_name b)))).
Proof.
  apply (order_like_then_by
           (λ a b, ts_compare (Zonal.ts_utc a) (Zonal.ts_utc b))
           (λ a b, then_by
                     (compare_na_last String.compare (Zonal.zone_id a) (Zonal.zone_id b))
                     (compare_na_last String.compare
                        (Zonal.zone_name a) (Zonal.zone_name b)))).
  - apply (order_like_on Zonal.ts_utc), order_like_ts.
  - apply (order_like_then_by
             (λ a b, compare_na_last String.compare (Zonal.zone_id a) (Zonal.zone_id b))
             (λ a b, compare_na_last String.compare (Zonal.zone_name a) (Zonal.zone_name b))).
    + apply (order_like_on Zonal.zone_id), order_like_na_last, order_like_string.
    + apply (order_like_on Zonal.zone_name), order_like_na_last, order_like_string.
Qed.

End OrderFacts.

(** ** Normalizers: extraction, traversal and the returned frame *)

Module NormalizerExtras.

(** *** Fallback key lists *)

Lemma first_hit_Some ok keys d v :
  first_hit ok keys d = Some v →
  ok v = true ∧ ∃ k, k ∈ keys ∧ dict_get k d = Some v.
Proof.
  induction keys as [|k keys IH]; simpl; [done|].
  destruct (dict_get k d) as [v'|] eqn:Hk.
  - destruct (ok v') eqn:Hok.
    + intros [= <-]. split; [done|]. exists k. split; [by left|done].
    + intros (? & k' & ? & ?)%IH. split; [done|]. exists k'. split; [by right|done].
  - intros (? & k' & ? & ?)%IH. split; [done|]. exists k'. split; [by right|done].
Qed.

Lemma first_hit_None ok keys d :
  first_hit ok keys d = None ↔
  ∀ k v, k ∈ keys → dict_get k d = Some v → ok v = false.
Proof.
  induction keys as [|k keys IH]; simpl.
  - split; [|done]. by intros _ k v ?%elem_of_nil.
  - destruct (dict_get k d) as [v'|] eqn:Hk; [destruct (ok v') eqn:Hok|].
    + split; [done|]. intros Hall. by rewrite (Hall k v') in Hok by (done || by left).
    + rewrite IH. split.
      * intros Hall k' v [->|Hin]%elem_of_cons Hget; [congruence|by eapply Hall].
      * intros Hall k' v Hin. apply Hall. by right.
    + rewrite IH. split.
      * intros Hall k' v [->|Hin]%elem_of_cons Hget; [congruence|by eapply Hall].
      * intros Hall k' v Hin. apply Hall. by right.
Qed.

Lemma first_hit_priority ok keys1 k keys2 d v :
  (∀ k' v', k' ∈ keys1 → dict_get k' d = Some v' → ok v' = false) →
  dict_get k d = Some v → ok v = true →
  first_hit ok (keys1 ++ k :: keys2) d = Some v.
Proof.
  intros Hearlier Hk Hok. induction keys1 as [|k1 keys1 IH]; simpl.
  - by rewrite Hk, Hok.
  - destruct (dict_get k1 d) as [v1|] eqn:Hk1.
    + rewrite (Hearlier k1 v1) by (done || by left).
      apply IH. intros k' v' Hin. apply Hearlier. by right.
    + apply IH. intros k' v' Hin. apply Hearlier. by right.
Qed.

(** X10. Fallback key lists: [first_key] (and likewise [extract_time] and
    [extract_val]) returns the value of the earliest listed key that is
    present with a usable value; what it returns is never null or the empty
    string ([extract_time]: never falsy), and it returns nothing exactly when
    no listed key is present with a usable value. *)
Theorem first_usable_field_wins :
  (∀ d keys v,
     Zonal.first_key d keys = Some v →
     v ≠ JNull ∧ v ≠ JStr "" ∧ ∃ k, k ∈ keys ∧ dict_get k d = Some v) ∧
  (∀ d keys,
     Zonal.first_key d keys = None ↔
     ∀ k v, k ∈ keys → dict_get k d = Some v → v = JNull ∨ v = JStr "") ∧
  (∀ d keys1 k keys2 v,
     (∀ k' v', k' ∈ keys1 → dict_get k' d = Some v' → v' = JNull ∨ v' = JStr "") →
     dict_get k d = Some v → v ≠ JNull → v ≠ JStr "" →
     Zonal.first_key d (keys1 ++ k :: keys2) = Some v) ∧
  (∀ d v, System.extract_time d = Some v →
          truthy v = true ∧ ∃ k, k ∈ System.TIME_KEYS ∧ dict_get k d = Some v) ∧
  (∀ d v, System.extract_val d = Some v →
          v ≠ JNull ∧ v ≠ JStr "" ∧ ∃ k, k ∈ System.VALUE_KEYS ∧ dict_get k d = Some v).
Proof.
  assert (Hblank : ∀ v, not_blank v = false ↔ v = JNull ∨ v = JStr "").
  { intros v. destruct v as [| | | |s| |]; simpl; try by (split; [done|intros [|]; done]).
    - split; [by left|done].
    - rewrite negb_false_iff. split.
      + intros ->%String.eqb_eq. by right.
      + intros [|[= ->]]; [done|]. by apply String.eqb_eq. }
  assert (Husable : ∀ v, not_blank v = true ↔ v ≠ JNull ∧ v ≠ JStr "").
  { intros v. destruct (not_blank v) eqn:Hv.
    - split; [intros _|done]. split; intros ->; simpl in Hv; done.
    - apply Hblank in Hv. split; [done|]. intros [??]. by destruct Hv. }
  repeat apply conj.
  - intros d keys v (Hok & Hk)%first_hit_Some. apply Husable in Hok as [??]. done.
  - intros d keys. unfold Zonal.first_key. rewrite first_hit_None.
    split; intros Hall k v Hin Hget; apply Hblank; by eapply Hall.
  - intros d keys1 k keys2 v Hearlier Hk Hnull Hempty.
    apply first_hit_priority; [|done|by apply Husable].
    intros k' v' Hin Hget. apply Hblank. by eapply Hearlier.
  - intros d v. apply first_hit_Some.
  - intros d v (Hok & Hk)%first_hit_Some. apply Husable in Hok as [??]. done.
Qed.

Lemma first_usable_field_wins_witness :
  Zonal.first_key [("LoadZoneId", JStr ""); ("ZoneID", JInt 4004); ("ZoneId", JInt 4005)]
                  (["load_zone_id"; "LoadZone"; "LoadZoneId"] ++ "ZoneID" :: ["ZoneId"])
  = Some (JInt 4004).
Proof.
  apply (proj1 (proj2 (proj2 first_usable_field_wins))); [|done..].
  intros k' v'. rewrite !elem_of_cons, elem_of_nil.
  intros [->|[->|[->|[]]]]; simpl; [done|done|]. intros [= <-]. by right.
Defined.

(** *** The returned frame *)

Lemma by_ts_location_total a b :
  System.by_ts_location a b = false → System.by_ts_location b a = true.
Proof. apply (OrderFacts.not_after_total _ OrderFacts.order_like_system). Qed.

Lemma by_ts_location_trans a b c :
  System.by_ts_location a b = true → System.by_ts_location b c = true →
  System.by_ts_location a c = true.
Proof. apply (OrderFacts.not_after_trans _ OrderFacts.order_like_system). Qed.

Lemma by_ts_zone_total a b :
  Zonal.by_ts_zone a b = false → Zonal.by_ts_zone b a = true.
Proof. apply (OrderFacts.not_after_total _ OrderFacts.order_like_zonal). Qed.

Lemma by_ts_zone_trans a b c :
  Zonal.by_ts_zone a b = true → Zonal.by_ts_zone b c = true →
  Zonal.by_ts_zone a c = true.
Proof. apply (OrderFacts.not_after_trans _ OrderFacts.order_like_zonal). Qed.

(** X11. Output order: a frame the system normalizer returns holds exactly
    the extracted records, sorted by [ts_utc] and then [location]; a frame the
    zonal normalizer returns holds exactly the extracted records (after the
    zone_name fill), sorted by [ts_utc], [zone_id] and [zone_name]; missing
    values come last. *)
Theorem returned_frame_is_sorted :
  (∀ lib payload raw df,
     (System.normalize_payload lib payload raw).2 = Ok df →
     Pandas.sorted_by System.by_ts_location df ∧
     ∃ rs, System.rows lib payload = Ok rs ∧ df ≡ₚ rs) ∧
  (∀ lib payload raw df,
     (Zonal.normalize_payload lib payload raw).2 = Ok df →
     Pandas.sorted_by Zonal.by_ts_zone df ∧
     ∃ rs, Zonal.walk lib payload = Ok rs ∧ df ≡ₚ Zonal.fillna_zone_name <$> rs).
Proof.
  split.
  - intros lib payload raw df (rs & Hrs & _ & -> & _)%SystemFacts.normalize_payload_Ok.
    split.
    + apply PandasFacts.sort_values_sorted;
        [apply by_ts_location_total|apply by_ts_location_trans].
    + exists rs. split; [done|]. apply PandasFacts.sort_values_perm.
  - intros lib payload raw df (rs & Hrs & _ & -> & _)%ZonalFacts.zonal_normalize_payload_Ok.
    split.
    + apply PandasFacts.sort_values_sorted;
        [apply by_ts_zone_total|apply by_ts_zone_trans].
    + exists rs. split; [done|]. apply PandasFacts.sort_values_perm.
Qed.

Lemma returned_frame_is_sorted_witness :
  Pandas.sorted_by Zonal.by_ts_zone
    [Examples.zone_0005 "4004" "CT" 3000; Examples.zone_0005 "4006" "SEMA" 1500] ∧
  ∃ rs, Zonal.walk Sample.lib
          (JList [JDict Examples.zonal_name_only; JDict Examples.zonal_id_only]) = Ok rs ∧
        [Examples.zone_0005 "4004" "CT" 3000; Examples.zone_0005 "4006" "SEMA" 1500]
          ≡ₚ Zonal.fillna_zone_name <$> rs.
Proof.
  apply (proj2 returned_frame_is_sorted Sample.lib _ ∅). by vm_compute.
Defined.

(** X12. After the final fill, a zonal record with a zone id has a zone name:
    in every frame the zonal normalizer returns, zone_name is null only where
    zone_id is null too. *)
Theorem zone_name_filled_from_zone_id lib payload raw df r :
  (Zonal.normalize_payload lib payload raw).2 = Ok df →
  r ∈ df →
  is_Some (Zonal.zone_id r) → is_Some (Zonal.zone_name r).
Proof.
  intros (rs & _ & _ & -> & _)%ZonalFacts.zonal_normalize_payload_Ok.
  rewrite PandasFacts.sort_values_perm.
  intros (r' & -> & _)%list_elem_of_fmap. simpl.
  by destruct (Zonal.zone_name r').
Qed.

Lemma zone_name_filled_from_zone_id_witness :
  is_Some (Zonal.zone_name (Examples.zone_0005 "4010" "4010" 700)).
Proof.
  apply (zone_name_filled_from_zone_id Sample.lib
           (JDict [("interval_begin_date", JStr "2024-01-01T00:05:00");
                   ("load_zone_id", JInt 4010);
                   ("estimated_load_mw", JFloat (Examples.mw 700))]) ∅
           [Examples.zone_0005 "4010" "4010" 700]); [by vm_compute|by left|by eexists].
Defined.

(** X13. [ts_utc] is always in UTC: in every frame either normalizer returns,
    a record's [ts_utc] is missing or labelled UTC, and it is missing exactly
    when [ts_local] is. *)
Theorem ts_utc_is_labelled_utc :
  (∀ lib payload raw df r,
     (System.normalize_payload lib payload raw).2 = Ok df → r ∈ df →
     utc_or_missing (System.ts_utc r) ∧
     (System.ts_utc r = NaT ↔ System.ts_local r = NaT)) ∧
  (∀ lib payload raw df r,
     (Zonal.normalize_payload lib payload raw).2 = Ok df → r ∈ df →
     utc_or_missing (Zonal.ts_utc r) ∧
     (Zonal.ts_utc r = NaT ↔ Zonal.ts_local r = NaT)).
Proof.
  assert (Hutc : ∀ t u, utc_of_local t = Ok u →
            utc_or_missing u ∧ (u = NaT ↔ t = NaT)).
  { intros [|w [off|]] u [= <-]; (split; [|done]); [by left|right; by eexists..]. }
  split.
  - intros lib payload raw df r Hdf. revert r. apply Forall_forall.
    eapply SystemFacts.normalize_payload_Forall; [| |exact Hdf].
    + intros e rs Hrs. apply Forall_forall. intros x Hx.
      apply Hutc. by eapply SystemFacts.fast_entry_Ok.
    + intros d rs Hrs. apply Forall_forall. intros x Hx.
      apply Hutc. by eapply SystemFacts.walk_node_Ok.
  - intros lib payload raw df r Hdf. revert r. apply Forall_forall.
    eapply ZonalFacts.zonal_normalize_payload_Forall; [|exact Hdf].
    intros d rs Hrs. apply Forall_forall. intros x Hx. simpl.
    apply Hutc. by eapply ZonalFacts.zonal_walk_node_Ok.
Qed.

Lemma ts_utc_is_labelled_utc_witness :
  utc_or_missing (System.ts_utc Examples.sys_aware) ∧
  (System.ts_utc Examples.sys_aware = NaT ↔ System.ts_local Examples.sys_aware = NaT).
Proof.
  apply (proj1 ts_utc_is_labelled_utc Sample.lib
           (JList [JDict Examples.system_entry_aware]) ∅ [Examples.sys_aware]);
    [by vm_compute|by left].
Defined.

(** *** Zone ids *)

Lemma pretty_N_char_digit x : is_digit (pretty_N_char x) = true.
Proof.
  destruct x as [|p]; [done|].
  do 4 (try destruct p as [p|p|]); done.
Qed.

Lemma pretty_N_go_digits x s :
  s ≠ "" → all_digits s = true →
  pretty_N_go x s ≠ "" ∧ all_digits (pretty_N_go x s) = true.
Proof.
  revert s. induction (N.lt_wf_0 x) as [x _ IH]; intros s Hne Hs.
  destruct (decide (x = 0)%N) as [->|Hx].
  - by rewrite pretty_N_go_0.
  - rewrite pretty_N_go_step by lia. apply IH.
    + apply N.div_lt; lia.
    + done.
    + simpl. by rewrite pretty_N_char_digit.
Qed.

Lemma pretty_N_digits (x : N) : digit_string (pretty x).
Proof.
  unfold pretty, pretty_N, digit_string. destruct (decide (x = 0)%N) as [->|Hx]; [done|].
  rewrite pretty_N_go_step by lia.
  destruct (pretty_N_go_digits (x `div` 10)
              (String (pretty_N_char (x `mod` 10)) "")) as [Hne Hd]; [done| |].
  { simpl. by rewrite pretty_N_char_digit. }
  unfold isdigit. by destruct (pretty_N_go _ _).
Qed.

Lemma pretty_Z_integer_literal (z : Z) : integer_literal (pretty z).
Proof.
  destruct z as [|p|p]; unfold pretty, pretty_Z.
  - by left.
  - left. apply (pretty_N_digits (Npos p)).
  - right. eexists. split; [done|]. apply (pretty_N_digits (Npos p)).
Qed.

Lemma rev_by_name_digits k i :
  Zonal.table_get k Zonal.REV_BY_NAME = Some i → digit_string i.
Proof.
  assert (Hall : Forall (λ kv, digit_string kv.2) Zonal.REV_BY_NAME).
  { unfold Zonal.REV_BY_NAME, Zonal.ZONE_NAME_BY_ID.
    repeat (apply Forall_cons; split; [done|]). apply Forall_nil_2. }
  induction Hall as [|[k' i'] table Hi _ IH]; simpl; [done|].
  destruct (String.eqb k k'); [by intros [= <-]|done].
Qed.

Lemma zone_id_str_integer_literal zid i :
  Zonal.zone_id_str zid = Ok (Some i) → integer_literal i.
Proof.
  destruct zid as [[|b|z|f|s|l|d]|]; simpl; try done.
  - intros [= <-]. apply pretty_Z_integer_literal.
  - intros [= <-]. apply pretty_Z_integer_literal.
  - destruct (int_of_float f) as [z|e]; simpl; [|done].
    intros [= <-]. apply pretty_Z_integer_literal.
  - destruct (negb _); [|done]. destruct (isdigit (strip s)) eqn:Hd; [|done].
    intros [= <-]. by left.
Qed.

(** X14. Zone ids are numbers: in every frame the zonal normalizer returns for
    a payload of ASCII text, a zone_id that is present is a decimal integer
    literal (digits, with a leading minus sign only when the payload gave a
    negative number); a label found in an id field is never stored as the
    zone_id. *)
Theorem zone_id_is_an_integer_literal lib payload raw df r i :
  ascii_payload payload = true →
  (Zonal.normalize_payload lib payload raw).2 = Ok df →
  r ∈ df →
  Zonal.zone_id r = Some i → integer_literal i.
Proof.
  intros _ Hdf Hr. revert i.
  assert (Hall : Forall (λ r, ∀ i, Zonal.zone_id r = Some i → integer_literal i) df);
    [|by eapply Forall_forall in Hall].
  eapply ZonalFacts.zonal_normalize_payload_Forall; [|exact Hdf].
  intros d rs Hrs. apply Forall_forall. intros x Hx i. simpl.
  destruct (ZonalFacts.zonal_walk_node_Ok lib d rs x Hrs Hx)
    as (_ & _ & _ & _ & zid_s & Hzid & -> & _).
  destruct zid_s as [j|]; simpl.
  - intros [= <-]. by eapply zone_id_str_integer_literal.
  - destruct (Zonal.clean_zone_name _ _); [|done].
    intros Hrev%rev_by_name_digits. by left.
Qed.

Lemma zone_id_is_an_integer_literal_witness : integer_literal "4006".
Proof.
  apply (zone_id_is_an_integer_literal Sample.lib (JDict Examples.zonal_name_only) ∅
           [Examples.zone_0005 "4006" "SEMA" 1500]
           (Examples.zone_0005 "4006" "SEMA" 1500)); [done|by vm_compute|by left|done].
Defined.

(** *** Traversal *)

Lemma count_maps_list_cons x l :
  count_maps (JList (x :: l)) = (count_maps x + count_maps (JList l))%nat.
Proof. done. Qed.

Lemma count_maps_dict_cons k x d :
  count_maps (JDict ((k, x) :: d)) = (count_maps x + count_maps (JDict d))%nat.
Proof. simpl. lia. Qed.

Section traverse_count.
Context {Row : Type} (node : dict → res (list Row)).
Hypothesis node_one : ∀ d rs, node d = Ok rs → (length rs ≤ 1)%nat.

Lemma traverse_items_length l rs :
  Forall (λ v, ∀ rs, traverse node v = Ok rs → (length rs ≤ count_maps v)%nat) l →
  traverse_items node l = Ok rs → (length rs ≤ count_maps (JList l))%nat.
Proof.
  intros Hl. revert rs. induction Hl as [|x l Hx _ IH]; intros rs Hrs.
  - simpl in Hrs. by res_inv.
  - rewrite count_maps_list_cons. simpl in Hrs. res_inv. rewrite length_app.
    specialize (Hx _ Ha). specialize (IH _ Ha0). lia.
Qed.

Lemma traverse_values_length d rs :
  Forall (λ kv, ∀ rs, traverse node kv.2 = Ok rs → (length rs ≤ count_maps kv.2)%nat) d →
  traverse_values node d = Ok rs → (S (length rs) ≤ count_maps (JDict d))%nat.
Proof.
  intros Hd. revert rs. induction Hd as [|[k x] d Hx _ IH]; intros rs Hrs.
  - simpl in Hrs. res_inv. simpl. lia.
  - rewrite count_maps_dict_cons. simpl in Hrs. res_inv. rewrite length_app.
    specialize (Hx _ Ha). specialize (IH _ Ha0). simpl in Hx. lia.
Qed.

(** The traversal yields at most one record per map. *)
Lemma traverse_length v rs :
  traverse node v = Ok rs → (length rs ≤ count_maps v)%nat.
Proof using node_one.
  revert rs. induction v as [| | | | |l IH|d IH] using Json_nested_ind; intros rs.
  1-5: by intros [= <-].
  - rewrite traverse_list. by apply traverse_items_length.
  - rewrite traverse_dict. intros Hrs. res_inv. rewrite length_app.
    pose proof (node_one _ _ Ha). pose proof (traverse_values_length d _ IH Ha0). lia.
Qed.
End traverse_count.

Lemma system_fast_entry_one lib r rs :
  System.fast_entry lib r = Ok rs → (length rs ≤ count_maps r)%nat.
Proof.
  destruct rs as [|x rs]; [simpl; lia|]. intros Hrs.
  destruct (SystemFacts.fast_entry_Ok lib r (x :: rs) x Hrs) as ([= ->] & _ & _ & Hd & _);
    [by left|].
  destruct Hd as (d & _ & -> & _). simpl. lia.
Qed.

Lemma system_fast_entries_length lib l rs :
  System.fast_entries lib l = Ok rs → (length rs ≤ count_maps (JList l))%nat.
Proof.
  revert rs. induction l as [|r l IH]; intros rs Hrs.
  - simpl in Hrs. by res_inv.
  - rewrite count_maps_list_cons. simpl in Hrs. res_inv. rewrite length_app.
    pose proof (system_fast_entry_one _ _ _ Ha). specialize (IH _ Ha0). lia.
Qed.

Lemma count_maps_dict_get k d v :
  dict_get k d = Some v → (S (count_maps v) ≤ count_maps (JDict d))%nat.
Proof.
  induction d as [|[k' x] d IH]; simpl; [done|].
  destruct (String.eqb k k').
  - intros [= ->]. lia.
  - intros Hv%IH. simpl in Hv. lia.
Qed.

Lemma system_walk_node_one lib d rs :
  System.walk_node lib d = Ok rs → (length rs ≤ 1)%nat.
Proof.
  destruct rs as [|x rs]; [simpl; lia|]. intros Hrs.
  by destruct (SystemFacts.walk_node_Ok lib d (x :: rs) x Hrs) as ([= ->] & _); [by left|].
Qed.

Lemma zonal_walk_node_one lib d rs :
  Zonal.walk_node lib d = Ok rs → (length rs ≤ 1)%nat.
Proof.
  destruct rs as [|x rs]; [simpl; lia|]. intros Hrs.
  by destruct (ZonalFacts.zonal_walk_node_Ok lib d (x :: rs) x Hrs) as ([= ->] & _);
    [by left|].
Qed.

Lemma system_rows_length lib payload rs :
  System.rows lib payload = Ok rs → (length rs ≤ count_maps payload)%nat.
Proof.
  unfold System.rows. intros Hrs. res_inv. destruct a as [|x a].
  - rewrite SystemFacts.walk_traverse in Hrs.
    eapply traverse_length; [apply system_walk_node_one|done].
  - res_inv. unfold System.fast_path in Ha.
    destruct payload as [| | | | | |d]; try by res_inv.
    destruct (dict_get _ d) as [[| | | | |l|]|] eqn:Hget; try by res_inv.
    apply system_fast_entries_length in Ha. apply count_maps_dict_get in Hget. lia.
Qed.

(** X15. At most one record per map: a frame either normalizer returns has
    no more rows than the payload has maps (JSON objects, at any depth). *)
Theorem at_most_one_record_per_map :
  (∀ lib payload raw df,
     (System.normalize_payload lib payload raw).2 = Ok df →
     (length df ≤ count_maps payload)%nat) ∧
  (∀ lib payload raw df,
     (Zonal.normalize_payload lib payload raw).2 = Ok df →
     (length df ≤ count_maps payload)%nat).
Proof.
  split.
  - intros lib payload raw df (rs & Hrs & _ & -> & _)%SystemFacts.normalize_payload_Ok.
    rewrite PandasFacts.sort_values_perm. by eapply system_rows_length.
  - intros lib payload raw df (rs & Hrs & _ & -> & _)%ZonalFacts.zonal_normalize_payload_Ok.
    rewrite PandasFacts.sort_values_perm, length_fmap.
    rewrite ZonalFacts.zonal_walk_traverse in Hrs.
    eapply traverse_length; [apply zonal_walk_node_one|done].
Qed.

Lemma at_most_one_record_per_map_witness :
  (length [Examples.sys_0005 15000] ≤ count_maps Examples.system_payload)%nat.
Proof.
  apply (proj1 at_most_one_record_per_map Sample.lib _ ∅). by vm_compute.
Defined.

(** X16. A payload without any map is rejected: when the payload holds no
    JSON object at any depth (a scalar, an empty list, lists of scalars),
    both normalizers write it to their debug file and raise [ValueError],
    whatever the library calls would do. *)
Theorem payload_without_maps_is_rejected :
  (∀ lib payload raw,
     count_maps payload = 0%nat →
     System.normalize_payload lib payload raw =
       (<[System.debug_path := payload]> raw, Raise ValueError)) ∧
  (∀ lib payload raw,
     count_maps payload = 0%nat →
     Zonal.normalize_payload lib payload raw =
       (<[Zonal.debug_path := payload]> raw, Raise ValueError)).
Proof.
  assert (Hnone : ∀ (Row : Type) (node : dict → res (list Row)) v,
            count_maps v = 0%nat → traverse node v = Ok []).
  { intros Row node v.
    induction v as [| | | | |l IH|d IH] using Json_nested_ind; try done.
    rewrite traverse_list. induction IH as [|x l Hx _ IHl]; [done|].
    rewrite count_maps_list_cons. intros [Hx0 Hl0]%Nat.eq_add_0. simpl.
    by rewrite (Hx Hx0), (IHl Hl0). }
  split; intros lib payload raw Hcount.
  - unfold System.normalize_payload, System.rows.
    assert (System.fast_path lib payload = Ok []) as -> by by destruct payload.
    simpl. by rewrite SystemFacts.walk_traverse, Hnone.
  - unfold Zonal.normalize_payload.
    by rewrite ZonalFacts.zonal_walk_traverse, Hnone.
Qed.

Lemma payload_without_maps_is_rejected_witness :
  Zonal.normalize_payload Sample.lib (JList [JStr "Service Unavailable"; JList []]) ∅ =
    (<[Zonal.debug_path := JList [JStr "Service Unavailable"; JList []]]> ∅,
     Raise ValueError).
Proof. by apply (proj2 payload_without_maps_is_rejected). Defined.

(** X17. Nesting depth does not matter to the traversal: wrapping a payload
    in any number of one-element lists and single-key maps leaves the records
    both [walk] functions collect unchanged, and so the frame the zonal
    normalizer returns. *)
Theorem wrappers_are_transparent_at_any_depth lib P W :
  rtc wrapper_of P W →
  System.walk lib W = System.walk lib P ∧
  Zonal.walk lib W = Zonal.walk lib P ∧
  (∀ raw df, (Zonal.normalize_payload lib P raw).2 = Ok df →
             Zonal.normalize_payload lib W raw = (raw, Ok df)).
Proof.
  intros Hwrap.
  assert (Hwalks : System.walk lib W = System.walk lib P ∧
                   Zonal.walk lib W = Zonal.walk lib P).
  { induction Hwrap as [|P M W Hstep _ [IH1 IH2]]; [done|].
    rewrite IH1, IH2. split.
    - by apply SystemFacts.walk_wrapper.
    - by apply ZonalFacts.zonal_walk_wrapper. }
  destruct Hwalks as [Hsys Hzon]. repeat split; [done..|].
  intros raw df (rs & Hrs & Hne & -> & _)%ZonalFacts.zonal_normalize_payload_Ok.
  unfold Zonal.normalize_payload. rewrite Hzon, Hrs. by destruct rs.
Qed.

Lemma wrappers_are_transparent_at_any_depth_witness :
  let W := JDict [("response", JList [JDict [("data", JDict Examples.zonal_id_only)]])] in
  System.walk Sample.lib W = System.walk Sample.lib (JDict Examples.zonal_id_only) ∧
  Zonal.walk Sample.lib W = Zonal.walk Sample.lib (JDict Examples.zonal_id_only) ∧
  (∀ raw df, (Zonal.normalize_payload Sample.lib (JDict Examples.zonal_id_only) raw).2 = Ok df →
             Zonal.normalize_payload Sample.lib W raw = (raw, Ok df)).
Proof.
  intros W. apply wrappers_are_transparent_at_any_depth.
  eapply rtc_l; [apply (wrap_in_map _ "data")|].
  eapply rtc_l; [apply wrap_in_list|].
  eapply rtc_l; [apply (wrap_in_map _ "response")|]. apply rtc_refl.
Defined.

End NormalizerExtras.

(** ** Fetchers and ingestion cycles *)

Module CycleFacts.
Import Fetch Cycle.

(** The outcome of a fetcher depends on the response only. *)
Lemma fetch_system_outcome stamp resp bytes dumps :
  (fetch_current_fivemin_load stamp resp bytes dumps).2 = fetched_system resp.
Proof.
  unfold fetched_system, fetch_current_fivemin_load.
  destruct (is_error_status _); [done|]. destruct (negb _); [done|].
  destruct (json resp) as [payload|]; [|done]. by destruct (error_key payload).
Qed.

Lemma fetch_zonal_outcome stamp resp bytes :
  (fetch_current_zonal stamp resp bytes).2 = fetched_zonal resp.
Proof.
  unfold fetched_zonal, fetch_current_zonal.
  destruct (is_error_status _); [done|]. destruct (negb _); [done|].
  by destruct (json resp).
Qed.

Lemma system_normalize_outcome lib payload raw raw' :
  (System.normalize_payload lib payload raw).2 =
  (System.normalize_payload lib payload raw').2.
Proof.
  unfold System.normalize_payload. by destruct (System.rows lib payload) as [[|]|].
Qed.

Lemma zonal_normalize_outcome lib payload raw raw' :
  (Zonal.normalize_payload lib payload raw).2 =
  (Zonal.normalize_payload lib payload raw').2.
Proof.
  unfold Zonal.normalize_payload. by destruct (Zonal.walk lib payload) as [[|]|].
Qed.

Lemma system_frame_nonempty lib payload raw :
  (System.normalize_payload lib payload raw).2 ≠ Ok [].
Proof.
  intros (rs & _ & Hne & Hnil & _)%SystemFacts.normalize_payload_Ok.
  apply Hne, Permutation_nil_r. rewrite Hnil. symmetry. apply PandasFacts.sort_values_perm.
Qed.

Lemma zonal_frame_nonempty lib payload raw :
  (Zonal.normalize_payload lib payload raw).2 ≠ Ok [].
Proof.
  intros (rs & _ & Hne & Hnil & _)%ZonalFacts.zonal_normalize_payload_Ok.
  apply Hne, fmap_nil_inv with (f := Zonal.fillna_zone_name).
  apply Permutation_nil_r. rewrite Hnil. symmetry. apply PandasFacts.sort_values_perm.
Qed.

Lemma fetch_current_system_df_spec lib stamp resp disk :
  tables (fetch_current_system_df lib stamp resp disk).1 = tables disk ∧
  (fetch_current_system_df lib stamp resp disk).2 = system_frame lib resp.
Proof.
  unfold fetch_current_system_df, system_frame.
  rewrite <- (fetch_system_outcome stamp resp (raw_bytes disk) (raw_dumps disk)).
  destruct (fetch_current_fivemin_load _ _ _ _) as [[bytes dumps] [payload|e]]; [|done].
  simpl. rewrite (system_normalize_outcome lib payload ∅ dumps).
  pose proof (system_frame_nonempty lib payload dumps) as Hne.
  destruct (System.normalize_payload lib payload dumps) as [dumps' [[|r df]|e]]; done.
Qed.

Lemma fetch_current_zonal_df_spec lib stamp resp disk :
  tables (fetch_current_zonal_df lib stamp resp disk).1 = tables disk ∧
  (fetch_current_zonal_df lib stamp resp disk).2 = zonal_frame lib resp.
Proof.
  unfold fetch_current_zonal_df, zonal_frame.
  rewrite <- (fetch_zonal_outcome stamp resp (raw_bytes disk)).
  destruct (fetch_current_zonal _ _ _) as [bytes [payload|e]]; [|done].
  simpl. rewrite (zonal_normalize_outcome lib payload ∅ (raw_dumps disk)).
  pose proof (zonal_frame_nonempty lib payload (raw_dumps disk)) as Hne.
  destruct (Zonal.normalize_payload lib payload (raw_dumps disk))
    as [dumps' [[|r df]|e]]; done.
Qed.

Lemma append_system_eq pd df disk :
  append_system pd df disk =
  ({| raw_bytes := raw_bytes disk; raw_dumps := raw_dumps disk;
      staged_system := staged_system disk; staged_zonal := staged_zonal disk;
      history_system := (History.write_history_system pd df (history_system disk)).1;
      history_zonal := history_zonal disk |},
   (History.write_history_system pd df (history_system disk)).2).
Proof.
  unfold append_system. by destruct (History.write_history_system pd df (history_system disk)).
Qed.

Lemma append_zonal_eq pd df disk :
  append_zonal pd df disk =
  ({| raw_bytes := raw_bytes disk; raw_dumps := raw_dumps disk;
      staged_system := staged_system disk; staged_zonal := staged_zonal disk;
      history_system := history_system disk;
      history_zonal := (History.write_history_zonal pd df (history_zonal disk)).1 |},
   (History.write_history_zonal pd df (history_zonal disk)).2).
Proof.
  unfold append_zonal. by destruct (History.write_history_zonal pd df (history_zonal disk)).
Qed.

(** What a cycle of [run_once] does to the staged frames and the histories,
    and what it returns. *)
Lemma run_once_spec lib pd x disk :
  match system_frame lib (system_response x), zonal_frame lib (zonal_response x) with
  | Return df_sys, Return df_zone =>
      tables (run_once lib pd x disk).1 =
        (Some df_sys, Some df_zone,
         (History.write_history_system pd df_sys (history_system disk)).1,
         (History.write_history_zonal pd df_zone (history_zonal disk)).1) ∧
      (run_once lib pd x disk).2 =
        Return ((History.write_history_system pd df_sys (history_system disk)).2,
                (History.write_history_zonal pd df_zone (history_zonal disk)).2)
  | Return _, Fail e | Fail e, _ =>
      tables (run_once lib pd x disk).1 = tables disk ∧ (run_once lib pd x disk).2 = Fail e
  end.
Proof.
  unfold run_once.
  destruct (fetch_current_system_df_spec lib (system_stamp x) (system_response x) disk)
    as [Ht1 Hr1].
  destruct (fetch_current_system_df _ _ _ _) as [disk1 r1]. simpl in Ht1, Hr1.
  rewrite <- Hr1. destruct r1 as [df_sys|e].
  - destruct (fetch_current_zonal_df_spec lib (zonal_stamp x) (zonal_response x) disk1)
      as [Ht2 Hr2].
    destruct (fetch_current_zonal_df _ _ _ _) as [disk2 r2]. simpl in Ht2, Hr2.
    rewrite <- Hr2. destruct r2 as [df_zone|e]; [|by rewrite <- Ht1, <- Ht2].
    cbv zeta. rewrite append_system_eq, append_zonal_eq. unfold tables in *. cbn.
    injection Ht1 as _ _ <- <-. injection Ht2 as _ _ <- <-. done.
  - by destruct (zonal_frame lib (zonal_response x)).
Qed.

(** The same for [run_once(only)] of [pipeline.py]. *)
Lemma pipeline_run_once_spec lib pd only x disk :
  let sys := if wants system only
             then match system_frame lib (system_response x) with
                  | Return df => Return (Some df) | Fail e => Fail e end
             else Return None in
  let zone := if wants zonal only
              then match zonal_frame lib (zonal_response x) with
                   | Return df => Return (Some df) | Fail e => Fail e end
              else Return None in
  match sys, zone with
  | Return df_sys, Return df_zone =>
      tables (pipeline_run_once lib pd only x disk).1 =
        (from_option Some (staged_system disk) df_sys,
         from_option Some (staged_zonal disk) df_zone,
         from_option (λ df, (History.write_history_system pd df (history_system disk)).1)
           (history_system disk) df_sys,
         from_option (λ df, (History.write_history_zonal pd df (history_zonal disk)).1)
           (history_zonal disk) df_zone) ∧
      (pipeline_run_once lib pd only x disk).2 =
        Return ((λ df, (History.write_history_system pd df (history_system disk)).2) <$> df_sys,
                (λ df, (History.write_history_zonal pd df (history_zonal disk)).2) <$> df_zone)
  | Return _, Fail e | Fail e, _ =>
      tables (pipeline_run_once lib pd only x disk).1 = tables disk ∧
      (pipeline_run_once lib pd only x disk).2 = Fail e
  end.
Proof.
  intros sys zone. unfold pipeline_run_once.
  assert (Hsys : ∃ disk1,
    (if wants system only then
       let '(disk, r) :=
         fetch_current_system_df lib (system_stamp x) (system_response x) disk in
       match r with
       | Fail e => (disk, Fail e)
       | Return df => (disk, Return (Some df))
       end
     else (disk, Return None)) = (disk1, sys) ∧ tables disk1 = tables disk).
  { unfold sys. destruct (wants system only); [|by exists disk].
    destruct (fetch_current_system_df_spec lib (system_stamp x) (system_response x) disk)
      as [Ht Hr].
    destruct (fetch_current_system_df _ _ _ _) as [disk1 r]. simpl in Ht, Hr.
    rewrite <- Hr. exists disk1. by destruct r. }
  destruct Hsys as (disk1 & -> & Ht1).
  destruct sys as [df_sys|e]; [|by simpl].
  assert (Hzone : ∃ disk2,
    (if wants zonal only then
       let '(disk, r) :=
         fetch_current_zonal_df lib (zonal_stamp x) (zonal_response x) disk1 in
       match r with
       | Fail e => (disk, Fail e)
       | Return df => (disk, Return (Some df))
       end
     else (disk1, Return None)) = (disk2, zone) ∧ tables disk2 = tables disk1).
  { unfold zone. destruct (wants zonal only); [|by exists disk1].
    destruct (fetch_current_zonal_df_spec lib (zonal_stamp x) (zonal_response x) disk1)
      as [Ht Hr].
    destruct (fetch_current_zonal_df _ _ _ _) as [disk2 r]. simpl in Ht, Hr.
    rewrite <- Hr. exists disk2. by destruct r. }
  destruct Hzone as (disk2 & -> & Ht2).
  destruct zone as [df_zone|e]; [|simpl; by rewrite Ht2, Ht1].
  unfold tables in *.
  injection Ht1 as <- <- <- <-. injection Ht2 as <- <- <- <-.
  destruct df_sys as [df_sys|], df_zone as [df_zone|];
    rewrite ?append_system_eq, ?append_zonal_eq; cbn;
    rewrite ?append_system_eq, ?append_zonal_eq; done.
Qed.

Lemma tables_histories_ok disk disk' :
  tables disk = tables disk' → histories_ok disk → histories_ok disk'.
Proof. unfold tables, histories_ok. by intros [= _ _ <- <-]. Qed.

Lemma histories_ok_empty : histories_ok empty_disk.
Proof.
  assert (Hnil : ∀ A d, History.stored (∅ : gmap History.Date (list A)) d = []).
  { intros A d. unfold History.stored. by rewrite lookup_empty. }
  unfold histories_ok, Runs.filed_by_date, empty_disk. simpl. split_and!.
  - intros d. rewrite Hnil. constructor.
  - intros d. rewrite Hnil. constructor.
  - intros d r. rewrite Hnil. by intros ?%elem_of_nil.
  - intros d r. rewrite Hnil. by intros ?%elem_of_nil.
Qed.

Lemma write_history_system_ok pd df disk disk' :
  histories_ok disk →
  history_system disk' = (History.write_history_system pd df (history_system disk)).1 →
  history_zonal disk' = history_zonal disk →
  histories_ok disk'.
Proof.
  intros (Hs & Hz & Hfs & Hfz) Hs' Hz'. unfold histories_ok. rewrite Hs', Hz'.
  split_and!; try done.
  - by apply HistoryFacts.write_history_sorted.
  - by apply HistoryExtras.write_history_filed.
Qed.

Lemma write_history_zonal_ok pd df disk disk' :
  histories_ok disk →
  history_system disk' = history_system disk →
  history_zonal disk' = (History.write_history_zonal pd df (history_zonal disk)).1 →
  histories_ok disk'.
Proof.
  intros (Hs & Hz & Hfs & Hfz) Hs' Hz'. unfold histories_ok. rewrite Hs', Hz'.
  split_and!; try done.
  - by apply HistoryFacts.write_history_sorted.
  - by apply HistoryExtras.write_history_filed.
Qed.

Lemma write_both_ok pd df_sys df_zone disk disk' :
  histories_ok disk →
  history_system disk' = (History.write_history_system pd df_sys (history_system disk)).1 →
  history_zonal disk' = (History.write_history_zonal pd df_zone (history_zonal disk)).1 →
  histories_ok disk'.
Proof.
  intros Hok Hs Hz.
  apply (write_history_zonal_ok pd df_zone
    {| raw_bytes := ∅; raw_dumps := ∅; staged_system := None; staged_zonal := None;
       history_system := history_system disk'; history_zonal := history_zonal disk |});
    [|done..].
  by apply (write_history_system_ok pd df_sys disk).
Qed.

Lemma run_once_ok lib pd x disk :
  histories_ok disk → histories_ok (run_once lib pd x disk).1.
Proof.
  intros Hok. pose proof (run_once_spec lib pd x disk) as Hspec.
  destruct (system_frame lib (system_response x)) as [df_sys|e];
    [destruct (zonal_frame lib (zonal_response x)) as [df_zone|e]|].
  - destruct Hspec as [[= _ _ Hs Hz] _]. by apply (write_both_ok pd df_sys df_zone disk).
  - destruct Hspec as [Ht _]. by apply (tables_histories_ok disk).
  - destruct Hspec as [Ht _]. by apply (tables_histories_ok disk).
Qed.

Lemma pipeline_run_once_ok lib pd only x disk :
  histories_ok disk → histories_ok (pipeline_run_once lib pd only x disk).1.
Proof.
  intros Hok. pose proof (pipeline_run_once_spec lib pd only x disk) as Hspec.
  cbv zeta in Hspec.
  destruct (if wants system only then _ else _) as [df_sys|e];
    [destruct (if wants zonal only then _ else _) as [df_zone|e]|].
  - destruct Hspec as [[= _ _ Hs Hz] _].
    destruct df_sys as [df_sys|], df_zone as [df_zone|]; simpl in Hs, Hz.
    + by apply (write_both_ok pd df_sys df_zone disk).
    + by apply (write_history_system_ok pd df_sys disk).
    + by apply (write_history_zonal_ok pd df_zone disk).
    + unfold histories_ok in *. by rewrite Hs, Hz.
  - destruct Hspec as [Ht _]. by apply (tables_histories_ok disk).
  - destruct Hspec as [Ht _]. by apply (tables_histories_ok disk).
Qed.

Lemma run_cycles_snoc lib pd xs x disk :
  run_cycles lib pd (xs ++ [x]) disk = (run_once lib pd x (run_cycles lib pd xs disk)).1.
Proof. unfold run_cycles. by rewrite foldl_snoc. Qed.

(** What a day of a backfill does to the histories. *)
Lemma backfill_system_day_spec lib pd resp disk :
  (staged_system (backfill_system_day lib pd resp disk).1 = staged_system disk ∧
   staged_zonal (backfill_system_day lib pd resp disk).1 = staged_zonal disk ∧
   history_zonal (backfill_system_day lib pd resp disk).1 = history_zonal disk) ∧
  (history_system (backfill_system_day lib pd resp disk).1 = history_system disk ∨
   ∃ df, history_system (backfill_system_day lib pd resp disk).1 =
         (History.write_history_system pd df (history_system disk)).1).
Proof.
  unfold backfill_system_day. destruct (fetch_day resp) as [payload|e]; [|by auto].
  destruct (System.normalize_payload lib payload (raw_dumps disk)) as [dumps [df|e]];
    [|by auto].
  rewrite append_system_eq. cbn. split; [done|]. right. by exists df.
Qed.

Lemma backfill_zonal_day_spec lib pd resp disk :
  (staged_system (backfill_zonal_day lib pd resp disk).1 = staged_system disk ∧
   staged_zonal (backfill_zonal_day lib pd resp disk).1 = staged_zonal disk ∧
   history_system (backfill_zonal_day lib pd resp disk).1 = history_system disk) ∧
  (history_zonal (backfill_zonal_day lib pd resp disk).1 = history_zonal disk ∨
   ∃ df, history_zonal (backfill_zonal_day lib pd resp disk).1 =
         (History.write_history_zonal pd df (history_zonal disk)).1).
Proof.
  unfold backfill_zonal_day. destruct (fetch_day resp) as [payload|e]; [|by auto].
  destruct (Zonal.normalize_payload lib payload (raw_dumps disk)) as [dumps [df|e]];
    [|by auto].
  rewrite append_zonal_eq. cbn. split; [done|]. right. by exists df.
Qed.

Lemma backfill_system_day_ok lib pd resp disk :
  histories_ok disk → histories_ok (backfill_system_day lib pd resp disk).1.
Proof.
  intros Hok. destruct (backfill_system_day_spec lib pd resp disk) as [(_ & _ & Hz) [Hs|[df Hs]]].
  - unfold histories_ok in *. by rewrite Hs, Hz.
  - by apply (write_history_system_ok pd df disk).
Qed.

Lemma backfill_zonal_day_ok lib pd resp disk :
  histories_ok disk → histories_ok (backfill_zonal_day lib pd resp disk).1.
Proof.
  intros Hok. destruct (backfill_zonal_day_spec lib pd resp disk) as [(_ & _ & Hs) [Hz|[df Hz]]].
  - unfold histories_ok in *. by rewrite Hs, Hz.
  - by apply (write_history_zonal_ok pd df disk).
Qed.

Lemma run_backfill_cons lib pd only resp_sys resp_zone days disk :
  (run_backfill lib pd only ((resp_sys, resp_zone) :: days) disk).1 =
  (run_backfill lib pd only days
     (let disk1 := if wants system only
                   then (backfill_system_day lib pd resp_sys disk).1 else disk in
      if wants zonal only then (backfill_zonal_day lib pd resp_zone disk1).1 else disk1)).1.
Proof.
  cbn [run_backfill].
  destruct (wants system only), (wants zonal only); cbv zeta;
    try destruct (backfill_system_day lib pd resp_sys disk) as [disk1 added_sys];
    try destruct (backfill_zonal_day lib pd resp_zone _) as [disk2 added_zone];
    simpl; by destruct (run_backfill lib pd only days _).
Qed.

(** The system history after a system day depends on the system history
    before only. *)
Lemma backfill_system_day_history lib pd resp disk disk' :
  history_system disk = history_system disk' →
  history_system (backfill_system_day lib pd resp disk).1 =
  history_system (backfill_system_day lib pd resp disk').1.
Proof.
  intros Heq. unfold backfill_system_day. destruct (fetch_day resp) as [payload|e]; [|done].
  pose proof (system_normalize_outcome lib payload (raw_dumps disk) (raw_dumps disk')) as Hn.
  destruct (System.normalize_payload lib payload (raw_dumps disk)) as [dumps [df|e]],
           (System.normalize_payload lib payload (raw_dumps disk')) as [dumps' [df'|e']];
    simplify_eq/=; rewrite ?append_system_eq; cbn; by rewrite ?Heq.
Qed.

Lemma backfill_zonal_day_history lib pd resp disk disk' :
  history_zonal disk = history_zonal disk' →
  history_zonal (backfill_zonal_day lib pd resp disk).1 =
  history_zonal (backfill_zonal_day lib pd resp disk').1.
Proof.
  intros Heq. unfold backfill_zonal_day. destruct (fetch_day resp) as [payload|e]; [|done].
  pose proof (zonal_normalize_outcome lib payload (raw_dumps disk) (raw_dumps disk')) as Hn.
  destruct (Zonal.normalize_payload lib payload (raw_dumps disk)) as [dumps [df|e]],
           (Zonal.normalize_payload lib payload (raw_dumps disk')) as [dumps' [df'|e']];
    simplify_eq/=; rewrite ?append_zonal_eq; cbn; by rewrite ?Heq.
Qed.

(** The paths a fetcher writes are distinct. *)
Lemma raw_paths_distinct stamp stamp' :
  system_raw_path stamp ≠ system_unexpected_path stamp' ∧
  zonal_raw_path stamp ≠ zonal_unexpected_path stamp' ∧
  zonal_raw_path stamp ≠ system_raw_path stamp' ∧
  zonal_unexpected_path stamp ≠ system_raw_path stamp'.
Proof. by repeat split. Qed.

Lemma system_fetch_saves_raw stamp resp bytes dumps :
  (fetch_current_fivemin_load stamp resp bytes dumps).1.1 !! system_raw_path stamp =
  Some (content resp).
Proof.
  unfold fetch_current_fivemin_load.
  destruct (is_error_status _); [cbn [fst snd]; by rewrite lookup_insert_eq|].
  destruct (negb _); cbn [fst snd].
  - rewrite lookup_insert_ne by (symmetry; apply raw_paths_distinct).
    by rewrite lookup_insert_eq.
  - destruct (json resp) as [payload|]; [|cbn [fst snd]; by rewrite lookup_insert_eq].
    destruct (error_key payload); cbn [fst snd]; by rewrite lookup_insert_eq.
Qed.

Lemma zonal_fetch_saves_raw stamp resp bytes :
  (fetch_current_zonal stamp resp bytes).1 !! zonal_raw_path stamp = Some (content resp).
Proof.
  unfold fetch_current_zonal.
  destruct (is_error_status _); [cbn [fst snd]; by rewrite lookup_insert_eq|].
  destruct (negb _); cbn [fst snd].
  - rewrite lookup_insert_ne by (symmetry; apply raw_paths_distinct).
    by rewrite lookup_insert_eq.
  - destruct (json resp) as [payload|]; cbn [fst snd]; by rewrite lookup_insert_eq.
Qed.

Lemma zonal_fetch_keeps_system_raw stamp stamp' resp bytes :
  (fetch_current_zonal stamp resp bytes).1 !! system_raw_path stamp' =
  bytes !! system_raw_path stamp'.
Proof.
  unfold fetch_current_zonal.
  destruct (raw_paths_distinct stamp stamp') as (_ & _ & H1 & H2).
  destruct (is_error_status _); [cbn [fst snd]; by rewrite lookup_insert_ne|].
  destruct (negb _); cbn [fst snd].
  - by rewrite !lookup_insert_ne.
  - destruct (json resp) as [payload|]; cbn [fst snd]; by rewrite lookup_insert_ne.
Qed.

(** X18. The raw response of every cycle is kept: whatever the system endpoint
    answers, and whether or not the cycle fails later, [run_once] leaves the
    bytes of the system response in its [data/raw] file; the zonal response
    is requested, and its bytes are kept, whenever the system frame was
    obtained. *)
Theorem raw_responses_are_kept lib pd x disk :
  raw_bytes (run_once lib pd x disk).1 !! system_raw_path (system_stamp x) =
    Some (content (system_response x)) ∧
  match system_frame lib (system_response x) with
  | Return _ =>
      raw_bytes (run_once lib pd x disk).1 !! zonal_raw_path (zonal_stamp x) =
        Some (content (zonal_response x))
  | Fail _ => True
  end.
Proof.
  assert (Hsys : ∀ disk1 r,
    fetch_current_system_df lib (system_stamp x) (system_response x) disk = (disk1, r) →
    raw_bytes disk1 !! system_raw_path (system_stamp x) = Some (content (system_response x))).
  { intros disk1 r. unfold fetch_current_system_df.
    pose proof (system_fetch_saves_raw (system_stamp x) (system_response x)
                  (raw_bytes disk) (raw_dumps disk)) as Hraw.
    destruct (fetch_current_fivemin_load _ _ _ _) as [[bytes dumps] [payload|e]];
      simpl in Hraw; [|by intros [= <- _]].
    destruct (System.normalize_payload lib payload dumps) as [dumps' [[|r0 df]|e]];
      by intros [= <- _]. }
  assert (Hzone : ∀ disk1 disk2 r,
    fetch_current_zonal_df lib (zonal_stamp x) (zonal_response x) disk1 = (disk2, r) →
    raw_bytes disk2 !! zonal_raw_path (zonal_stamp x) = Some (content (zonal_response x)) ∧
    raw_bytes disk2 !! system_raw_path (system_stamp x) =
      raw_bytes disk1 !! system_raw_path (system_stamp x)).
  { intros disk1 disk2 r. unfold fetch_current_zonal_df.
    pose proof (zonal_fetch_saves_raw (zonal_stamp x) (zonal_response x)
                  (raw_bytes disk1)) as Hraw.
    pose proof (zonal_fetch_keeps_system_raw (zonal_stamp x) (system_stamp x)
                  (zonal_response x) (raw_bytes disk1)) as Hkeep.
    destruct (fetch_current_zonal _ _ _) as [bytes [payload|e]];
      simpl in Hraw, Hkeep; [|by intros [= <- _]].
    destruct (Zonal.normalize_payload lib payload (raw_dumps disk1))
      as [dumps' [[|r0 df]|e]]; by intros [= <- _]. }
  unfold run_once.
  destruct (fetch_current_system_df_spec lib (system_stamp x) (system_response x) disk)
    as [_ Hr1].
  destruct (fetch_current_system_df _ _ _ _) as [disk1 r1] eqn:E1.
  simpl in Hr1. rewrite <- Hr1. specialize (Hsys _ _ eq_refl).
  destruct r1 as [df_sys|e]; [|done].
  destruct (fetch_current_zonal_df _ _ _ _) as [disk2 r2] eqn:E2.
  destruct (Hzone _ _ _ E2) as [Hz Hs]. rewrite Hsys in Hs.
  destruct r2 as [df_zone|e]; [|done].
  cbv zeta. rewrite append_system_eq, append_zonal_eq. by cbn.
Qed.

(** X19. A failed cycle writes no table: when [run_once] raises, whether in a
    fetcher or in a normalizer and for either dataset, the staged frames and
    both histories are as they were before the cycle. *)
Theorem failed_cycle_writes_no_table lib pd x disk e :
  (run_once lib pd x disk).2 = Fail e →
  tables (run_once lib pd x disk).1 = tables disk.
Proof.
  intros Hfail. pose proof (run_once_spec lib pd x disk) as Hspec.
  destruct (system_frame lib (system_response x)) as [df_sys|e1];
    [destruct (zonal_frame lib (zonal_response x)) as [df_zone|e2]|].
  - destruct Hspec as [_ Hr]. by rewrite Hr in Hfail.
  - by destruct Hspec.
  - by destruct Hspec.
Qed.

Lemma failed_cycle_writes_no_table_witness :
  let disk := (run_once Sample.lib (SampleHistory.libs false) Exchanges.good empty_disk).1 in
  tables (run_once Sample.lib (SampleHistory.libs false) Exchanges.zonal_down disk).1 = tables disk.
Proof.
  intros disk.
  apply (failed_cycle_writes_no_table Sample.lib (SampleHistory.libs false)
           Exchanges.zonal_down disk
           (HTTPError 503)).
  by vm_compute.
Defined.

(** X21. The guards [if df.empty: raise RuntimeError("... DF empty")] of
    [fetch_current_system_df] and [fetch_current_zonal_df] never fire: a
    normalizer that returns a frame returns a non-empty one. *)
Theorem empty_frame_guard_never_fires lib stamp resp disk :
  (fetch_current_system_df lib stamp resp disk).2 ≠ Fail (RuntimeError EmptyFrame) ∧
  (fetch_current_zonal_df lib stamp resp disk).2 ≠ Fail (RuntimeError EmptyFrame).
Proof.
  split.
  - destruct (fetch_current_system_df_spec lib stamp resp disk) as [_ ->].
    unfold system_frame, fetched_system, fetch_current_fivemin_load.
    destruct (is_error_status _); [done|]. destruct (negb _); [done|].
    destruct (json resp) as [payload|]; [|done].
    destruct (error_key payload); [done|]. simpl.
    by destruct (System.normalize_payload lib payload ∅).2.
  - destruct (fetch_current_zonal_df_spec lib stamp resp disk) as [_ ->].
    unfold zonal_frame, fetched_zonal, fetch_current_zonal.
    destruct (is_error_status _); [done|]. destruct (negb _); [done|].
    destruct (json resp) as [payload|]; [|done]. simpl.
    by destruct (Zonal.normalize_payload lib payload ∅).2.
Qed.

(** X22. The polling loop keeps the histories well formed: if every history
    file is in ascending [ts_utc] order and holds only rows of its own UTC
    date, then the same holds after any sequence of cycles of [run_once],
    failed ones included. *)
Theorem polling_keeps_histories_well_formed lib pd xs disk :
  histories_ok disk → histories_ok (run_cycles lib pd xs disk).
Proof.
  intros Hok. induction xs as [|x xs IH] using rev_ind; [done|].
  rewrite run_cycles_snoc. by apply run_once_ok.
Qed.

Lemma polling_keeps_histories_well_formed_witness :
  histories_ok
    (run_cycles Sample.lib (SampleHistory.libs false)
       [Exchanges.good; Exchanges.zonal_down; Exchanges.good]
       empty_disk).
Proof. apply polling_keeps_histories_well_formed, histories_ok_empty. Defined.

(** X23. The polling loop never loses a timestamp: when a history file holds
    a row for a [ts_utc], it holds a row for that [ts_utc] after any sequence
    of cycles of [run_once]. *)
Theorem polling_never_loses_a_timestamp lib pd xs disk :
  (∀ d r, r ∈ History.stored (history_system disk) d →
          SystemFile.ts_utc r ∈
            SystemFile.ts_utc <$>
              History.stored (history_system (run_cycles lib pd xs disk)) d) ∧
  (∀ d r, r ∈ History.stored (history_zonal disk) d →
          ZonalFile.ts_utc r ∈
            ZonalFile.ts_utc <$>
              History.stored (history_zonal (run_cycles lib pd xs disk)) d).
Proof.
  induction xs as [|x xs [IHs IHz]] using rev_ind.
  - split; intros d r Hr; by apply list_elem_of_fmap_2.
  - rewrite run_cycles_snoc.
    pose proof (run_once_spec lib pd x (run_cycles lib pd xs disk)) as Hspec.
    destruct (system_frame lib (system_response x)) as [df_sys|e];
      [destruct (zonal_frame lib (zonal_response x)) as [df_zone|e]|].
    + destruct Hspec as [[= _ _ -> ->] _]. split; intros d r Hr.
      * apply IHs, list_elem_of_fmap in Hr as (r' & -> & Hr').
        apply HistoryExtras.write_history_ts_utc; [by intros a b [= ? _]|].
        left. by apply list_elem_of_fmap_2.
      * apply IHz, list_elem_of_fmap in Hr as (r' & -> & Hr').
        apply HistoryExtras.write_history_ts_utc; [by intros a b [= ? _]|].
        left. by apply list_elem_of_fmap_2.
    + destruct Hspec as [[= _ _ -> ->] _]. by split.
    + destruct Hspec as [[= _ _ -> ->] _]. by split.
Qed.

(** X24. [run_once(only=None)] of [pipeline.py] and [run_once] of
    [poll_isone_to_history.py] do the same: they leave the same files and
    report the same counts, or raise the same error. *)
Theorem pipeline_cycle_is_the_poll_cycle lib pd x disk :
  (pipeline_run_once lib pd None x disk).1 = (run_once lib pd x disk).1 ∧
  (pipeline_run_once lib pd None x disk).2 =
    match (run_once lib pd x disk).2 with
    | Return (sys_added, zone_added) => Return (Some sys_added, Some zone_added)
    | Fail e => Fail e
    end.
Proof.
  unfold pipeline_run_once, run_once. simpl.
  destruct (fetch_current_system_df _ _ _ _) as [disk1 [df_sys|e]]; [|done].
  destruct (fetch_current_zonal_df _ _ _ _) as [disk2 [df_zone|e]]; [|done].
  cbv zeta. rewrite !append_system_eq. cbn. rewrite !append_zonal_eq. by cbn.
Qed.

Lemma run_backfill_untouched lib pd days disk :
  (staged_zonal (run_backfill lib pd (Some system) days disk).1 = staged_zonal disk ∧
   history_zonal (run_backfill lib pd (Some system) days disk).1 = history_zonal disk) ∧
  (staged_system (run_backfill lib pd (Some zonal) days disk).1 = staged_system disk ∧
   history_system (run_backfill lib pd (Some zonal) days disk).1 = history_system disk).
Proof.
  revert disk. induction days as [|[resp_sys resp_zone] days IH]; intros disk; [done|].
  rewrite !run_backfill_cons. simpl.
  destruct (IH (backfill_system_day lib pd resp_sys disk).1) as [[-> ->] _].
  destruct (IH (backfill_zonal_day lib pd resp_zone disk).1) as [_ [-> ->]].
  destruct (backfill_system_day_spec lib pd resp_sys disk) as [(_ & -> & ->) _].
  by destruct (backfill_zonal_day_spec lib pd resp_zone disk) as [(-> & _ & ->) _].
Qed.

(** X25. [--only] limits what is written: a cycle or a backfill restricted to
    one dataset leaves the staged frame and the history of the other dataset
    as they were. *)
Theorem only_one_dataset_is_written lib pd x days disk :
  (staged_zonal (pipeline_run_once lib pd (Some system) x disk).1 = staged_zonal disk ∧
   history_zonal (pipeline_run_once lib pd (Some system) x disk).1 = history_zonal disk) ∧
  (staged_system (pipeline_run_once lib pd (Some zonal) x disk).1 = staged_system disk ∧
   history_system (pipeline_run_once lib pd (Some zonal) x disk).1 = history_system disk) ∧
  (staged_zonal (run_backfill lib pd (Some system) days disk).1 = staged_zonal disk ∧
   history_zonal (run_backfill lib pd (Some system) days disk).1 = history_zonal disk) ∧
  (staged_system (run_backfill lib pd (Some zonal) days disk).1 = staged_system disk ∧
   history_system (run_backfill lib pd (Some zonal) days disk).1 = history_system disk).
Proof.
  split; [|split; [|apply run_backfill_untouched]].
  - pose proof (pipeline_run_once_spec lib pd (Some system) x disk) as Hspec.
    simpl in Hspec. destruct (system_frame lib (system_response x));
      by destruct Hspec as [[= _ -> _ ->] _].
  - pose proof (pipeline_run_once_spec lib pd (Some zonal) x disk) as Hspec.
    simpl in Hspec. destruct (zonal_frame lib (zonal_response x));
      by destruct Hspec as [[= -> _ -> _] _].
Qed.

Lemma backfill_days_cons lib pd resp_sys resp_zone days disk :
  (backfill_days lib pd ((resp_sys, resp_zone) :: days) disk).1 =
  (backfill_days lib pd days
     (backfill_zonal_day lib pd resp_zone (backfill_system_day lib pd resp_sys disk).1).1).1.
Proof.
  cbn [backfill_days].
  destruct (backfill_system_day lib pd resp_sys disk) as [disk1 added_sys].
  destruct (backfill_zonal_day lib pd resp_zone _) as [disk2 added_zone].
  simpl. by destruct (backfill_days lib pd days _).
Qed.

(** X26. [run_backfill(days, only=None)] of [pipeline.py] does what
    [backfill_days(n_days)] of [backfill_isone_days.py] does: the same files
    and the same summaries, day by day. *)
Theorem pipeline_backfill_is_backfill_days lib pd days disk :
  run_backfill lib pd None days disk = backfill_days lib pd days disk.
Proof.
  revert disk. induction days as [|[resp_sys resp_zone] days IH]; intros disk; [done|].
  cbn [run_backfill backfill_days wants].
  destruct (backfill_system_day lib pd resp_sys disk) as [disk1 added_sys].
  destruct (backfill_zonal_day lib pd resp_zone disk1) as [disk2 added_zone].
  by rewrite IH.
Qed.

(** X27. In a backfill the two datasets do not affect each other: the system
    history after [backfill_days] is the one a system-only backfill of the
    same days leaves, whatever the zonal endpoint answered and however the
    zonal half failed, and the same for the zonal history. *)
Theorem backfill_datasets_are_independent lib pd days disk :
  history_system (backfill_days lib pd days disk).1 =
    history_system (run_backfill lib pd (Some system) days disk).1 ∧
  history_zonal (backfill_days lib pd days disk).1 =
    history_zonal (run_backfill lib pd (Some zonal) days disk).1.
Proof.
  assert (Hgen : ∀ disk disk',
    (history_system disk = history_system disk' →
     history_system (backfill_days lib pd days disk).1 =
     history_system (run_backfill lib pd (Some system) days disk').1) ∧
    (history_zonal disk = history_zonal disk' →
     history_zonal (backfill_days lib pd days disk).1 =
     history_zonal (run_backfill lib pd (Some zonal) days disk').1)).
  { induction days as [|[resp_sys resp_zone] days IH]; intros d1 d2; [done|].
    rewrite backfill_days_cons, !run_backfill_cons. simpl. split; intros Heq; apply IH.
    - destruct (backfill_zonal_day_spec lib pd resp_zone (backfill_system_day lib pd resp_sys d1).1)
        as [(_ & _ & ->) _].
      by apply backfill_system_day_history.
    - apply backfill_zonal_day_history.
      by destruct (backfill_system_day_spec lib pd resp_sys d1) as [(_ & _ & ->) _]. }
  split; by apply Hgen.
Qed.

(** X28. A backfill keeps the histories well formed: if every history file
    is in ascending [ts_utc] order and holds only rows of its own UTC date,
    the same holds after [run_backfill] over any days and for any [only],
    whichever days fail, and after a [run_once(only)] that follows it. *)
Theorem backfill_keeps_histories_well_formed lib pd only days x disk :
  histories_ok disk →
  histories_ok (run_backfill lib pd only days disk).1 ∧
  histories_ok (pipeline_run_once lib pd only x (run_backfill lib pd only days disk).1).1.
Proof.
  intros Hok.
  assert (Hb : histories_ok (run_backfill lib pd only days disk).1).
  { revert disk Hok. induction days as [|[resp_sys resp_zone] days IH]; intros disk Hok;
      [done|].
    rewrite run_backfill_cons. apply IH. cbv zeta.
    destruct (wants system only), (wants zonal only);
      auto using backfill_system_day_ok, backfill_zonal_day_ok. }
  split; [done|]. by apply pipeline_run_once_ok.
Qed.

Lemma backfill_keeps_histories_well_formed_witness :
  histories_ok
    (run_backfill Sample.lib (SampleHistory.libs false) None
       [(Exchanges.system_ok, Exchanges.unavailable);
        (Exchanges.login_page, Exchanges.zonal_ok)] empty_disk).1 ∧
  histories_ok
    (pipeline_run_once Sample.lib (SampleHistory.libs false) None Exchanges.good
       (run_backfill Sample.lib (SampleHistory.libs false) None
          [(Exchanges.system_ok, Exchanges.unavailable);
           (Exchanges.login_page, Exchanges.zonal_ok)] empty_disk).1).1.
Proof. apply backfill_keeps_histories_well_formed, histories_ok_empty. Defined.

End CycleFacts.

(** ** The poller's clock *)

Module ClockFacts.
Import Clock.

(** X29. The poller wakes on the next multiple of the interval: for a positive
    interval and a time on or after the epoch, [_sleep_until_next_interval]
    sleeps until [next_tick], which is a multiple of [interval_sec] seconds,
    is strictly later than now, and is at most one interval away. *)
Theorem poller_wakes_on_next_multiple now interval_sec :
  0 < interval_sec → 0 ≤ now →
  ∃ tick,
    next_tick now interval_sec = Some tick ∧
    (interval_sec | tick) ∧
    sleep_time now interval_sec = Some (tick * NS - now) ∧
    0 < tick * NS - now ≤ interval_sec * NS.
Proof.
  intros Hi Hnow. unfold sleep_time, next_tick, whole_seconds.
  rewrite decide_False by lia. rewrite Z.quot_div_nonneg by (unfold NS; lia).
  eexists. split; [done|].
  set (s := now `div` NS).
  assert (Hs : NS * s ≤ now < NS * s + NS).
  { unfold s. pose proof (Z.div_mod now NS) as Hdm.
    pose proof (Z.mod_pos_bound now NS). unfold NS in *. lia. }
  assert (Ht : interval_sec * (s `div` interval_sec) ≤ s
               < interval_sec * (s `div` interval_sec) + interval_sec).
  { pose proof (Z.div_mod s interval_sec) as Hdm.
    pose proof (Z.mod_pos_bound s interval_sec). lia. }
  set (q := s `div` interval_sec) in *.
  assert (Hb : 0 < (q + 1) * interval_sec * NS - now ≤ interval_sec * NS).
  { unfold NS in *. nia. }
  split_and!.
  - by apply Z.divide_factor_r.
  - f_equal. lia.
  - lia.
  - lia.
Qed.

Lemma poller_wakes_on_next_multiple_witness :
  ∃ tick,
    next_tick 1704067512500000000 300 = Some tick ∧
    (300 | tick) ∧
    sleep_time 1704067512500000000 300 = Some (tick * NS - 1704067512500000000) ∧
    0 < tick * NS - 1704067512500000000 ≤ 300 * NS.
Proof. apply poller_wakes_on_next_multiple; lia. Defined.

End ClockFacts.

(** ** History file names *)

Module WarehouseFacts.
Import Warehouse.

Lemma app_String x a b : String x a +:+ b = String x (a +:+ b).
Proof. reflexivity. Qed.

Lemma app_empty b : "" +:+ b = b.
Proof. reflexivity. Qed.

Lemma append_assoc a b c : (a +:+ b) +:+ c = a +:+ (b +:+ c).
Proof. induction a as [|x a IH]; [done|]. by rewrite !app_String, IH. Qed.

Lemma occurs_app c a b : occurs c (a +:+ b) = occurs c a || occurs c b.
Proof.
  induction a as [|c' a IH]; [done|].
  rewrite app_String. simpl. by rewrite IH, orb_assoc.
Qed.

Lemma rpartition_absent sep s : occurs sep s = false → rpartition sep s = None.
Proof.
  induction s as [|c s IH]; simpl; [done|].
  intros [Hc Hs]%orb_false_iff. by rewrite IH, Hc.
Qed.

Lemma rpartition_last sep a b :
  occurs sep b = false → rpartition sep (a +:+ String sep b) = Some (a, b).
Proof.
  intros Hb. induction a as [|c a IH].
  - rewrite app_empty. simpl. by rewrite rpartition_absent, Ascii.eqb_refl.
  - rewrite app_String. simpl. by rewrite IH.
Qed.

Lemma date_of_history_path prefix dataset date_str :
  occurs "/" dataset = false → occurs "." dataset = false → dataset ≠ EmptyString →
  occurs "_" date_str = false → occurs "/" date_str = false →
  _date_from_filename
    (prefix +:+ String "/" (dataset +:+ String "_" (date_str +:+ ".csv"))) = date_str.
Proof.
  intros Hslash Hdot Hne Hd_ Hd_slash.
  assert (Hname : name (prefix +:+ String "/" (dataset +:+ String "_" (date_str +:+ ".csv")))
                  = dataset +:+ String "_" (date_str +:+ ".csv")).
  { unfold name. rewrite rpartition_last; [done|].
    rewrite occurs_app, Hslash. simpl. by rewrite occurs_app, Hd_slash. }
  assert (Hstem : stem (prefix +:+ String "/" (dataset +:+ String "_" (date_str +:+ ".csv")))
                  = dataset +:+ String "_" date_str).
  { unfold stem. rewrite Hname.
    assert (dataset +:+ String "_" (date_str +:+ ".csv") =
            (dataset +:+ String "_" date_str) +:+ String "." "csv") as ->.
    { by rewrite append_assoc, app_String. }
    rewrite rpartition_last by done.
    rewrite bool_decide_true; [done|]. split; [|done]. by destruct dataset. }
  unfold _date_from_filename. rewrite Hstem. by rewrite rpartition_last.
Qed.

(** X30. The warehouse reads the date the poller wrote: for a date string
    without an underscore or a slash (as YYYY-MM-DD and NaT are),
    [_date_from_filename] of the history file that [write_history_system] or
    [write_history_zonal] names after that date is that date. *)
Theorem partition_date_is_read_back date_str :
  occurs "_" date_str = false → occurs "/" date_str = false →
  _date_from_filename (system_history_path date_str) = date_str ∧
  _date_from_filename (zonal_history_path date_str) = date_str.
Proof.
  intros Hd_ Hd_slash. split.
  - apply (date_of_history_path "data/history" "system_load" date_str); done.
  - apply (date_of_history_path "data/history" "zonal_load" date_str); done.
Qed.

Lemma partition_date_is_read_back_witness :
  _date_from_filename (system_history_path "2024-01-01") = "2024-01-01" ∧
  _date_from_filename (zonal_history_path "2024-01-01") = "2024-01-01".
Proof. apply partition_date_is_read_back; reflexivity. Defined.

End WarehouseFacts.
